(** * firebase-auth-lite: the session store, the token refresher and the
      redirect-flow coordinator of [src/main.js]

    [src/main.js] holds two revisions of the [Auth] class.  The first one
    (lines 1-449: [persistSession], a [providers] table, [refreshRequest])
    is embedded in [Module V1], the second one (lines 450-906: [setState],
    [sKey], [_ref]) in [Module V2].  Both run on the same machine, defined
    first: asynchronous methods are programs of a small free monad, and an
    event loop resumes suspended programs one at a time.

    Modelling conventions.
    - [this.storage] is the default adapter of the source, a wrapper of
      [localStorage]: a finite map from keys to texts, updated at the call,
      with the awaiting caller resumed later.
    - A stored text is kept by its content: [SJson u] is the text
      [JSON.stringify(u)], [SText s] any other text.
    - [fetch] belongs to the environment: a response is any [FetchOutcome].
    - A listener is known by its identity (a number) and only observes: a
      call [cb(user)] is recorded in the trace of the world.
    - The [Request] class belongs to the platform too: a [Platform] says
      what [new Request] and [headers.set] return or throw. *)

From Stdlib Require Import ZArith Ascii String.
From stdpp Require Import gmap strings list fin_maps.

Open Scope string_scope.

(* ===================================================================== *)
(** ** Data model *)
(* ===================================================================== *)

(** [tokenManager: { idToken, refreshToken, expiresAt }]; a missing text
    field is JavaScript's [undefined]. *)
Record TokenManager := {
  idToken : option string;
  refreshToken : option string;
  expiresAt : Z
}.

(** The session object: the provider-defined fields and the reserved
    [tokenManager] field. *)
Record User := {
  profile : gmap string string;
  tokenManager : TokenManager
}.

Inductive Exn :=
| Error (msg : string)
| TypeError (msg : string)
| SyntaxError (msg : string).

Definition message (e : Exn) : string :=
  match e with Error m | TypeError m | SyntaxError m => m end.

(** The keys of a JSON response body that the class reads. *)
Record Data := {
  data_id_token : option string;
  data_refresh_token : option string;
  data_idToken : option string;
  data_refreshToken : option string;
  data_authUri : option string;
  data_sessionId : option string;
  data_context : option string;
  data_users : list (gmap string string);
  data_error_message : option string
}.

(** What [api] returns: the body with the hidden [expiresAt] property. *)
Record ApiData := {
  payload : Data;
  data_expiresAt : Z
}.

(** Texts held by [localStorage]. *)
Inductive StoreVal :=
| SText (s : string)
| SJson (u : option User).

(** The objects passed to [JSON.stringify] as request bodies. *)
Inductive ReqBody :=
| NoBody
| TextBody (s : string)
| TokenBody (grant_type : string) (refresh_token : option string)
| CreateAuthUriBody (providerId : option string) (continueUri : string)
    (oauthScope : option string) (authFlowType : string) (context : option string)
| SignInWithIdpBody (idTok : option string) (requestUri : string)
    (sessionId : option StoreVal) (returnSecureToken : bool)
| LookupBody (idTok : option string).

Record Request := {
  url : string;
  method : string;
  headers : list (string * string);
  body : ReqBody
}.

Record Response := {
  ok : bool;
  date : Z;          (* Date.parse(response.headers.get('date')) *)
  json : Data
}.

Inductive FetchOutcome :=
| FetchRejected (e : Exn)
| FetchResponse (r : Response).

(** A listener and a promise are known by a number. *)
Abbreviation Listener := nat (only parsing).
Abbreviation PromiseId := nat (only parsing).

(** The fields of an [Auth] instance.  [refreshRequest] is the in-flight
    refresh promise ([this.refreshRequest] in V1, [this._ref] in V2). *)
Record Auth := {
  name : string;
  apiKey : string;
  redirectUri : option string;
  providers : gmap string (option string);
  listeners : list Listener;
  user : option User;
  refreshRequest : option PromiseId
}.

Definition set_user (u : option User) (a : Auth) : Auth :=
  {| name := name a; apiKey := apiKey a; redirectUri := redirectUri a;
     providers := providers a; listeners := listeners a;
     user := u; refreshRequest := refreshRequest a |}.

Definition set_refreshRequest (p : option PromiseId) (a : Auth) : Auth :=
  {| name := name a; apiKey := apiKey a; redirectUri := redirectUri a;
     providers := providers a; listeners := listeners a;
     user := user a; refreshRequest := p |}.

Definition set_listeners (l : list Listener) (a : Auth) : Auth :=
  {| name := name a; apiKey := apiKey a; redirectUri := redirectUri a;
     providers := providers a; listeners := l;
     user := user a; refreshRequest := refreshRequest a |}.

(** Values a promise can resolve to. *)
Inductive Val :=
| VUndef
| VData (d : ApiData)
| VContext (c : option string)
| VResponse (o : Response).

(** What the world observes, in order. *)
Inductive Event :=
| EvFetch (req : Request)
| EvStorageGet (key : string)
| EvStorageSet (key : string) (v : StoreVal)
| EvStorageRemove (key : string)
| EvNotify (cb : Listener) (u : option User)
| EvHandle (p : option PromiseId)      (* an assignment to the refresh handle *)
| EvAssign (href : string)             (* location.assign *)
| EvReplaceState.                      (* history.replaceState to origin + pathname *)

(* ===================================================================== *)
(** ** Asynchronous programs *)
(* ===================================================================== *)

Inductive StorageCall :=
| SGet (key : string)
| SSet (key : string) (v : StoreVal)
| SRemove (key : string).

(** A method body.  [Storage], [Fetch], [Tick] and [Await] are the points
    where the body is suspended ([await]); everything else runs without
    interruption.  [Spawn] calls an asynchronous function, or starts a
    promise chain, without awaiting it: the callee runs up to its first
    suspension and the caller goes on with the promise. *)
Inductive Prog (A : Type) : Type :=
| Ret (a : A)
| Throw (e : Exn)
| GetThis (k : Auth -> Prog A)
| Modify (f : Auth -> Auth) (k : Prog A)
| Now (k : Z -> Prog A)
| Log (e : Event) (k : Prog A)
| Storage (c : StorageCall) (k : option StoreVal -> Prog A)
| Fetch (req : Request) (k : FetchOutcome -> Prog A)
| Tick (k : Prog A)
| Spawn (callee : Prog Val) (k : PromiseId -> Prog A)
| Await (p : PromiseId) (k : Exn + Val -> Prog A).

Arguments Ret {A} a.
Arguments Throw {A} e.
Arguments GetThis {A} k.
Arguments Modify {A} f k.
Arguments Now {A} k.
Arguments Log {A} e k.
Arguments Storage {A} c k.
Arguments Fetch {A} req k.
Arguments Tick {A} k.
Arguments Spawn {A} callee k.
Arguments Await {A} p k.

Fixpoint bind {A B} (p : Prog A) (f : A -> Prog B) : Prog B :=
  match p with
  | Ret a => f a
  | Throw e => Throw e
  | GetThis k => GetThis (fun a => bind (k a) f)
  | Modify g k => Modify g (bind k f)
  | Now k => Now (fun t => bind (k t) f)
  | Log e k => Log e (bind k f)
  | Storage c k => Storage c (fun r => bind (k r) f)
  | Fetch req k => Fetch req (fun o => bind (k o) f)
  | Tick k => Tick (bind k f)
  | Spawn callee k => Spawn callee (fun p => bind (k p) f)
  | Await p k => Await p (fun r => bind (k r) f)
  end.

Notation "'let*' x ':=' c1 'in' c2" := (bind c1 (fun x => c2))
  (at level 10, x name, c1 at level 100, c2 at level 200).
Notation "'do' c1 'then' c2" := (bind c1 (fun _ => c2))
  (at level 10, c1 at level 100, c2 at level 200).

(** [try { p } finally { f }]. *)
Fixpoint finally_ {A} (p : Prog A) (f : Prog unit) : Prog A :=
  match p with
  | Ret a => do f then Ret a
  | Throw e => do f then Throw e
  | GetThis k => GetThis (fun a => finally_ (k a) f)
  | Modify g k => Modify g (finally_ k f)
  | Now k => Now (fun t => finally_ (k t) f)
  | Log e k => Log e (finally_ k f)
  | Storage c k => Storage c (fun r => finally_ (k r) f)
  | Fetch req k => Fetch req (fun o => finally_ (k o) f)
  | Tick k => Tick (finally_ k f)
  | Spawn callee k => Spawn callee (fun p => finally_ (k p) f)
  | Await p k => Await p (fun r => finally_ (k r) f)
  end.

(** [try { p } catch (e) { h e }], also [promise.catch(h)]. *)
Fixpoint catch_ {A} (p : Prog A) (h : Exn -> Prog A) : Prog A :=
  match p with
  | Ret a => Ret a
  | Throw e => h e
  | GetThis k => GetThis (fun a => catch_ (k a) h)
  | Modify g k => Modify g (catch_ k h)
  | Now k => Now (fun t => catch_ (k t) h)
  | Log e k => Log e (catch_ k h)
  | Storage c k => Storage c (fun r => catch_ (k r) h)
  | Fetch req k => Fetch req (fun o => catch_ (k o) h)
  | Tick k => Tick (catch_ k h)
  | Spawn callee k => Spawn callee (fun p => catch_ (k p) h)
  | Await p k => Await p (fun r => catch_ (k r) h)
  end.

(** [await f(...)] for an asynchronous function [f]: the body of [f] runs,
    and the caller resumes in a later turn, with the value or the
    exception of [f]. *)
Definition await_ {A} (p : Prog A) : Prog A := finally_ p (Tick (Ret tt)).

(** [await promise] for a promise held in a variable or a field. *)
Definition await_promise (p : PromiseId) : Prog Val :=
  Await p (fun r => match r with inl e => Throw e | inr v => Ret v end).

Definition get_this : Prog Auth := GetThis Ret.
Definition modify (f : Auth -> Auth) : Prog unit := Modify f (Ret tt).
Definition now : Prog Z := Now Ret.
Definition log (e : Event) : Prog unit := Log e (Ret tt).
Definition storage_get (key : string) : Prog (option StoreVal) :=
  Storage (SGet key) Ret.
Definition storage_set (key : string) (v : StoreVal) : Prog unit :=
  Storage (SSet key v) (fun _ => Ret tt).
Definition storage_remove (key : string) : Prog unit :=
  Storage (SRemove key) (fun _ => Ret tt).
Definition fetch (req : Request) : Prog Response :=
  Fetch req (fun o => match o with
                      | FetchRejected e => Throw e
                      | FetchResponse r => Ret r
                      end).
Definition spawn (callee : Prog Val) : Prog PromiseId := Spawn callee Ret.

(* ===================================================================== *)
(** ** The world and the event loop *)
(* ===================================================================== *)

(** The state of a promise: settled, or the suspended rest of its body. *)
Inductive PState (A : Type) :=
| Settled (r : Exn + A)
| PendingTick (k : Prog A)
| PendingFetch (req : Request) (k : FetchOutcome -> Prog A)
| PendingAwait (p : PromiseId) (k : Exn + Val -> Prog A).

Arguments Settled {A} r.
Arguments PendingTick {A} k.
Arguments PendingFetch {A} req k.
Arguments PendingAwait {A} p k.

Record World := {
  this : Auth;
  localStorage : gmap string StoreVal;
  clock : Z;                               (* Date.now() *)
  trace : list Event;
  promises : list (PState Val)
}.

Definition with_this (f : Auth -> Auth) (w : World) : World :=
  {| this := f (this w); localStorage := localStorage w; clock := clock w;
     trace := trace w; promises := promises w |}.

Definition with_storage (m : gmap string StoreVal) (w : World) : World :=
  {| this := this w; localStorage := m; clock := clock w;
     trace := trace w; promises := promises w |}.

Definition record (e : Event) (w : World) : World :=
  {| this := this w; localStorage := localStorage w; clock := clock w;
     trace := trace w ++ [e]; promises := promises w |}.

Definition with_promises (ps : list (PState Val)) (w : World) : World :=
  {| this := this w; localStorage := localStorage w; clock := clock w;
     trace := trace w; promises := ps |}.

(** [localStorage.getItem], [setItem], [removeItem]. *)
Definition do_storage (c : StorageCall) (w : World) : option StoreVal * World :=
  match c with
  | SGet key => (localStorage w !! key, record (EvStorageGet key) w)
  | SSet key v =>
      (None, record (EvStorageSet key v) (with_storage (<[key := v]> (localStorage w)) w))
  | SRemove key =>
      (None, record (EvStorageRemove key) (with_storage (delete key (localStorage w)) w))
  end.

(** Runs a program up to its first suspension. *)
Fixpoint advance {A} (p : Prog A) (w : World) : PState A * World :=
  match p with
  | Ret a => (Settled (inr a), w)
  | Throw e => (Settled (inl e), w)
  | GetThis k => advance (k (this w)) w
  | Modify f k => advance k (with_this f w)
  | Now k => advance (k (clock w)) w
  | Log e k => advance k (record e w)
  | Storage c k => let '(r, w1) := do_storage c w in (PendingTick (k r), w1)
  | Fetch req k => (PendingFetch req k, record (EvFetch req) w)
  | Tick k => (PendingTick k, w)
  | Spawn callee k =>
      let '(st, w1) := advance callee w in
      advance (k (length (promises w1))) (with_promises (promises w1 ++ [st]) w1)
  | Await p k => (PendingAwait p k, w)
  end.

(** A call of an asynchronous method from outside: the promise it returns
    and the world after its first, uninterrupted part. *)
Definition invoke (p : Prog Val) (w : World) : PromiseId * World :=
  let '(st, w1) := advance p w in
  (length (promises w1), with_promises (promises w1 ++ [st]) w1).

(** Resumes promise [i] with program [p]. *)
Definition resume (i : PromiseId) (p : Prog Val) (w : World) : World :=
  let '(st, w1) := advance p w in
  with_promises (<[i := st]> (promises w1)) w1.

(** One turn of the event loop: promise [i] is resumed; [o] is what the
    network answers when [i] waits for a response. *)
Definition turn (i : PromiseId) (o : FetchOutcome) (w : World) : option World :=
  match promises w !! i with
  | Some (PendingTick k) => Some (resume i k w)
  | Some (PendingFetch req k) => Some (resume i (k o) w)
  | Some (PendingAwait p k) =>
      match promises w !! p with
      | Some (Settled r) => Some (resume i (k r) w)
      | _ => None
      end
  | _ => None
  end.

(** A schedule: which promise is resumed at each turn, and with what. *)
Fixpoint turns (s : list (PromiseId * FetchOutcome)) (w : World) : option World :=
  match s with
  | [] => Some w
  | (i, o) :: s' =>
      match turn i o w with
      | Some w1 => turns s' w1
      | None => None
      end
  end.

Definition runnable (ps : list (PState Val)) (st : PState Val) : bool :=
  match st with
  | Settled _ => false
  | PendingTick _ | PendingFetch _ _ => true
  | PendingAwait p _ =>
      match ps !! p with Some (Settled _) => true | _ => false end
  end.

Fixpoint first_runnable (ps : list (PState Val)) (l : list (PState Val)) (i : nat)
  : option PromiseId :=
  match l with
  | [] => None
  | st :: l' => if runnable ps st then Some i else first_runnable ps l' (S i)
  end.

Definition quiescent (w : World) : Prop :=
  first_runnable (promises w) (promises w) 0 = None.

(** The event loop with a fixed order (the first promise that can go on)
    and a server: [server n req] answers request [req] when [n] requests
    were answered before. *)
Fixpoint run (server : nat -> Request -> FetchOutcome) (fuel n : nat) (w : World)
  : World :=
  match fuel with
  | 0 => w
  | S fuel' =>
      match first_runnable (promises w) (promises w) 0 with
      | None => w
      | Some i =>
          match promises w !! i with
          | Some (PendingFetch req k) => run server fuel' (S n) (resume i (k (server n req)) w)
          | Some (PendingTick k) => run server fuel' n (resume i k w)
          | Some (PendingAwait p k) =>
              match promises w !! p with
              | Some (Settled r) => run server fuel' n (resume i (k r) w)
              | _ => w
              end
          | _ => w
          end
      end
  end.

Definition is_fetch (e : Event) : bool :=
  match e with EvFetch _ => true | _ => false end.

(** The requests sent so far. *)
Definition requests (w : World) : list Event := List.filter is_fetch (trace w).

(* ===================================================================== *)
(** ** JavaScript helpers shared by the two revisions *)
(* ===================================================================== *)

Definition quote : string := String "034"%char EmptyString.

(** A text in a condition: [undefined] and the empty text are falsy. *)
Definition truthy (o : option string) : bool :=
  match o with
  | Some (String _ _) => true
  | _ => false
  end.

(** What [storage.get] returned, in a condition. *)
Definition truthy_stored (o : option StoreVal) : bool :=
  match o with
  | None | Some (SText EmptyString) => false
  | Some _ => true
  end.

(** A text field inside a template literal or passed to [setItem]. *)
Definition js_string (o : option string) : string :=
  match o with Some s => s | None => "undefined" end.

(** [JSON.parse] of what [storage.get] returned ([null] parses to [null]). *)
Definition JSON_parse (o : option StoreVal) : Exn + option User :=
  match o with
  | None => inr None
  | Some (SJson u) => inr u
  | Some (SText s) => inl (SyntaxError "Unexpected token in JSON")
  end.

(** [{ ...user, tokenManager }]. *)
Definition spread_user (u : option User) (tm : TokenManager) : User :=
  {| profile := match u with Some u' => profile u' | None => ∅ end;
     tokenManager := tm |}.

(** The character class of the pattern in V2's [api]: a word character, a
    space, a comma, a dot, a single or double quote, a parenthesis. *)
Definition explanation_char (c : ascii) : bool :=
  let n := nat_of_ascii c in
  let between lo hi := Nat.leb lo n && Nat.leb n hi in
  between 48 57 || between 65 90 || between 97 122
  || existsb (Nat.eqb n) [95; 32; 44; 46; 39; 34; 40; 41].

Fixpoint all_explanation (s : string) : bool :=
  match s with
  | EmptyString => true
  | String c s' => explanation_char c && all_explanation s'
  end.

(** [message.replace(pattern, '')]: the text before the first colon and
    space that are followed, up to the end, by one or more characters of
    the class. *)
Fixpoint strip_explanation (s : string) : string :=
  match s with
  | EmptyString => EmptyString
  | String c s' =>
      match c, s' with
      | ":"%char, String " "%char (String c1 s1) =>
          if all_explanation (String c1 s1) then EmptyString
          else String c (strip_explanation s')
      | _, _ => String c (strip_explanation s')
      end
  end.

(** The first argument of [authorizedRequest], and [init]. *)
Inductive Resource :=
| ResRequest (r : Request)
| ResUrl (href : string).

Record Init := {
  init_method : option string;
  init_headers : list (string * string);
  init_body : ReqBody
}.

(** The [Request] class belongs to the platform, which checks what it is
    given.  [new_Request resource init] is the request that
    [new Request(resource, init)] builds, or the exception it throws (for a
    body with the method [GET], for an address that cannot be parsed, and
    so on).  [headers_set name value request] is the request after
    [request.headers.set(name, value)], or the exception of that call (for
    a value that no header can hold).  The methods that use them are
    defined for any platform. *)
Record Platform := {
  new_Request : string -> option Init -> Exn + Request;
  headers_set : string -> string -> Request -> Exn + Request
}.

(** [resource instanceof Request ? resource : new Request(resource, init)]. *)
Definition to_Request (P : Platform) (resource : Resource) (init : option Init)
  : Exn + Request :=
  match resource with
  | ResRequest r => inr r
  | ResUrl href => new_Request P href init
  end.

(** The argument of [signInWithProvider]: a provider name or an object. *)
Inductive FlowOptions :=
| OptString (provider : string)
| OptObject (provider oauthScope context : option string) (linkAccount : bool).

(** An element of the [providers] argument of V1's constructor. *)
Inductive ProviderOptions :=
| ProviderName (nm : string)
| ProviderObject (nm : string) (scope : option string).

(** The argument of the constructor. *)
Record Options := {
  opt_name : option string;
  opt_apiKey : option string;
  opt_redirectUri : option string;
  opt_providers : list ProviderOptions
}.

(** [Object.assign(this, { name, apiKey, storage, redirectUri, ... })] in
    the constructor, with [name = 'default'] when no name is given. *)
Definition new_instance (o : Options) (key : string)
    (provs : gmap string (option string)) : Auth :=
  {| name := match opt_name o with Some n => n | None => "default" end;
     apiKey := key;
     redirectUri := opt_redirectUri o;
     providers := provs;
     listeners := [];
     user := None;
     refreshRequest := None |}.

Definition msg_apiKey_required : string :=
  "The argument " +:+ quote +:+ "apiKey" +:+ quote +:+ " is required".
Definition msg_not_logged_in : string :=
  "The user must be logged-in to use this method.".
Definition msg_no_redirectUri : string :=
  "In order to use an Identity provider you should initiate the " +:+ quote
  +:+ "Auth" +:+ quote +:+ " instance with a " +:+ quote +:+ "redirectUri"
  +:+ quote +:+ ".".
Definition msg_orphaned_link : string :=
  "Request to " +:+ quote +:+ "Link account" +:+ quote
  +:+ " was made, but user is no longer signed-in".
Definition msg_not_configured (provider : option string) : string :=
  "You haven't configured " +:+ quote +:+ js_string provider +:+ quote
  +:+ " with this " +:+ quote +:+ "Auth" +:+ quote +:+ " instance.".

Definition null_tokenManager : Exn :=
  TypeError "Cannot read properties of null (reading 'tokenManager')".
Definition undefined_property : Exn :=
  TypeError "Cannot read properties of undefined".

(** [this.listeners.forEach(cb => cb(this.user))]. *)
Definition emit : Prog unit :=
  let* a := get_this in
  foldr (fun cb k => Log (EvNotify cb (user a)) k) (Ret tt) (listeners a).

(** [listen(cb)] pushes [cb]; the function it returns filters [cb] out. *)
Definition listen (cb : Listener) (a : Auth) : Auth :=
  set_listeners (listeners a ++ [cb]) a.

Definition unlisten (cb : Listener) (a : Auth) : Auth :=
  set_listeners (List.filter (fun fn => negb (Nat.eqb fn cb)) (listeners a)) a.

(** An assignment to the refresh handle ([this.refreshRequest], [this._ref]). *)
Definition set_handle (p : option PromiseId) : Prog unit :=
  do modify (set_refreshRequest p) then log (EvHandle p).

Definition token_url (key : string) : string :=
  "https://securetoken.googleapis.com/v1/token?key=" +:+ key.
Definition accounts_url (endpoint key : string) : string :=
  "https://identitytoolkit.googleapis.com/v1/accounts:" +:+ endpoint +:+ "?key=" +:+ key.

(** The [fetch] call of [api]. *)
Definition api_request (a : Auth) (endpoint : string) (b : ReqBody) : Request :=
  {| url := if String.eqb endpoint "token" then token_url (apiKey a)
            else accounts_url endpoint (apiKey a);
     method := "POST"; headers := []; body := b |}.

(* ===================================================================== *)
(** ** The second revision (main.js, lines 450-906) *)
(* ===================================================================== *)

Module V2.

(** [sKey(key)]. *)
Definition sKey (a : Auth) (key : string) : string :=
  "Auth:" +:+ key +:+ ":" +:+ apiKey a +:+ ":" +:+ name a.

(** [api(endpoint, body)]: the response, with its [expiresAt], or the
    error code of a failed response without its explanation. *)
Definition api (endpoint : string) (b : ReqBody) : Prog ApiData :=
  let* a := get_this in
  let* response := fetch (api_request a endpoint b) in
  let data := json response in
  if ok response then
    Ret {| payload := data; data_expiresAt := (date response + 3600 * 1000)%Z |}
  else
    match data_error_message data with
    | None => Throw undefined_property
    | Some m => Throw (Error (strip_explanation m))
    end.

(** [setState(userData, persist = true, emit = true)]. *)
Definition setState (userData : option User) (persist emit_ : bool) : Prog Val :=
  do modify (set_user userData) then
  let* a := get_this in
  do (if persist then
        match userData with
        | Some _ => storage_set (sKey a "User") (SJson userData)
        | None => storage_remove (sKey a "User")
        end
      else Ret tt) then
  do (if emit_ then emit else Ret tt) then
  Ret VUndef.

(** [signOut()]. *)
Definition signOut : Prog Val := setState None true true.

(** [refreshIdToken()]. *)
Definition refreshIdToken : Prog Val :=
  let* a := get_this in
  let* t := now in
  match user a with
  | None => Throw null_tokenManager
  | Some u =>
      if (t <? expiresAt (tokenManager u))%Z then Ret VUndef
      else
        match refreshRequest a with
        | Some p => do await_promise p then Ret VUndef
        | None =>
            finally_
              (let* p :=
                 spawn
                   (let* data :=
                      api "token" (TokenBody "refresh_token" (refreshToken (tokenManager u))) in
                    let tokenManager :=
                      {| idToken := data_id_token (payload data);
                         refreshToken := data_refresh_token (payload data);
                         expiresAt := data_expiresAt data |} in
                    let* a1 := get_this in
                    setState (Some (spread_user (user a1) tokenManager)) true false) in
               do set_handle (Some p) then
               do await_promise p then
               Ret VUndef)
              (set_handle None)
        end
  end.

(** [enforceAuth()]. *)
Definition enforceAuth : Prog Val :=
  let* a := get_this in
  match user a with
  | None => Throw (Error msg_not_logged_in)
  | Some _ => refreshIdToken
  end.

(** [authorizedRequest(resource, init)]. *)
Definition authorizedRequest (P : Platform) (resource : Resource) (init : option Init)
  : Prog Val :=
  match to_Request P resource init with
  | inl e => Throw e
  | inr request =>
      let* a := get_this in
      let* request1 :=
        match user a with
        | Some _ =>
            do await_ refreshIdToken then
            let* a1 := get_this in
            match user a1 with
            | None => Throw null_tokenManager
            | Some u =>
                match headers_set P "Authorization"
                        ("Bearer " +:+ js_string (idToken (tokenManager u))) request with
                | inl e => Throw e
                | inr authorized => Ret authorized
                end
            end
        | None => Ret request
        end in
      let* response := fetch request1 in
      Ret (VResponse response)
  end.

(** [fetchProfile(tokenManager = this.user && this.user.tokenManager)]. *)
Definition fetchProfile (arg : option TokenManager) : Prog Val :=
  let* a := get_this in
  let tm :=
    match arg with
    | Some t => Some t
    | None => match user a with Some u => Some (tokenManager u) | None => None end
    end in
  do (match tm with
      | None => do await_ enforceAuth then Ret tt
      | Some _ => Ret tt
      end) then
  match tm with
  | None => Throw undefined_property
  | Some t =>
      let* d := await_ (api "lookup" (LookupBody (idToken t))) in
      match data_users (payload d) with
      | [] => Throw undefined_property
      | userData :: _ =>
          do await_ (setState (Some {| profile := delete "kind" userData;
                                       tokenManager := t |}) true true) then
          Ret VUndef
      end
  end.

(** [signInWithProvider(options)]. *)
Definition signInWithProvider (options : FlowOptions) : Prog Val :=
  let* a := get_this in
  if negb (truthy (redirectUri a)) then Throw (Error msg_no_redirectUri)
  else
    let '(provider, oauthScope, context, linkAccount) :=
      match options with
      | OptString p => (Some p, None, None, false)
      | OptObject p s c l => (p, s, c, l)
      end in
    do (if linkAccount then do await_ enforceAuth then Ret tt else Ret tt) then
    let* a1 := get_this in
    let* d :=
      await_ (api "createAuthUri"
                (CreateAuthUriBody provider (js_string (redirectUri a1)) oauthScope
                   "CODE_FLOW" context)) in
    let* a2 := get_this in
    do storage_set (sKey a2 "SessionId") (SText (js_string (data_sessionId (payload d))))
    then
    let* a3 := get_this in
    do (if linkAccount then storage_set (sKey a3 "LinkAccount") (SText "true")
        else Ret tt) then
    do log (EvAssign (js_string (data_authUri (payload d)))) then
    Ret VUndef.

(** [finishProviderSignIn(requestUri)]; the caller passes [location.href]
    when it has no [requestUri]. *)
Definition finishProviderSignIn (requestUri : string) : Prog Val :=
  let* a := get_this in
  let* sessionId := storage_get (sKey a "SessionId") in
  let* a1 := get_this in
  let* linkAccount := storage_get (sKey a1 "LinkAccount") in
  let* a2 := get_this in
  if truthy_stored linkAccount && negb (bool_decide (is_Some (user a2)))
  then Throw (Error msg_orphaned_link)
  else
    do storage_remove (sKey a2 "LinkAccount") then
    let* a3 := get_this in
    let* idTok :=
      (if truthy_stored linkAccount then
         match user a3 with
         | Some u => Ret (idToken (tokenManager u))
         | None => Throw null_tokenManager
         end
       else Ret None) in
    let* d :=
      await_ (api "signInWithIdp" (SignInWithIdpBody idTok requestUri sessionId true)) in
    do await_ (fetchProfile
                 (Some {| idToken := data_idToken (payload d);
                          refreshToken := data_refreshToken (payload d);
                          expiresAt := data_expiresAt d |})) then
    do log EvReplaceState then
    Ret (VContext (data_context (payload d))).

(** The callback of [this.storage.get(this.sKey('User')).then(...)] in the
    constructor, with the read before it. *)
Definition restore : Prog Val :=
  let* a := get_this in
  let* stored := storage_get (sKey a "User") in
  match JSON_parse stored with
  | inl e => Throw e
  | inr userData =>
      let* _ := spawn (setState userData false true) in
      let* a1 := get_this in
      match user a1 with
      | Some _ =>
          let* _ :=
            spawn
              (catch_
                 (do await_ refreshIdToken then
                  await_ (fetchProfile None))
                 (fun e =>
                    if String.eqb (message e) "TOKEN_EXPIRED"
                    then await_ signOut
                    else Throw e)) in
          Ret VUndef
      | None => Ret VUndef
      end
  end.

(** [new Auth(options)]: the exception it throws, or the world with the new
    instance and the pending read of the persisted session. *)
Definition constructor (o : Options) (w : World) : Exn + World :=
  match opt_apiKey o with
  | None => inl (Error msg_apiKey_required)
  | Some key =>
      inr (snd (invoke restore (with_this (fun _ => new_instance o key ∅) w)))
  end.

End V2.

(* ===================================================================== *)
(** ** The first revision (main.js, lines 1-449) *)
(* ===================================================================== *)

Module V1.

Section WithErrors.

(** The table of [errors.json], which is not part of the sources read
    here: [humanReadableErrors code] is the entry of [code], if any. *)
Variable humanReadableErrors : string -> option string.

Definition user_key (a : Auth) : string :=
  "Auth:User:" +:+ apiKey a +:+ ":" +:+ name a.
Definition sessionId_key (a : Auth) : string :=
  "Auth:SessionId:" +:+ apiKey a +:+ ":" +:+ name a.
Definition linkAccount_key (a : Auth) : string :=
  "Auth:LinkAccount:" +:+ apiKey a +:+ ":" +:+ name a.

(** [api(endpoint, body)]. *)
Definition api (endpoint : string) (b : ReqBody) : Prog ApiData :=
  let* a := get_this in
  let* response := fetch (api_request a endpoint b) in
  let data := json response in
  if ok response then
    Ret {| payload := data; data_expiresAt := (date response + 3600 * 1000)%Z |}
  else
    match data_error_message data with
    | None => Throw undefined_property
    | Some m =>
        Throw (Error (if truthy (humanReadableErrors m)
                      then js_string (humanReadableErrors m) else m))
    end.

(** [persistSession(userData)]. *)
Definition persistSession (userData : User) : Prog Val :=
  let* a := get_this in
  do storage_set (user_key a) (SJson (Some userData)) then
  do modify (set_user (Some userData)) then
  do emit then
  Ret VUndef.

(** [signOut()]. *)
Definition signOut : Prog Val :=
  let* a := get_this in
  do storage_remove (user_key a) then
  do modify (set_user None) then
  do emit then
  Ret VUndef.

(** [refreshIdToken()]. *)
Definition refreshIdToken : Prog Val :=
  let* a := get_this in
  let* t := now in
  match user a with
  | None => Throw null_tokenManager
  | Some u =>
      if (t <? expiresAt (tokenManager u))%Z then Ret VUndef
      else
        match refreshRequest a with
        | Some p => await_promise p
        | None =>
            finally_
              (let* p :=
                 spawn
                   (let* data :=
                      api "token" (TokenBody "refresh_token" (refreshToken (tokenManager u))) in
                    Ret (VData data)) in
               do set_handle (Some p) then
               let* v := await_promise p in
               match v with
               | VData data =>
                   let* a1 := get_this in
                   do await_ (persistSession
                                (spread_user (user a1)
                                   {| idToken := data_id_token (payload data);
                                      refreshToken := data_refresh_token (payload data);
                                      expiresAt := data_expiresAt data |})) then
                   Ret VUndef
               | _ => Throw undefined_property
               end)
              (set_handle None)
        end
  end.

(** [enforceAuth()]. *)
Definition enforceAuth : Prog Val :=
  let* a := get_this in
  match user a with
  | None => Throw (Error msg_not_logged_in)
  | Some _ => refreshIdToken
  end.

(** [authorizedRequest(resource, init)]. *)
Definition authorizedRequest (P : Platform) (resource : Resource) (init : option Init)
  : Prog Val :=
  match to_Request P resource init with
  | inl e => Throw e
  | inr request =>
      let* a := get_this in
      let* request1 :=
        match user a with
        | Some _ =>
            do await_ refreshIdToken then
            let* a1 := get_this in
            match user a1 with
            | None => Throw null_tokenManager
            | Some u =>
                match headers_set P "Authorization"
                        ("Bearer " +:+ js_string (idToken (tokenManager u))) request with
                | inl e => Throw e
                | inr authorized => Ret authorized
                end
            end
        | None => Ret request
        end in
      let* response := fetch request1 in
      Ret (VResponse response)
  end.

(** [fetchProfile(tokenManager = this.user && this.user.tokenManager)]. *)
Definition fetchProfile (arg : option TokenManager) : Prog Val :=
  let* a := get_this in
  let tm :=
    match arg with
    | Some t => Some t
    | None => match user a with Some u => Some (tokenManager u) | None => None end
    end in
  do (match user a, tm with
      | None, None => do await_ enforceAuth then Ret tt
      | _, _ => Ret tt
      end) then
  match tm with
  | None => Throw undefined_property
  | Some t =>
      let* d := await_ (api "lookup" (LookupBody (idToken t))) in
      match data_users (payload d) with
      | [] => Throw undefined_property
      | userData :: _ =>
          do await_ (persistSession {| profile := delete "kind" userData;
                                       tokenManager := t |}) then
          Ret VUndef
      end
  end.

(** [signInWithProvider(options)]. *)
Definition signInWithProvider (options : FlowOptions) : Prog Val :=
  let* a := get_this in
  if negb (truthy (redirectUri a)) then Throw (Error msg_no_redirectUri)
  else
    let '(provider, context, linkAccount) :=
      match options with
      | OptString p => (Some p, None, false)
      | OptObject p _ c l => (p, c, l)
      end in
    do (if linkAccount then do await_ enforceAuth then Ret tt else Ret tt) then
    let* a1 := get_this in
    match provider ≫= (fun p => providers a1 !! p) with
    | None => Throw (Error (msg_not_configured provider))
    | Some scope =>
        let* d :=
          await_ (api "createAuthUri"
                    (CreateAuthUriBody provider (js_string (redirectUri a1)) scope
                       "CODE_FLOW" context)) in
        let* a2 := get_this in
        do storage_set (sessionId_key a2) (SText (js_string (data_sessionId (payload d))))
        then
        let* a3 := get_this in
        do (if linkAccount then storage_set (linkAccount_key a3) (SText "true")
            else Ret tt) then
        do log (EvAssign (js_string (data_authUri (payload d)))) then
        Ret VUndef
    end.

(** [finishProviderSignIn(requestUri)]; the caller passes [location.href]
    when it has no [requestUri]. *)
Definition finishProviderSignIn (requestUri : string) : Prog Val :=
  let* a := get_this in
  let* sessionId := storage_get (sessionId_key a) in
  let* a1 := get_this in
  let* linkAccount := storage_get (linkAccount_key a1) in
  let* a2 := get_this in
  if truthy_stored linkAccount && negb (bool_decide (is_Some (user a2)))
  then Throw (Error msg_orphaned_link)
  else
    do storage_remove (linkAccount_key a2) then
    let* a3 := get_this in
    let* idTok :=
      (if truthy_stored linkAccount then
         match user a3 with
         | Some u => Ret (idToken (tokenManager u))
         | None => Throw null_tokenManager
         end
       else Ret None) in
    let* d :=
      await_ (api "signInWithIdp" (SignInWithIdpBody idTok requestUri sessionId true)) in
    do await_ (fetchProfile
                 (Some {| idToken := data_idToken (payload d);
                          refreshToken := data_refreshToken (payload d);
                          expiresAt := data_expiresAt d |})) then
    do log EvReplaceState then
    Ret (VContext (data_context (payload d))).

(** The callback of [this.storage.get(...).then(...)] in the constructor,
    with the read before it. *)
Definition restore : Prog Val :=
  let* a := get_this in
  let* stored := storage_get (user_key a) in
  if truthy_stored stored then
    match JSON_parse stored with
    | inl e => Throw e
    | inr userData =>
        do modify (set_user userData) then
        let* _ := spawn (fetchProfile None) in
        Ret VUndef
    end
  else Ret VUndef.

(** [this.providers[name] = scope] on the plain object [this.providers].
    The name [__proto__] is the accessor of [Object.prototype]: assigning a
    text or [undefined] to it does nothing, and no key is created. *)
Definition assign_provider (nm : string) (scope : option string)
    (m : gmap string (option string)) : gmap string (option string) :=
  if String.eqb nm "__proto__" then m else <[nm := scope]> m.

(** The body of the loop over [providers]: a name alone has no scope. *)
Definition add_provider (m : gmap string (option string)) (o : ProviderOptions)
  : gmap string (option string) :=
  match o with
  | ProviderName nm => assign_provider nm None m
  | ProviderObject nm scope => assign_provider nm scope m
  end.

(** [new Auth(options)]. *)
Definition constructor (o : Options) (w : World) : Exn + World :=
  match opt_apiKey o with
  | None => inl (Error msg_apiKey_required)
  | Some key =>
      let provs := foldl add_provider ∅ (opt_providers o) in
      inr (snd (invoke restore (with_this (fun _ => new_instance o key provs) w)))
  end.

End WithErrors.

End V1.

(** A world with one instance and nothing pending. *)
Definition idle (a : Auth) (store : gmap string StoreVal) (t : Z) : World :=
  {| this := a; localStorage := store; clock := t; trace := []; promises := [] |}.

(** The state of promise [p]. *)
Definition outcome (p : PromiseId) (w : World) : option (PState Val) :=
  promises w !! p.

(* ===================================================================== *)
(** ** Reasoning about the machine *)
(* ===================================================================== *)

Definition record_all (es : list Event) (w : World) : World :=
  {| this := this w; localStorage := localStorage w; clock := clock w;
     trace := trace w ++ es; promises := promises w |}.

(** The calls made by [emit] on instance [a]. *)
Definition notifications (a : Auth) : list Event :=
  map (fun cb => EvNotify cb (user a)) (listeners a).

(** How often [cb] is in the listener list, and how often it was called. *)
Definition registrations (cb : Listener) (a : Auth) : nat :=
  count_occ Nat.eq_dec (listeners a) cb.

Definition is_notify (cb : Listener) (e : Event) : bool :=
  match e with EvNotify c _ => Nat.eqb c cb | _ => false end.

Definition notified (cb : Listener) (w : World) : nat :=
  length (List.filter (is_notify cb) (trace w)).

Definition is_storage_write (e : Event) : bool :=
  match e with EvStorageSet _ _ | EvStorageRemove _ => true | _ => false end.

Definition conclusion (o : FetchOutcome) : Exn + Val :=
  match o with
  | FetchRejected e => inl e
  | FetchResponse r => inr (VResponse r)
  end.

Lemma run_quiescent server fuel n w : quiescent w -> run server fuel n w = w.
Proof. unfold quiescent. intros H. destruct fuel; cbn; [done|]. by rewrite H. Qed.

Lemma run_out server n w : run server 0 n w = w.
Proof. reflexivity. Qed.

Lemma run_tick server fuel n w i k :
  first_runnable (promises w) (promises w) 0 = Some i ->
  promises w !! i = Some (PendingTick k) ->
  run server (S fuel) n w = run server fuel n (resume i k w).
Proof. intros Hi Hk. cbn. by rewrite Hi, Hk. Qed.

Lemma run_fetch server fuel n w i req k :
  first_runnable (promises w) (promises w) 0 = Some i ->
  promises w !! i = Some (PendingFetch req k) ->
  run server (S fuel) n w = run server fuel (S n) (resume i (k (server n req)) w).
Proof. intros Hi Hk. cbn. by rewrite Hi, Hk. Qed.

Lemma run_await server fuel n w i p k r :
  first_runnable (promises w) (promises w) 0 = Some i ->
  promises w !! i = Some (PendingAwait p k) ->
  promises w !! p = Some (Settled r) ->
  run server (S fuel) n w = run server fuel n (resume i (k r) w).
Proof. intros Hi Hk Hr. cbn. by rewrite Hi, Hk, Hr. Qed.

Arguments run : simpl never.
Arguments with_this _ _ /.
Arguments with_storage _ _ /.
Arguments with_promises _ _ /.
Arguments record _ _ /.
Arguments record_all _ _ /.
Arguments idle _ _ _ /.
Arguments V2.sKey : simpl never.
Arguments V1.user_key : simpl never.
Arguments V1.sessionId_key : simpl never.
Arguments V1.linkAccount_key : simpl never.

(** One turn of [run] on a world given explicitly. *)
Ltac tick := erewrite run_tick by reflexivity; unfold resume; cbn.
Ltac wake := erewrite run_await by reflexivity; unfold resume; cbn.
Ltac rest := rewrite run_quiescent by reflexivity.

Lemma advance_notify {A} (l : list Listener) u (k : Prog A) w :
  advance (foldr (fun cb k => Log (EvNotify cb u) k) k l) w
  = advance k (record_all (map (fun cb => EvNotify cb u) l) w).
Proof.
  revert w. induction l as [|cb l IH]; intros w; cbn.
  - unfold record_all. rewrite app_nil_r. by destruct w.
  - rewrite IH. unfold record_all, record. cbn. by rewrite <- app_assoc.
Qed.

Lemma bind_notify {A B} (l : list Listener) u (k : Prog A) (f : A -> Prog B) :
  bind (foldr (fun cb k => Log (EvNotify cb u) k) k l) f
  = foldr (fun cb k => Log (EvNotify cb u) k) (bind k f) l.
Proof. induction l as [|cb l IH]; cbn; [done|]. by rewrite IH. Qed.

Lemma finally_notify {A} (l : list Listener) u (k : Prog A) (f : Prog unit) :
  finally_ (foldr (fun cb k => Log (EvNotify cb u) k) k l) f
  = foldr (fun cb k => Log (EvNotify cb u) k) (finally_ k f) l.
Proof. induction l as [|cb l IH]; cbn; [done|]. by rewrite IH. Qed.

Lemma catch_notify {A} (l : list Listener) u (k : Prog A) (h : Exn -> Prog A) :
  catch_ (foldr (fun cb k => Log (EvNotify cb u) k) k l) h
  = foldr (fun cb k => Log (EvNotify cb u) k) (catch_ k h) l.
Proof. induction l as [|cb l IH]; cbn; [done|]. by rewrite IH. Qed.

(** The listener calls of [emit], at the head of the program to advance. *)
Ltac notify :=
  repeat first [rewrite bind_notify | rewrite finally_notify | rewrite catch_notify];
  rewrite advance_notify; cbn.

(** A response arrives: one case for each kind of response. *)
Ltac fetch_cases server :=
  erewrite run_fetch by reflexivity;
  match goal with
  | |- context [server ?n ?r] =>
      let e := fresh "e" in
      let dt := fresh "dt" in
      let d := fresh "d" in
      destruct (server n r) as [e|[[] dt d]] eqn:?
  end; unfold resume; cbn.

Ltac body_cases :=
  match goal with
  | |- context [match data_error_message ?d with _ => _ end] =>
      destruct (data_error_message d) eqn:?
  | |- context [match data_users ?d with _ => _ end] =>
      destruct (data_users d) eqn:?
  end; cbn.

(** What is known of the instance. *)
Ltac known :=
  match goal with
  | H : user ?a = _ |- context [user ?a] => rewrite H
  | H : refreshRequest ?a = _ |- context [refreshRequest ?a] => rewrite H
  | H : redirectUri ?a = _ |- context [redirectUri ?a] => rewrite H
  end; cbn.

(** Has the token expired? *)
Ltac time_cases :=
  match goal with
  | |- context [(?x <? ?y)%Z] => destruct (x <? y)%Z eqn:?
  end; cbn.

(** Is the provider configured (V1)? *)
Ltac provider_cases :=
  match goal with
  | |- context [match ?p ≫= ?f with _ => _ end] => destruct (p ≫= f) eqn:?
  | |- context [match providers ?a !! ?p with _ => _ end] =>
      destruct (providers a !! p) eqn:?
  end; cbn.

(** Is the error the one that the constructor of V2 turns into a sign-out? *)
Ltac code_cases :=
  match goal with
  | |- context [if String.eqb ?x ?y then _ else _] => destruct (String.eqb x y) eqn:?
  end; cbn.

Ltac go server :=
  repeat first [ rest | tick | wake | fetch_cases server | body_cases
               | progress notify | known | time_cases | provider_cases
               | code_cases ].

Lemma filter_notify_other (fn : Listener) (u : option User) (l : list Listener) :
  List.filter (is_notify fn) (map (fun c => EvNotify c u) l)
  = map (fun c => EvNotify c u) (List.filter (fun c => Nat.eqb c fn) l).
Proof.
  induction l as [|c l IH]; cbn; [done|].
  destruct (Nat.eqb c fn); cbn; by rewrite IH.
Qed.

Lemma count_occ_filter_eqb (fn : Listener) (l : list Listener) :
  length (List.filter (fun c => Nat.eqb c fn) l) = count_occ Nat.eq_dec l fn.
Proof.
  induction l as [|c l IH]; cbn; [done|].
  destruct (Nat.eq_dec c fn) as [->|Hne].
  - rewrite Nat.eqb_refl. cbn. by rewrite IH.
  - apply Nat.eqb_neq in Hne. by rewrite Hne.
Qed.

Lemma count_occ_unlisten (cb fn : Listener) (l : list Listener) :
  count_occ Nat.eq_dec (List.filter (fun c => negb (Nat.eqb c cb)) l) fn
  = if Nat.eqb fn cb then 0 else count_occ Nat.eq_dec l fn.
Proof.
  induction l as [|c l IH]; cbn.
  - by destruct (Nat.eqb fn cb).
  - destruct (Nat.eqb c cb) eqn:Hc; cbn.
    + apply Nat.eqb_eq in Hc. subst c. rewrite IH.
      destruct (Nat.eqb fn cb) eqn:Hf; [done|].
      apply Nat.eqb_neq in Hf. by destruct (Nat.eq_dec cb fn) as [->|].
    + rewrite IH. apply Nat.eqb_neq in Hc.
      destruct (Nat.eq_dec c fn) as [->|]; [|done].
      apply Nat.eqb_neq in Hc. by rewrite Hc.
Qed.

Lemma filter_unlisten_idemp (cb : Listener) (l : list Listener) :
  List.filter (fun c => negb (Nat.eqb c cb))
    (List.filter (fun c => negb (Nat.eqb c cb)) l)
  = List.filter (fun c => negb (Nat.eqb c cb)) l.
Proof.
  induction l as [|c l IH]; cbn; [done|].
  destruct (Nat.eqb c cb) eqn:Hc; cbn; [done|]. by rewrite Hc, IH.
Qed.

(* ===================================================================== *)
(** ** The session store *)
(* ===================================================================== *)

(** The world after a completed [signOut] on instance [a], from a world
    where nothing else was going on. *)
Definition signed_out (a : Auth) (store : gmap string StoreVal) (t : Z)
    (before : list Event) (done : list (PState Val)) : World :=
  {| this := set_user None a;
     localStorage := delete (V2.sKey a "User") store;
     clock := t;
     trace := before ++ EvStorageRemove (V2.sKey a "User")
                :: map (fun cb => EvNotify cb None) (listeners a);
     promises := done ++ [Settled (inr VUndef)] |}.

(** C8. [signOut] is [setState(null)] with [persist] and [emit] on (V2), and
    V1's [signOut] ends in the same world: no session in memory, no value
    under the session key, every listener called once per registration with
    the absent value, and nothing else.  A second [signOut] ends in the same
    state, sends no request (its events are the removal and the listener
    calls again) and notifies the listeners again. *)
Theorem signOut_replaces_with_absent_and_is_idempotent
    (server : nat -> Request -> FetchOutcome) (a : Auth)
    (store : gmap string StoreVal) (t : Z) (extra : nat) :
  V2.signOut = V2.setState None true true
  /\ (let once := signed_out a store t [] [] in
      let twice := signed_out a store t (trace once) (promises once) in
      run server (1 + extra) 0 (snd (invoke V2.signOut (idle a store t))) = once
      /\ run server (1 + extra) 0 (snd (invoke V1.signOut (idle a store t))) = once
      /\ run server (1 + extra) 0 (snd (invoke V2.signOut once)) = twice
      /\ run server (1 + extra) 0 (snd (invoke V1.signOut once)) = twice
      /\ this twice = this once
      /\ localStorage twice = localStorage once
      /\ user (this once) = None
      /\ localStorage once !! V2.sKey a "User" = None
      /\ requests twice = []).
Proof.
  split; [reflexivity|].
  cbn zeta.
  assert (Hrun2 : forall w, promises w = [] \/ promises w = [Settled (inr VUndef)] ->
            run server (1 + extra) 0 (snd (invoke V2.signOut w))
            = {| this := set_user None (this w);
                 localStorage := delete (V2.sKey (this w) "User") (localStorage w);
                 clock := clock w;
                 trace := trace w ++ EvStorageRemove (V2.sKey (this w) "User")
                            :: map (fun cb => EvNotify cb None) (listeners (this w));
                 promises := promises w ++ [Settled (inr VUndef)] |}).
  { intros [a0 st0 t0 tr0 ps0] [Hp|Hp]; cbn in Hp; subst ps0;
      unfold invoke, V2.signOut, V2.setState; cbn;
      (erewrite run_tick by reflexivity); unfold resume; cbn;
      notify; rest;
      unfold record_all; cbn; by rewrite <- app_assoc. }
  assert (Hrun1 : forall w, promises w = [] \/ promises w = [Settled (inr VUndef)] ->
            run server (1 + extra) 0 (snd (invoke V1.signOut w))
            = {| this := set_user None (this w);
                 localStorage := delete (V2.sKey (this w) "User") (localStorage w);
                 clock := clock w;
                 trace := trace w ++ EvStorageRemove (V2.sKey (this w) "User")
                            :: map (fun cb => EvNotify cb None) (listeners (this w));
                 promises := promises w ++ [Settled (inr VUndef)] |}).
  { intros [a0 st0 t0 tr0 ps0] [Hp|Hp]; cbn in Hp; subst ps0;
      unfold invoke, V1.signOut; cbn;
      (erewrite run_tick by reflexivity); unfold resume; cbn;
      notify; rest;
      unfold record_all; cbn; by rewrite <- app_assoc. }
  split_and!.
  - rewrite Hrun2 by (left; reflexivity). reflexivity.
  - rewrite Hrun1 by (left; reflexivity). reflexivity.
  - rewrite Hrun2 by (right; reflexivity). unfold signed_out. cbn.
    f_equal. apply delete_delete_eq.
  - rewrite Hrun1 by (right; reflexivity). unfold signed_out. cbn.
    f_equal. apply delete_delete_eq.
  - reflexivity.
  - reflexivity.
  - reflexivity.
  - apply lookup_delete_eq.
  - unfold requests, signed_out. cbn.
    rewrite List.filter_app. cbn.
    assert (Hn : forall l : list Listener,
               List.filter is_fetch (map (fun cb => EvNotify cb None) l) = []).
    { induction l as [|c l IH]; cbn; [done|]. exact IH. }
    by rewrite !Hn.
Qed.

(** C9 as stated fails for an observer registered twice: after another
    observer subscribed and unsubscribed, one notifying change calls the
    observer 5, registered twice, two times and not once. *)
Lemma observer_registered_twice_is_called_twice :
  let a := {| name := "default"; apiKey := "key"; redirectUri := None;
              providers := ∅; listeners := [5; 5]; user := None;
              refreshRequest := None |} in
  let a1 := unlisten 9 (listen 9 a) in
  let w := run (fun _ _ => FetchRejected (Error "offline")) 1 0
             (snd (invoke (V2.setState None true true) (idle a1 ∅ 0))) in
  registrations 5 a1 = 2 /\ notified 9 w = 0 /\ notified 5 w = 2 /\ notified 5 w <> 1.
Proof. vm_compute. repeat split; discriminate. Qed.

(** C9, amended.  The function returned by [listen(cb)] removes every
    registration of [cb] and nothing else: the listener list becomes the
    list without [cb], in the same order, the other fields of the instance
    are untouched, and a second call changes nothing.  After [listen(cb)],
    the unsubscription and one notifying change ([setState] with [emit] in
    V2, [persistSession] in V1), [cb] is not called, and every other
    observer [fn] is called once for each of its registrations. *)
Theorem unlisten_removes_that_observer_only
    (server : nat -> Request -> FetchOutcome) (a : Auth) (cb fn : Listener)
    (store : gmap string StoreVal) (t : Z) (extra : nat)
    (userData : option User) (session : User) :
  fn <> cb ->
  let a1 := unlisten cb (listen cb a) in
  listeners a1 = List.filter (fun c => negb (Nat.eqb c cb)) (listeners a)
  /\ set_listeners (listeners a) a1 = set_listeners (listeners a) a
  /\ unlisten cb a1 = a1
  /\ registrations cb a1 = 0
  /\ registrations fn a1 = registrations fn a
  /\ (let w := run server (1 + extra) 0
                 (snd (invoke (V2.setState userData true true) (idle a1 store t))) in
      notified cb w = 0 /\ notified fn w = registrations fn a)
  /\ (let w := run server (1 + extra) 0
                 (snd (invoke (V1.persistSession session) (idle a1 store t))) in
      notified cb w = 0 /\ notified fn w = registrations fn a).
Proof.
  intros Hne. cbn zeta.
  assert (Hl : listeners (unlisten cb (listen cb a))
               = List.filter (fun c => negb (Nat.eqb c cb)) (listeners a)).
  { unfold unlisten, listen. cbn. rewrite List.filter_app. cbn.
    rewrite Nat.eqb_refl. cbn. apply app_nil_r. }
  assert (Hcb : registrations cb (unlisten cb (listen cb a)) = 0).
  { unfold registrations. rewrite Hl, count_occ_unlisten. by rewrite Nat.eqb_refl. }
  assert (Hfn : registrations fn (unlisten cb (listen cb a)) = registrations fn a).
  { unfold registrations. rewrite Hl, count_occ_unlisten.
    apply Nat.eqb_neq in Hne. by rewrite Hne. }
  split_and!; try done.
  - unfold unlisten, listen, set_listeners. cbn. f_equal.
    rewrite !List.filter_app. cbn. rewrite Nat.eqb_refl. cbn.
    rewrite !app_nil_r. apply filter_unlisten_idemp.
  - unfold invoke, V2.setState. destruct userData; cbn; tick;
      notify; rest;
      unfold notified; cbn;
      rewrite filter_notify_other, length_map, count_occ_filter_eqb; exact Hcb.
  - unfold invoke, V2.setState. destruct userData; cbn; tick;
      notify; rest;
      unfold notified; cbn;
      rewrite filter_notify_other, length_map, count_occ_filter_eqb; exact Hfn.
  - unfold invoke, V1.persistSession. cbn; tick;
      notify; rest;
      unfold notified; cbn;
      rewrite filter_notify_other, length_map, count_occ_filter_eqb; exact Hcb.
  - unfold invoke, V1.persistSession. cbn; tick;
      notify; rest;
      unfold notified; cbn;
      rewrite filter_notify_other, length_map, count_occ_filter_eqb; exact Hfn.
Qed.

(** Sample data for the instances below. *)
Definition sample_user (expires : Z) : User :=
  {| profile := {[ "email" := "test@example.com" ]};
     tokenManager := {| idToken := Some "idTokenString";
                        refreshToken := Some "refreshTokenString";
                        expiresAt := expires |} |}.

Definition sample_auth (u : option User) (ls : list Listener) : Auth :=
  {| name := "default"; apiKey := "key"; redirectUri := Some "redirectHere";
     providers := {[ "google.com" := None ]}; listeners := ls; user := u;
     refreshRequest := None |}.

Definition no_table : string -> option string := fun _ => None.

Lemma unlisten_removes_that_observer_only_witness :
  5 <> 9
  /\ registrations 9 (unlisten 9 (listen 9 (sample_auth None [5; 9; 6]))) = 0
  /\ registrations 5 (unlisten 9 (listen 9 (sample_auth None [5; 9; 6]))) = 1.
Proof.
  assert (H : 5 <> 9) by discriminate.
  split; [exact H|].
  pose proof (unlisten_removes_that_observer_only
                (fun _ _ => FetchRejected (Error "offline"))
                (sample_auth None [5; 9; 6]) 9 5 ∅ 0 0 None (sample_user 0) H) as T.
  cbn zeta in T. destruct T as (_ & _ & _ & T1 & T2 & _).
  split; [exact T1 | exact T2].
Defined.

(* ===================================================================== *)
(** ** The token refresher: a token that has not expired *)
(* ===================================================================== *)

(** C7. With a session whose [expiresAt] is later than [Date.now()],
    [refreshIdToken] (and [enforceAuth], which ends in it) is settled at
    the call, without any suspension, and the world is the same after the
    call as before: nothing was sent, and the instance, the storage and the
    trace are unchanged.  Both revisions. *)
Theorem refreshIdToken_fresh_token_is_noop
    (humanReadableErrors : string -> option string) (w : World) (u : User) :
  user (this w) = Some u ->
  (clock w < expiresAt (tokenManager u))%Z ->
  advance V2.refreshIdToken w = (Settled (inr VUndef), w)
  /\ advance V2.enforceAuth w = (Settled (inr VUndef), w)
  /\ advance (V1.refreshIdToken humanReadableErrors) w = (Settled (inr VUndef), w)
  /\ advance (V1.enforceAuth humanReadableErrors) w = (Settled (inr VUndef), w).
Proof.
  intros Hu Ht. apply Z.ltb_lt in Ht.
  unfold V2.enforceAuth, V1.enforceAuth, V2.refreshIdToken, V1.refreshIdToken.
  cbn. rewrite Hu. cbn. rewrite Hu, Ht. done.
Qed.

Lemma refreshIdToken_fresh_token_is_noop_witness :
  let w := idle (sample_auth (Some (sample_user 5000)) [7]) ∅ 1000 in
  user (this w) = Some (sample_user 5000)
  /\ (clock w < expiresAt (tokenManager (sample_user 5000)))%Z
  /\ advance V2.refreshIdToken w = (Settled (inr VUndef), w)
  /\ advance (V1.refreshIdToken no_table) w = (Settled (inr VUndef), w).
Proof.
  cbn zeta.
  assert (Hu : user (this (idle (sample_auth (Some (sample_user 5000)) [7]) ∅ 1000))
               = Some (sample_user 5000)) by reflexivity.
  assert (Ht : Z.lt (clock (idle (sample_auth (Some (sample_user 5000)) [7]) ∅ 1000))
                 (expiresAt (tokenManager (sample_user 5000)))) by reflexivity.
  destruct (refreshIdToken_fresh_token_is_noop no_table _ _ Hu Ht) as (T1 & _ & T2 & _).
  split; [exact Hu|]. split; [exact Ht|]. split; [exact T1 | exact T2].
Defined.

(* ===================================================================== *)
(** ** Requests on behalf of the user *)
(* ===================================================================== *)

(** A platform for the examples.  Its constructor takes the address and
    the method, [GET] unless one is given, the headers and the body of
    [init], and refuses a body with [GET] or [HEAD], as every platform
    does; its [set] adds the header to a request that has none of that
    name. *)
Definition body_with_GET : Exn :=
  TypeError "Request with GET/HEAD method cannot have body".

Definition sample_platform : Platform :=
  {| new_Request := fun href init =>
       match init with
       | None => inr {| url := href; method := "GET"; headers := []; body := NoBody |}
       | Some i =>
           let m := default "GET" (init_method i) in
           match init_body i with
           | NoBody =>
               inr {| url := href; method := m; headers := init_headers i; body := NoBody |}
           | b =>
               if String.eqb m "GET" || String.eqb m "HEAD" then inl body_with_GET
               else inr {| url := href; method := m; headers := init_headers i; body := b |}
           end
       end;
     headers_set := fun name value r =>
       inr {| url := url r; method := method r;
              headers := headers r ++ [(name, value)]; body := body r |} |}.

(** C10 as stated fails for arguments from which no request can be
    constructed: [authorizedRequest("http://google.com", { body: "x" })],
    a body with the method [GET], is rejected by [new Request] with a
    [TypeError], so that the call is rejected and nothing is forwarded to
    [fetch]. *)
Lemma authorizedRequest_rejects_what_Request_rejects :
  let w := idle (sample_auth None [7]) ∅ 1000 in
  let init := Some {| init_method := None; init_headers := [];
                      init_body := TextBody "x" |} in
  let call := invoke (V2.authorizedRequest sample_platform (ResUrl "http://google.com") init)
                w in
  outcome (fst call) (snd call) = Some (Settled (inl body_with_GET))
  /\ requests (snd call) = []
  /\ quiescent (snd call).
Proof. vm_compute. repeat split. Qed.

(** C10, amended.  Without a session, [authorizedRequest] starts no
    refresh, attaches no header and leaves the instance, the storage and
    the trace alone, whatever its arguments.  A [Request] it is given is
    taken as it is.  When the request can be constructed from the
    arguments, the call passes exactly that request to [fetch], and
    settles with whatever [fetch] gives, without any further effect.  When
    its construction throws, the call is rejected with that exception at
    once, and nothing is passed to [fetch].  Both revisions, on any
    platform. *)
Theorem authorizedRequest_signed_out
    (humanReadableErrors : string -> option string) (P : Platform) (w : World)
    (resource : Resource) (init : option Init) :
  user (this w) = None ->
  (forall r, to_Request P (ResRequest r) init = inr r)
  /\ (forall request, to_Request P resource init = inr request ->
      (exists k,
          advance (V2.authorizedRequest P resource init) w
          = (PendingFetch request k, record (EvFetch request) w)
          /\ forall o w', advance (k o) w' = (Settled (conclusion o), w'))
      /\ (exists k,
          advance (V1.authorizedRequest humanReadableErrors P resource init) w
          = (PendingFetch request k, record (EvFetch request) w)
          /\ forall o w', advance (k o) w' = (Settled (conclusion o), w')))
  /\ (forall e, to_Request P resource init = inl e ->
      advance (V2.authorizedRequest P resource init) w = (Settled (inl e), w)
      /\ advance (V1.authorizedRequest humanReadableErrors P resource init) w
         = (Settled (inl e), w)).
Proof.
  intros Hu. split; [reflexivity|].
  unfold V2.authorizedRequest, V1.authorizedRequest. split.
  - intros request ->. cbn. rewrite Hu. cbn.
    split; eexists; (split; [reflexivity|]); intros [e|r] w'; reflexivity.
  - intros e ->. cbn. split; reflexivity.
Qed.

Lemma authorizedRequest_signed_out_witness :
  let w := idle (sample_auth None [7]) ∅ 1000 in
  let request := {| url := "http://google.com"; method := "GET"; headers := [];
                    body := NoBody |} in
  user (this w) = None
  /\ to_Request sample_platform (ResUrl "http://google.com") None = inr request
  /\ exists k,
      advance (V2.authorizedRequest sample_platform (ResUrl "http://google.com") None) w
      = (PendingFetch request k, record (EvFetch request) w)
      /\ forall o w', advance (k o) w' = (Settled (conclusion o), w').
Proof.
  cbn zeta.
  assert (Hu : user (this (idle (sample_auth None [7]) ∅ 1000)) = None) by reflexivity.
  split; [exact Hu|]. split; [reflexivity|].
  destruct (authorizedRequest_signed_out no_table sample_platform _
              (ResUrl "http://google.com") None Hu) as (_ & T & _).
  exact (proj1 (T _ eq_refl)).
Defined.

(* ===================================================================== *)
(** ** The redirect flow: resolution after the redirect *)
(* ===================================================================== *)

Lemma V1_user_key a : V1.user_key a = V2.sKey a "User".
Proof. reflexivity. Qed.
Lemma V1_sessionId_key a : V1.sessionId_key a = V2.sKey a "SessionId".
Proof. reflexivity. Qed.
Lemma V1_linkAccount_key a : V1.linkAccount_key a = V2.sKey a "LinkAccount".
Proof. reflexivity. Qed.

Lemma sKey_set_user u a key : V2.sKey (set_user u a) key = V2.sKey a key.
Proof. reflexivity. Qed.
Lemma sKey_set_refreshRequest p a key : V2.sKey (set_refreshRequest p a) key = V2.sKey a key.
Proof. reflexivity. Qed.

Lemma sKey_User_LinkAccount a a' : V2.sKey a "User" <> V2.sKey a' "LinkAccount".
Proof. unfold V2.sKey. cbn. discriminate. Qed.
Lemma sKey_User_SessionId a a' : V2.sKey a "User" <> V2.sKey a' "SessionId".
Proof. unfold V2.sKey. cbn. discriminate. Qed.
Lemma sKey_LinkAccount_SessionId a a' : V2.sKey a "LinkAccount" <> V2.sKey a' "SessionId".
Proof. unfold V2.sKey. cbn. discriminate. Qed.
Lemma sKey_SessionId_LinkAccount a a' : V2.sKey a "SessionId" <> V2.sKey a' "LinkAccount".
Proof. unfold V2.sKey. cbn. discriminate. Qed.

(** Keys are written in terms of [V2.sKey], on the instance itself. *)
Ltac keys :=
  rewrite ?V1_user_key, ?V1_sessionId_key, ?V1_linkAccount_key,
    ?sKey_set_user, ?sKey_set_refreshRequest.

Ltac lookups :=
  cbn; keys;
  rewrite ?lookup_insert_eq;
  rewrite ?lookup_insert_ne
    by first [apply sKey_User_LinkAccount | apply sKey_User_SessionId
             | apply sKey_SessionId_LinkAccount | apply sKey_LinkAccount_SessionId];
  rewrite ?lookup_delete_eq;
  rewrite ?lookup_delete_ne
    by first [apply sKey_LinkAccount_SessionId | apply sKey_SessionId_LinkAccount].

(** C6. When the stored [LinkAccount] flag is set and there is no session,
    [finishProviderSignIn] reads the two keys and fails with the
    "Link account" error.  Nothing is sent, nothing is written, and the
    instance still has no session.  Both revisions, for any server. *)
Theorem finishProviderSignIn_orphaned_link
    (humanReadableErrors : string -> option string)
    (server : nat -> Request -> FetchOutcome) (a : Auth)
    (store : gmap string StoreVal) (t : Z) (requestUri : string) (extra : nat) :
  user a = None ->
  truthy_stored (store !! V2.sKey a "LinkAccount") = true ->
  let failed :=
    {| this := a; localStorage := store; clock := t;
       trace := [EvStorageGet (V2.sKey a "SessionId");
                 EvStorageGet (V2.sKey a "LinkAccount")];
       promises := [Settled (inl (Error msg_orphaned_link))] |} in
  run server (2 + extra) 0
    (snd (invoke (V2.finishProviderSignIn requestUri) (idle a store t))) = failed
  /\ run server (2 + extra) 0
       (snd (invoke (V1.finishProviderSignIn humanReadableErrors requestUri)
               (idle a store t))) = failed
  /\ requests failed = [] /\ user (this failed) = None.
Proof.
  intros Hu Hla. cbn zeta. split_and!.
  - unfold invoke, V2.finishProviderSignIn. cbn. tick. tick.
    rewrite Hla, Hu. cbn. rest. reflexivity.
  - unfold invoke, V1.finishProviderSignIn. cbn. keys. tick. tick. keys.
    rewrite Hla, Hu. cbn. rest. reflexivity.
  - reflexivity.
  - exact Hu.
Qed.

Lemma finishProviderSignIn_orphaned_link_witness :
  let a := sample_auth None [7] in
  let store : gmap string StoreVal :=
    {[ "Auth:SessionId:key:default" := SText "LwtaMnW9snPfIfm9R1rPTosVpY4";
       "Auth:LinkAccount:key:default" := SText "true" ]} in
  user a = None
  /\ truthy_stored (store !! V2.sKey a "LinkAccount") = true
  /\ outcome 0 (run (fun _ _ => FetchRejected (Error "offline")) 2 0
                  (snd (invoke (V2.finishProviderSignIn "https://app/?code=4")
                          (idle a store 1000))))
     = Some (Settled (inl (Error msg_orphaned_link))).
Proof.
  cbn zeta.
  assert (Hu : user (sample_auth None [7]) = None) by reflexivity.
  assert (Hla : truthy_stored
                  (({[ "Auth:SessionId:key:default" := SText "LwtaMnW9snPfIfm9R1rPTosVpY4";
                       "Auth:LinkAccount:key:default" := SText "true" ]}
                    : gmap string StoreVal)
                   !! V2.sKey (sample_auth None [7]) "LinkAccount") = true)
    by (vm_compute; reflexivity).
  split; [exact Hu|]. split; [exact Hla|].
  destruct (finishProviderSignIn_orphaned_link no_table
              (fun _ _ => FetchRejected (Error "offline")) _ _ 1000
              "https://app/?code=4" 0 Hu Hla) as (T & _).
  cbn zeta in T. change (2 + 0) with 2 in T. rewrite T. reflexivity.
Defined.

(** Sample responses. *)
Definition no_data : Data :=
  {| data_id_token := None; data_refresh_token := None; data_idToken := None;
     data_refreshToken := None; data_authUri := None; data_sessionId := None;
     data_context := None; data_users := []; data_error_message := None |}.

Definition sample_idp_data : Data :=
  {| data_id_token := None; data_refresh_token := None;
     data_idToken := Some "123"; data_refreshToken := Some "456";
     data_authUri := None; data_sessionId := None;
     data_context := Some "checkout"; data_users := [];
     data_error_message := None |}.

Definition sample_lookup_data : Data :=
  {| data_id_token := None; data_refresh_token := None; data_idToken := None;
     data_refreshToken := None; data_authUri := None; data_sessionId := None;
     data_context := None;
     data_users := [ {[ "kind" := "identitytoolkit#user"; "updated" := "true" ]} ];
     data_error_message := None |}.

Definition sample_token_data : Data :=
  {| data_id_token := Some "updated"; data_refresh_token := Some "updated";
     data_idToken := None; data_refreshToken := None; data_authUri := None;
     data_sessionId := None; data_context := None; data_users := [];
     data_error_message := None |}.

Definition sample_authUri_data : Data :=
  {| data_id_token := None; data_refresh_token := None; data_idToken := None;
     data_refreshToken := None;
     data_authUri := Some "https://accounts.google.com/o/oauth2/auth?response_type=code";
     data_sessionId := Some "LwtaMnW9snPfIfm9R1rPTosVpY4";
     data_context := None; data_users := []; data_error_message := None |}.

Definition error_data (code : string) : Data :=
  {| data_id_token := None; data_refresh_token := None; data_idToken := None;
     data_refreshToken := None; data_authUri := None; data_sessionId := None;
     data_context := None; data_users := []; data_error_message := Some code |}.

Definition respond (d : Data) : FetchOutcome :=
  FetchResponse {| ok := true; date := 1586516893000; json := d |}.

Definition refuse (code : string) : FetchOutcome :=
  FetchResponse {| ok := false; date := 1586516893000; json := error_data code |}.

(** A server that answers the exchange and then the profile lookup. *)
Definition exchange_server (n : nat) (_ : Request) : FetchOutcome :=
  match n with
  | 0 => respond sample_idp_data
  | _ => respond sample_lookup_data
  end.

Definition pending_flow (link : bool) : gmap string StoreVal :=
  if link then
    {[ "Auth:SessionId:key:default" := SText "LwtaMnW9snPfIfm9R1rPTosVpY4";
       "Auth:LinkAccount:key:default" := SText "true" ]}
  else
    {[ "Auth:SessionId:key:default" := SText "LwtaMnW9snPfIfm9R1rPTosVpY4" ]}.

(** C4 as stated fails twice.  A resolution that succeeds (it resolves with
    the [context] of the exchange) leaves the [SessionId] key in the
    storage: no revision ever removes it.  And the resolution of an
    orphaned link attempt fails before the removal of [LinkAccount], which
    stays in the storage. *)
Lemma pending_flow_survives_resolution :
  let resolved :=
    run exchange_server 12 0
      (snd (invoke (V2.finishProviderSignIn "https://app/?code=4")
              (idle (sample_auth None []) (pending_flow false) 1000))) in
  let orphaned :=
    run exchange_server 12 0
      (snd (invoke (V2.finishProviderSignIn "https://app/?code=4")
              (idle (sample_auth None []) (pending_flow true) 1000))) in
  (outcome 0 resolved = Some (Settled (inr (VContext (Some "checkout"))))
   /\ quiescent resolved
   /\ localStorage resolved !! "Auth:SessionId:key:default"
      = Some (SText "LwtaMnW9snPfIfm9R1rPTosVpY4"))
  /\ (outcome 0 orphaned = Some (Settled (inl (Error msg_orphaned_link)))
      /\ quiescent orphaned
      /\ localStorage orphaned !! "Auth:LinkAccount:key:default" = Some (SText "true")).
Proof. vm_compute. repeat split. Qed.

(** C4, amended.  Whenever the check of the link attempt passes (the stored
    flag is not set, or there is a session), [finishProviderSignIn] reads
    the [SessionId] and [LinkAccount] keys and removes the [LinkAccount] key
    as its next step, before the exchange; whatever the server answers, the
    completed resolution leaves no value under [LinkAccount], and the value
    under [SessionId] is the one it found.  Both revisions. *)
Theorem finishProviderSignIn_consumes_linkAccount
    (humanReadableErrors : string -> option string)
    (server : nat -> Request -> FetchOutcome) (a : Auth)
    (store : gmap string StoreVal) (t : Z) (requestUri : string) (extra : nat)
    (wf : World) :
  (truthy_stored (store !! V2.sKey a "LinkAccount") = true -> user a <> None) ->
  wf = run server (10 + extra) 0
         (snd (invoke (V2.finishProviderSignIn requestUri) (idle a store t)))
  \/ wf = run server (10 + extra) 0
            (snd (invoke (V1.finishProviderSignIn humanReadableErrors requestUri)
                    (idle a store t))) ->
  quiescent wf
  /\ (exists more : list Event,
         trace wf = [EvStorageGet (V2.sKey a "SessionId");
                     EvStorageGet (V2.sKey a "LinkAccount");
                     EvStorageRemove (V2.sKey a "LinkAccount")] ++ more)%list
  /\ localStorage wf !! V2.sKey a "LinkAccount" = None
  /\ localStorage wf !! V2.sKey a "SessionId" = store !! V2.sKey a "SessionId".
Proof.
  intros Hcheck [-> | ->].
  - unfold invoke, V2.finishProviderSignIn. cbn. tick. tick.
    destruct (truthy_stored (store !! V2.sKey a "LinkAccount")) eqn:Hla;
      destruct (user a) as [u|] eqn:Hu; try (exfalso; by apply Hcheck); cbn.
    all: tick; rewrite ?Hu; cbn.
    all: go server.
    all: split_and!; [reflexivity | eexists; reflexivity | by lookups | by lookups ].
  - unfold invoke, V1.finishProviderSignIn. cbn. keys. tick. tick. keys.
    destruct (truthy_stored (store !! V2.sKey a "LinkAccount")) eqn:Hla;
      destruct (user a) as [u|] eqn:Hu; try (exfalso; by apply Hcheck); cbn.
    all: tick; rewrite ?Hu; cbn.
    all: go server.
    all: split_and!; [reflexivity | eexists; reflexivity | by lookups | by lookups ].
Qed.

Lemma finishProviderSignIn_consumes_linkAccount_witness :
  let a := sample_auth (Some (sample_user 5000)) [] in
  let wf := run exchange_server 10 0
              (snd (invoke (V2.finishProviderSignIn "https://app/?code=4")
                      (idle a (pending_flow true) 1000))) in
  (truthy_stored (pending_flow true !! V2.sKey a "LinkAccount") = true -> user a <> None)
  /\ localStorage wf !! V2.sKey a "LinkAccount" = None
  /\ localStorage wf !! V2.sKey a "SessionId" = pending_flow true !! V2.sKey a "SessionId".
Proof.
  cbn zeta.
  assert (Hcheck : truthy_stored
                     (pending_flow true
                      !! V2.sKey (sample_auth (Some (sample_user 5000)) []) "LinkAccount")
                   = true -> user (sample_auth (Some (sample_user 5000)) []) <> None)
    by (intros _; discriminate).
  split; [exact Hcheck|].
  destruct (finishProviderSignIn_consumes_linkAccount no_table exchange_server
              (sample_auth (Some (sample_user 5000)) []) (pending_flow true) 1000
              "https://app/?code=4" 0 _ Hcheck (or_introl eq_refl)) as (_ & _ & T1 & T2).
  split; [exact T1 | exact T2].
Defined.

(* ===================================================================== *)
(** ** The redirect flow: before the redirect *)
(* ===================================================================== *)

(** A write or a removal under one of the two keys of a pending flow. *)
Definition is_flow_write (a : Auth) (e : Event) : bool :=
  match e with
  | EvStorageSet key _ | EvStorageRemove key =>
      String.eqb key (V2.sKey a "SessionId") || String.eqb key (V2.sKey a "LinkAccount")
  | _ => false
  end.

Definition flow_writes (a : Auth) (w : World) : list Event :=
  List.filter (is_flow_write a) (trace w).

(** [linkAccount] of the options. *)
Definition wants_link (o : FlowOptions) : bool :=
  match o with OptString _ => false | OptObject _ _ _ l => l end.

(** What a completed call of [signInWithProvider(options)] on instance [a]
    must look like: [r] is the promise of the call and the world right
    after the call, which the event loop then runs against [server]. *)
Definition starts_provider_flow (server : nat -> Request -> FetchOutcome)
    (a : Auth) (options : FlowOptions) (extra : nat) (r : PromiseId * World) : Prop :=
  let wf := run server (10 + extra) 0 (snd r) in
  quiescent wf
  /\ (truthy (redirectUri a) = false ->
      outcome (fst r) wf = Some (Settled (inl (Error msg_no_redirectUri)))
      /\ trace wf = [])
  /\ (truthy (redirectUri a) = true -> wants_link options = true -> user a = None ->
      outcome (fst r) wf = Some (Settled (inl (Error msg_not_logged_in)))
      /\ trace wf = [])
  /\ match outcome (fst r) wf with
     | Some (Settled (inl e)) => flow_writes a wf = []
     | Some (Settled (inr _)) =>
         exists n req resp,
           server n req = FetchResponse resp /\ ok resp = true
           /\ url req = accounts_url "createAuthUri" (apiKey a)
           /\ flow_writes a wf
              = EvStorageSet (V2.sKey a "SessionId")
                  (SText (js_string (data_sessionId (json resp))))
                :: (if wants_link options
                    then [EvStorageSet (V2.sKey a "LinkAccount") (SText "true")]
                    else [])
           /\ last (trace wf) = Some (EvAssign (js_string (data_authUri (json resp))))
     | _ => False
     end.

Lemma eqb_User_SessionId a a' :
  String.eqb (V2.sKey a "User") (V2.sKey a' "SessionId") = false.
Proof. apply String.eqb_neq, sKey_User_SessionId. Qed.
Lemma eqb_User_LinkAccount a a' :
  String.eqb (V2.sKey a "User") (V2.sKey a' "LinkAccount") = false.
Proof. apply String.eqb_neq, sKey_User_LinkAccount. Qed.
Lemma eqb_SessionId_LinkAccount a a' :
  String.eqb (V2.sKey a "SessionId") (V2.sKey a' "LinkAccount") = false.
Proof. apply String.eqb_neq, sKey_SessionId_LinkAccount. Qed.
Lemma eqb_LinkAccount_SessionId a a' :
  String.eqb (V2.sKey a "LinkAccount") (V2.sKey a' "SessionId") = false.
Proof. apply String.eqb_neq, sKey_LinkAccount_SessionId. Qed.

Lemma filter_flow_notify a u (l : list Listener) :
  List.filter (is_flow_write a) (map (fun cb => EvNotify cb u) l) = [].
Proof. induction l as [|cb l IH]; cbn; [done|]. exact IH. Qed.

Ltac flow :=
  unfold flow_writes; cbn; keys;
  rewrite ?List.filter_app; cbn;
  rewrite ?filter_flow_notify,
    ?eqb_User_SessionId, ?eqb_User_LinkAccount, ?eqb_SessionId_LinkAccount,
    ?eqb_LinkAccount_SessionId, ?String.eqb_refl; cbn.

(** Closes one completed run of [signInWithProvider]. *)
Ltac flow_done :=
  unfold starts_provider_flow; cbn;
  split_and!;
  [ reflexivity
  | first [ intros; congruence | intros; split; reflexivity ]
  | first [ intros; congruence | intros; split; reflexivity ]
  | first [ flow; reflexivity
          | eexists _, _, _;
            split_and!; [eassumption | reflexivity | reflexivity
                        | flow; reflexivity
                        | first [reflexivity
                                | cbn; rewrite ?app_comm_cons; apply last_snoc] ] ] ].

(** The fields of the options. *)
Definition option_provider (o : FlowOptions) : option string :=
  match o with OptString p => Some p | OptObject p _ _ _ => p end.

Definition option_scope (o : FlowOptions) : option string :=
  match o with OptString _ => None | OptObject _ s _ _ => s end.

Definition option_context (o : FlowOptions) : option string :=
  match o with OptString _ => None | OptObject _ _ c _ => c end.

(** The discovery request of [signInWithProvider(options)] on instance
    [a], with [scope] as [oauthScope]. *)
Definition discovery_request (a : Auth) (options : FlowOptions) (scope : option string)
  : Request :=
  api_request a "createAuthUri"
    (CreateAuthUriBody (option_provider options) (js_string (redirectUri a)) scope
       "CODE_FLOW" (option_context options)).

(** The checks before the discovery call pass, and [n] requests are
    answered before it: none, or, for a link request on a session whose
    token has expired, the refresh, which the server accepts. *)
Definition passes_checks (server : nat -> Request -> FetchOutcome) (a : Auth) (t : Z)
    (options : FlowOptions) (n : nat) : Prop :=
  truthy (redirectUri a) = true
  /\ if wants_link options then
       exists u, user a = Some u
         /\ (((t < expiresAt (tokenManager u))%Z /\ n = 0)
             \/ ((expiresAt (tokenManager u) <= t)%Z /\ n = 1
                 /\ exists r,
                      server 0 (api_request a "token"
                                  (TokenBody "refresh_token" (refreshToken (tokenManager u))))
                      = FetchResponse r /\ ok r = true))
     else n = 0.

(** What a call of [signInWithProvider(options)] does once the checks
    have passed and the server accepts the discovery request: it resolves,
    having written the [sessionId] of the answer, and the link flag
    exactly for a link request, and having called [location.assign] on the
    [authUri] of the answer at the end. *)
Definition completes_provider_flow (server : nat -> Request -> FetchOutcome)
    (a : Auth) (store : gmap string StoreVal) (t : Z) (options : FlowOptions)
    (scope : option string) (extra : nat) (r : PromiseId * World) : Prop :=
  let wf := run server (10 + extra) 0 (snd r) in
  forall n resp,
    passes_checks server a t options n ->
    server n (discovery_request a options scope) = FetchResponse resp ->
    ok resp = true ->
    let sessionId := SText (js_string (data_sessionId (json resp))) in
    outcome (fst r) wf = Some (Settled (inr VUndef))
    /\ flow_writes a wf
       = EvStorageSet (V2.sKey a "SessionId") sessionId
           :: (if wants_link options
               then [EvStorageSet (V2.sKey a "LinkAccount") (SText "true")]
               else [])
    /\ last (trace wf) = Some (EvAssign (js_string (data_authUri (json resp))))
    /\ localStorage wf !! V2.sKey a "SessionId" = Some sessionId
    /\ localStorage wf !! V2.sKey a "LinkAccount"
       = (if wants_link options then Some (SText "true")
          else store !! V2.sKey a "LinkAccount").

(** Steps of the event loop up to the next request. *)
Ltac steps := repeat first [ tick | wake | progress notify ].

(** The server's answer to the request that is out, from the hypothesis [H]. *)
Ltac answered H :=
  erewrite run_fetch by reflexivity;
  lazymatch type of H with
  | ?f ?n ?q = _ =>
      match goal with
      | |- context [f n ?q'] => change q' with q
      end
  end;
  rewrite H; unfold resume; cbn.

Ltac completed :=
  steps; rest;
  split_and!;
  [ reflexivity
  | flow; reflexivity
  | first [reflexivity | cbn; rewrite ?app_comm_cons; apply last_snoc]
  | lookups; by rewrite ?lookup_insert_eq
  | lookups; by rewrite ?lookup_insert_eq ].

Lemma completes_V2 server a store t options extra :
  refreshRequest a = None ->
  completes_provider_flow server a store t options (option_scope options) extra
    (invoke (V2.signInWithProvider options) (idle a store t)).
Proof.
  intros Href n [is_ok dt d] [Hr Hchk] Hsrv Hok. cbn in Hok. subst is_ok.
  unfold discovery_request in Hsrv.
  unfold invoke, V2.signInWithProvider. cbn. rewrite Hr. cbn.
  destruct options as [p|p s c []]; cbn in Hchk, Hsrv |- *.
  - subst n. answered Hsrv. completed.
  - destruct Hchk as (u & Hu & [[Ht ->] | (Ht & -> & [ok0 dt0 d0] & Hr0 & Hok0)]).
    + apply Z.ltb_lt in Ht.
      unfold V2.enforceAuth, V2.refreshIdToken. cbn. rewrite Hu. cbn. rewrite Hu, Ht. cbn.
      steps. answered Hsrv. completed.
    + apply Z.ltb_ge in Ht. cbn in Hok0. subst ok0.
      unfold V2.enforceAuth, V2.refreshIdToken. cbn. rewrite Hu. cbn.
      rewrite Hu, Ht, Href. cbn.
      answered Hr0. steps. answered Hsrv. completed.
  - subst n. answered Hsrv. completed.
Qed.

Lemma completes_V1 humanReadableErrors server a store t options scope extra :
  refreshRequest a = None ->
  option_provider options ≫= (fun p => providers a !! p) = Some scope ->
  completes_provider_flow server a store t options scope extra
    (invoke (V1.signInWithProvider humanReadableErrors options) (idle a store t)).
Proof.
  intros Href Hscope n [is_ok dt d] [Hr Hchk] Hsrv Hok. cbn in Hok. subst is_ok.
  unfold discovery_request in Hsrv.
  unfold invoke, V1.signInWithProvider. cbn. rewrite Hr. cbn.
  destruct options as [p|p s c []]; cbn in Hchk, Hsrv, Hscope |- *.
  - subst n. rewrite Hscope. cbn. answered Hsrv. completed.
  - destruct Hchk as (u & Hu & [[Ht ->] | (Ht & -> & [ok0 dt0 d0] & Hr0 & Hok0)]).
    + apply Z.ltb_lt in Ht.
      unfold V1.enforceAuth, V1.refreshIdToken. cbn. rewrite Hu. cbn. rewrite Hu, Ht. cbn.
      steps. rewrite Hscope. cbn. answered Hsrv. completed.
    + apply Z.ltb_ge in Ht. cbn in Hok0. subst ok0.
      unfold V1.enforceAuth, V1.refreshIdToken. cbn. rewrite Hu. cbn.
      rewrite Hu, Ht, Href. cbn.
      answered Hr0. steps. rewrite Hscope. cbn. answered Hsrv. completed.
  - subst n. rewrite Hscope. cbn. answered Hsrv. completed.
Qed.

(** C5. [signInWithProvider] fails with the "redirectUri" error when the
    instance has no redirect target, and, for a link request without a
    session, with the "must be logged-in" error; in both cases nothing at
    all has happened when it fails.  Whenever the call fails, for whatever
    reason and whatever the server answers, no write went to the
    [SessionId] or [LinkAccount] key.  Whenever it succeeds, the server
    answered the [createAuthUri] request, the [sessionId] of that answer was
    written under [SessionId], [LinkAccount] was written exactly when
    [linkAccount] was asked for, and the last thing done was
    [location.assign] of the [authUri] of that answer.  And it does
    succeed: whenever the checks pass (for a link request on a session
    whose token has expired, the refresh being accepted) and the server
    accepts the [createAuthUri] request, the call resolves, with the
    [sessionId] of the answer in the storage under [SessionId], the link
    flag under [LinkAccount] exactly for a link request, and
    [location.assign] of the [authUri] as its last step.  Both revisions;
    the first one reads the scope of the request from its table of
    providers, and needs the provider to be in it. *)
Theorem signInWithProvider_starts_flow
    (humanReadableErrors : string -> option string)
    (server : nat -> Request -> FetchOutcome) (a : Auth)
    (store : gmap string StoreVal) (t : Z) (options : FlowOptions) (extra : nat) :
  refreshRequest a = None ->
  starts_provider_flow server a options extra
    (invoke (V2.signInWithProvider options) (idle a store t))
  /\ starts_provider_flow server a options extra
       (invoke (V1.signInWithProvider humanReadableErrors options) (idle a store t))
  /\ completes_provider_flow server a store t options (option_scope options) extra
       (invoke (V2.signInWithProvider options) (idle a store t))
  /\ (forall scope,
        option_provider options ≫= (fun p => providers a !! p) = Some scope ->
        completes_provider_flow server a store t options scope extra
          (invoke (V1.signInWithProvider humanReadableErrors options) (idle a store t))).
Proof.
  intros Href. split; [|split; [|split]].
  - unfold starts_provider_flow, invoke, V2.signInWithProvider. cbn.
    destruct (truthy (redirectUri a)) eqn:Hr; cbn.
    + destruct options as [p|p s c []]; cbn.
      * go server; flow_done.
      * unfold V2.enforceAuth, V2.refreshIdToken. cbn.
        destruct (user a) as [u|] eqn:Hu; cbn; go server; flow_done.
      * go server; flow_done.
    + go server; flow_done.
  - unfold starts_provider_flow, invoke, V1.signInWithProvider. cbn.
    destruct (truthy (redirectUri a)) eqn:Hr; cbn.
    + destruct options as [p|p s c []]; cbn.
      * go server; flow_done.
      * unfold V1.enforceAuth, V1.refreshIdToken. cbn.
        destruct (user a) as [u|] eqn:Hu; cbn; go server; flow_done.
      * go server; flow_done.
    + go server; flow_done.
  - by apply completes_V2.
  - intros scope Hscope. by apply completes_V1.
Qed.

(** A server that answers the discovery call. *)
Definition discovery_server (_ : nat) (_ : Request) : FetchOutcome :=
  respond sample_authUri_data.

Lemma signInWithProvider_starts_flow_witness :
  let a := sample_auth None [] in
  let options := OptString "google.com" in
  let call := invoke (V2.signInWithProvider options) (idle a ∅ 1000) in
  let wf := run discovery_server (10 + 0) 0 (snd call) in
  refreshRequest a = None
  /\ passes_checks discovery_server a 1000 options 0
  /\ starts_provider_flow discovery_server a options 0 call
  /\ outcome (fst call) wf = Some (Settled (inr VUndef))
  /\ localStorage wf !! V2.sKey a "SessionId" = Some (SText "LwtaMnW9snPfIfm9R1rPTosVpY4")
  /\ last (trace wf)
     = Some (EvAssign "https://accounts.google.com/o/oauth2/auth?response_type=code").
Proof.
  cbn zeta.
  assert (Hp : passes_checks discovery_server (sample_auth None []) 1000
                 (OptString "google.com") 0) by (split; reflexivity).
  destruct (signInWithProvider_starts_flow no_table discovery_server
              (sample_auth None []) ∅ 1000 (OptString "google.com") 0 eq_refl)
    as (T1 & _ & T2 & _).
  destruct (T2 0 _ Hp eq_refl eq_refl) as (T3 & _ & T4 & T5 & _).
  split; [reflexivity|]. split; [exact Hp|]. split; [exact T1|].
  split; [exact T3|]. split; [exact T5 | exact T4].
Defined.

(** The test "Saves the correct data to storage" of the repository. *)
Example signInWithProvider_saves_sessionId :
  let wf := run discovery_server 10 0
              (snd (invoke (V1.signInWithProvider no_table (OptString "google.com"))
                      (idle (sample_auth None []) ∅ 1000))) in
  localStorage wf !! "Auth:SessionId:key:default"
  = Some (SText "LwtaMnW9snPfIfm9R1rPTosVpY4")
  /\ localStorage wf !! "Auth:LinkAccount:key:default" = None
  /\ last (trace wf)
     = Some (EvAssign "https://accounts.google.com/o/oauth2/auth?response_type=code").
Proof. vm_compute. repeat split. Qed.

(* ===================================================================== *)
(** ** The token refresher: one refresh *)
(* ===================================================================== *)

(** The session after a refresh answered at [dt] with body [d]: the fields
    of [u], and a new [tokenManager]. *)
Definition refreshed (u : User) (dt : Z) (d : Data) : User :=
  {| profile := profile u;
     tokenManager := {| idToken := data_id_token d;
                        refreshToken := data_refresh_token d;
                        expiresAt := dt + 3600 * 1000 |} |}.

(** The request of a refresh for session [u]. *)
Definition token_request (a : Auth) (u : User) : Request :=
  api_request a "token" (TokenBody "refresh_token" (refreshToken (tokenManager u))).

(** C2 as stated fails in the first revision: a successful refresh goes
    through [persistSession], which calls [emit], and the listener 7 is
    called. *)
Lemma refresh_notifies_in_first_revision :
  let wf := run (fun _ _ => respond sample_token_data) 4 0
              (snd (invoke (V1.refreshIdToken no_table)
                      (idle (sample_auth (Some (sample_user 0)) [7]) ∅ 1000))) in
  outcome 1 wf = Some (Settled (inr VUndef))
  /\ notified 7 wf = 1
  /\ notified 7 wf <> 0.
Proof. vm_compute. repeat split; discriminate. Qed.

(** C2, amended.  A refresh that succeeds on a session [u] whose token has
    expired leaves the instance with the session [refreshed u dt d] (the
    profile fields of [u], and the [id_token], [refresh_token] and
    [expiresAt] of the response in [tokenManager]) and the storage with its
    text under the session key.  In the second revision no listener is
    called.  In the first revision every listener is called, once for each
    of its registrations, with the new session. *)
Theorem refresh_replaces_tokenManager_only
    (humanReadableErrors : string -> option string)
    (server : nat -> Request -> FetchOutcome) (a : Auth)
    (store : gmap string StoreVal) (t : Z) (u : User) (extra : nat)
    (dt : Z) (d : Data) :
  user a = Some u ->
  (expiresAt (tokenManager u) <= t)%Z ->
  refreshRequest a = None ->
  server 0 (token_request a u) = FetchResponse {| ok := true; date := dt; json := d |} ->
  let session := Some (refreshed u dt d) in
  let key := V2.sKey a "User" in
  let w2 := run server (3 + extra) 0 (snd (invoke V2.refreshIdToken (idle a store t))) in
  let w1 := run server (4 + extra) 0
              (snd (invoke (V1.refreshIdToken humanReadableErrors) (idle a store t))) in
  w2 = {| this := set_refreshRequest None (set_user session a);
          localStorage := <[key := SJson session]> store;
          clock := t;
          trace := [EvFetch (token_request a u); EvHandle (Some 0);
                    EvStorageSet key (SJson session); EvHandle None];
          promises := [Settled (inr VUndef); Settled (inr VUndef)] |}
  /\ (forall cb, notified cb w2 = 0)
  /\ w1 = {| this := set_refreshRequest None (set_user session a);
             localStorage := <[key := SJson session]> store;
             clock := t;
             trace := [EvFetch (token_request a u); EvHandle (Some 0);
                       EvStorageSet key (SJson session)]
                      ++ map (fun cb => EvNotify cb session) (listeners a)
                      ++ [EvHandle None];
             promises := [Settled (inr (VData {| payload := d;
                                                 data_expiresAt := dt + 3600 * 1000 |}));
                          Settled (inr VUndef)] |}
  /\ (forall cb, notified cb w1 = registrations cb a).
Proof.
  intros Hu Ht Href Hs. apply Z.ltb_ge in Ht. unfold token_request in Hs. cbn zeta.
  assert (H2 : run server (3 + extra) 0 (snd (invoke V2.refreshIdToken (idle a store t)))
               = {| this := set_refreshRequest None (set_user (Some (refreshed u dt d)) a);
                    localStorage := <[V2.sKey a "User" := SJson (Some (refreshed u dt d))]> store;
                    clock := t;
                    trace := [EvFetch (token_request a u); EvHandle (Some 0);
                              EvStorageSet (V2.sKey a "User") (SJson (Some (refreshed u dt d)));
                              EvHandle None];
                    promises := [Settled (inr VUndef); Settled (inr VUndef)] |}).
  { unfold invoke, V2.refreshIdToken. cbn. rewrite Hu, Ht, Href. cbn.
    erewrite run_fetch by reflexivity. rewrite Hs. unfold resume. cbn.
    go server. reflexivity. }
  assert (H1 : run server (4 + extra) 0
                 (snd (invoke (V1.refreshIdToken humanReadableErrors) (idle a store t)))
               = {| this := set_refreshRequest None (set_user (Some (refreshed u dt d)) a);
                    localStorage := <[V2.sKey a "User" := SJson (Some (refreshed u dt d))]> store;
                    clock := t;
                    trace := [EvFetch (token_request a u); EvHandle (Some 0);
                              EvStorageSet (V2.sKey a "User") (SJson (Some (refreshed u dt d)))]
                             ++ map (fun cb => EvNotify cb (Some (refreshed u dt d))) (listeners a)
                             ++ [EvHandle None];
                    promises := [Settled (inr (VData {| payload := d;
                                                        data_expiresAt := dt + 3600 * 1000 |}));
                                 Settled (inr VUndef)] |}).
  { unfold invoke, V1.refreshIdToken. cbn. rewrite Hu, Ht, Href. cbn.
    erewrite run_fetch by reflexivity. rewrite Hs. unfold resume. cbn.
    go server. reflexivity. }
  rewrite H2, H1. split_and!; try reflexivity.
  intros cb. unfold notified. cbn.
  rewrite List.filter_app, filter_notify_other, length_app, length_map. cbn.
  rewrite count_occ_filter_eqb. unfold registrations. lia.
Qed.

Lemma refresh_replaces_tokenManager_only_witness :
  let a := sample_auth (Some (sample_user 0)) [7] in
  let server := fun (_ : nat) (_ : Request) => respond sample_token_data in
  let w2 := run server 3 0 (snd (invoke V2.refreshIdToken (idle a ∅ 1000))) in
  user a = Some (sample_user 0)
  /\ (expiresAt (tokenManager (sample_user 0)) <= 1000)%Z
  /\ refreshRequest a = None
  /\ (forall cb, notified cb w2 = 0)
  /\ user (this w2) = Some (refreshed (sample_user 0) 1586516893000 sample_token_data).
Proof.
  cbn zeta.
  assert (Ht : Z.le (expiresAt (tokenManager (sample_user 0))) 1000)
    by (vm_compute; discriminate).
  split; [reflexivity|]. split; [exact Ht|]. split; [reflexivity|].
  destruct (refresh_replaces_tokenManager_only no_table
              (fun _ _ => respond sample_token_data)
              (sample_auth (Some (sample_user 0)) [7]) ∅ 1000 (sample_user 0) 0
              1586516893000 sample_token_data eq_refl Ht eq_refl eq_refl)
    as (T1 & T2 & _).
  split; [exact T2|]. change (3 + 0) with 3 in T1. rewrite T1. reflexivity.
Defined.

(* ===================================================================== *)
(** ** Construction *)
(* ===================================================================== *)

(** The world after [new Auth(options)] and, in the same turn, [listen(cb)]
    for the callbacks [ls]; none if the constructor threw. *)
Definition after_new (r : Exn + World) (ls : list Listener) : option World :=
  match r with
  | inl _ => None
  | inr w => Some (with_this (set_listeners ls) w)
  end.

(** The request of a profile lookup with the tokens [tm]. *)
Definition lookup_request (a : Auth) (tm : TokenManager) : Request :=
  api_request a "lookup" (LookupBody (idToken tm)).

Lemma sKey_set_listeners ls a key : V2.sKey (set_listeners ls a) key = V2.sKey a key.
Proof. reflexivity. Qed.

Lemma sKey_new_instance o k l key :
  V2.sKey (new_instance o k (foldl V1.add_provider ∅ l)) key = V2.sKey (new_instance o k ∅) key.
Proof. reflexivity. Qed.

Ltac keys' := keys; rewrite ?sKey_set_listeners, ?sKey_new_instance.


Lemma filter_fetch_notify u (l : list Listener) :
  List.filter is_fetch (map (fun cb => EvNotify cb u) l) = [].
Proof. induction l as [|cb l IH]; cbn; [done|]. exact IH. Qed.

(** The requests in a trace with listener calls. *)
Ltac reqs := unfold requests; cbn; rewrite ?List.filter_app; cbn; rewrite ?filter_fetch_notify; cbn.

Lemma api_request_set_user u a e b : api_request (set_user u a) e b = api_request a e b.
Proof. reflexivity. Qed.
Lemma api_request_set_refreshRequest p a e b :
  api_request (set_refreshRequest p a) e b = api_request a e b.
Proof. reflexivity. Qed.
Lemma api_request_set_listeners l a e b :
  api_request (set_listeners l a) e b = api_request a e b.
Proof. reflexivity. Qed.
Ltac apis :=
  repeat first [ rewrite api_request_set_user | rewrite api_request_set_refreshRequest
               | rewrite api_request_set_listeners ].
Ltac apis_in H :=
  repeat first [ rewrite api_request_set_user in H
               | rewrite api_request_set_refreshRequest in H
               | rewrite api_request_set_listeners in H ].

(** The calls of one listener in a trace. *)
Ltac counted :=
  unfold notified, registrations; cbn;
  rewrite ?List.filter_app, ?length_app; cbn;
  rewrite ?filter_notify_other, ?length_map, ?count_occ_filter_eqb; cbn;
  try lia.

(** Sample options. *)
Definition sample_options : Options :=
  {| opt_name := None; opt_apiKey := Some "key"; opt_redirectUri := None;
     opt_providers := [] |}.

Definition sample_store (expires : Z) : gmap string StoreVal :=
  {[ "Auth:User:key:default" := SJson (Some (sample_user expires)) ]}.

(** C3 as stated fails in the first revision.  With a persisted session
    whose token has expired, and a server that refuses everything with
    [TOKEN_EXPIRED], the constructor of V1 sends one request, the profile
    lookup: no refresh is attempted, and the session stays, in memory and
    in the storage. *)
Lemma first_revision_restores_without_refresh :
  exists w,
    run (fun _ _ => refuse "TOKEN_EXPIRED") 10 0
      <$> after_new (V1.constructor no_table sample_options
                       (idle (sample_auth None []) (sample_store 0) 1000)) []
    = Some w
    /\ quiescent w
    /\ requests w
       = [EvFetch (lookup_request (new_instance sample_options "key" ∅)
                     (tokenManager (sample_user 0)))]
    /\ user (this w) = Some (sample_user 0)
    /\ localStorage w !! "Auth:User:key:default" = Some (SJson (Some (sample_user 0))).
Proof.
  eexists. split; [vm_compute; reflexivity|]. vm_compute. repeat split.
Qed.

(** C3, amended.  [new Auth(options)] with an [apiKey] returns, and the
    rest happens in later turns.
    - Without a persisted session nothing is sent, in either revision (the
      second one calls the listeners with the absent value).
    - A persisted session [u] is adopted in the first turn.  The first
      revision then looks the profile up with the stored [idToken], and
      attempts no refresh.
    - The second revision enters [refreshIdToken]: with a token that has
      not expired it goes on with the profile lookup; with an expired one
      it sends the refresh request.  When that request succeeds, the
      profile lookup with the new [idToken] follows, and a profile it
      returns becomes the session, with the refreshed [tokenManager], in
      memory and in the storage.  When that request fails with the code
      [TOKEN_EXPIRED], the run ends with no session in memory and no value
      under the session key, and the chain started by the constructor
      resolves: its promise and the promise of the read are settled with a
      value, the only rejected promise being the refresh itself, which the
      chain has caught. *)
Theorem constructor_restores_session (hre : string -> option string)
    (server : nat -> Request -> FetchOutcome) (a0 : Auth) (o : Options) (k : string)
    (ls : list Listener) (store : gmap string StoreVal) (t : Z) (extra : nat) :
  opt_apiKey o = Some k ->
  let a2 := set_listeners ls (new_instance o k ∅) in
  let a1 := set_listeners ls (new_instance o k (foldl V1.add_provider ∅ (opt_providers o))) in
  let key := V2.sKey a2 "User" in
  let boot2 := after_new (V2.constructor o (idle a0 store t)) ls in
  let boot1 := after_new (V1.constructor hre o (idle a0 store t)) ls in
  (store !! key = None ->
     run server (1 + extra) 0 <$> boot2
     = Some {| this := a2; localStorage := store; clock := t;
               trace := EvStorageGet key :: map (fun cb => EvNotify cb None) ls;
               promises := [Settled (inr VUndef); Settled (inr VUndef)] |}
     /\ run server (1 + extra) 0 <$> boot1
        = Some {| this := a1; localStorage := store; clock := t;
                  trace := [EvStorageGet key];
                  promises := [Settled (inr VUndef)] |})
  /\ (forall u, store !! key = Some (SJson (Some u)) ->
      (exists w, run server 1 0 <$> boot2 = Some w /\ user (this w) = Some u
                 /\ (forall cb, notified cb w = count_occ Nat.eq_dec ls cb))
      /\ (exists w, run server 1 0 <$> boot1 = Some w /\ user (this w) = Some u
                    /\ requests w = [EvFetch (lookup_request a1 (tokenManager u))])
      /\ ((t < expiresAt (tokenManager u))%Z ->
          exists w, run server 2 0 <$> boot2 = Some w
                    /\ requests w = [EvFetch (lookup_request a2 (tokenManager u))])
      /\ ((expiresAt (tokenManager u) <= t)%Z ->
          (exists w, run server 1 0 <$> boot2 = Some w
                    /\ requests w = [EvFetch (token_request a2 u)])
          /\ (forall dt d,
                 server 0 (token_request a2 u)
                 = FetchResponse {| ok := true; date := dt; json := d |} ->
                 exists w, run server (10 + extra) 0 <$> boot2 = Some w
                    /\ quiescent w
                    /\ requests w = [EvFetch (token_request a2 u);
                                     EvFetch (lookup_request a2 (tokenManager (refreshed u dt d)))]
                    /\ (forall dt' d' p ps,
                          server 1 (lookup_request a2 (tokenManager (refreshed u dt d)))
                          = FetchResponse {| ok := true; date := dt'; json := d' |} ->
                          data_users d' = p :: ps ->
                          let session := Some {| profile := delete "kind" p;
                                                 tokenManager := tokenManager (refreshed u dt d) |} in
                          user (this w) = session
                          /\ localStorage w !! key = Some (SJson session)))
          /\ (forall dt d m,
                 server 0 (token_request a2 u)
                 = FetchResponse {| ok := false; date := dt; json := d |} ->
                 data_error_message d = Some m ->
                 strip_explanation m = "TOKEN_EXPIRED" ->
                 exists w, run server (10 + extra) 0 <$> boot2 = Some w
                    /\ quiescent w
                    /\ user (this w) = None
                    /\ localStorage w !! key = None
                    /\ promises w = [Settled (inr VUndef); Settled (inr VUndef);
                                     Settled (inl (Error "TOKEN_EXPIRED"));
                                     Settled (inr VUndef)]))).
Proof.
  intros Hk. cbn zeta. unfold V2.constructor, V1.constructor. rewrite Hk.
  unfold invoke, V2.restore, V1.restore. cbn. keys'.
  split.
  { intros Hs. split.
    - tick. keys'. rewrite Hs. cbn. go server. reflexivity.
    - tick. keys'. rewrite Hs. cbn. go server. reflexivity. }
  intros u Hs. split_and!.
  - tick. keys'. rewrite Hs. cbn. notify.
    unfold V2.refreshIdToken. cbn. time_cases.
    + rewrite run_out. eexists; split_and!; [reflexivity | reflexivity |].
      intros cb. counted.
    + rewrite run_out. eexists; split_and!; [reflexivity | reflexivity |].
      intros cb. counted.
  - tick. keys'. rewrite Hs. cbn. rewrite run_out.
    eexists; split_and!; [reflexivity | reflexivity | reflexivity].
  - intros Ht. apply Z.ltb_lt in Ht.
    tick. keys'. rewrite Hs. cbn. notify.
    unfold V2.refreshIdToken. cbn. rewrite Ht. cbn. tick. rewrite run_out.
    eexists; split; [reflexivity|]. reqs. reflexivity.
  - intros Ht. apply Z.ltb_ge in Ht. split_and!.
    + tick. keys'. rewrite Hs. cbn. notify.
      unfold V2.refreshIdToken. cbn. rewrite Ht. cbn. rewrite run_out.
      eexists; split; [reflexivity|]. reqs. reflexivity.
    + intros dt d Hsrv. unfold token_request in Hsrv. apis_in Hsrv.
      tick. keys'. rewrite Hs. cbn. notify.
      unfold V2.refreshIdToken. cbn. rewrite Ht. cbn.
      erewrite run_fetch by reflexivity. apis. rewrite Hsrv. unfold resume. cbn.
      tick. wake. tick. 
      erewrite run_fetch by reflexivity. apis.
      match goal with |- context [server 1 ?r] => destruct (server 1 r) as [e|[[] dt' d']] eqn:Hl end;
        unfold resume; cbn.
      all: go server.
      all: eexists; split_and!; [reflexivity | reflexivity | reqs; reflexivity | ].
      all: intros dt2 d2 p ps Hl2 Hp; unfold lookup_request in Hl2; cbn in Hl2; apis_in Hl2; rewrite Hl in Hl2; try discriminate.
      all: injection Hl2 as -> ->; try congruence.
      all: match goal with H : data_users ?x = _ :: _, H' : data_users ?x = _ :: _ |- _ => rewrite H in H'; injection H' as <- <- end.
      all: cbn; split; [reflexivity|]. all: lookups. 
      all: reflexivity.
    + intros dt d m Hsrv Hd Hm. unfold token_request in Hsrv. apis_in Hsrv.
      tick. keys'. rewrite Hs. cbn. notify.
      unfold V2.refreshIdToken. cbn. rewrite Ht. cbn.
      erewrite run_fetch by reflexivity. apis. rewrite Hsrv. unfold resume. cbn.
      rewrite Hd. cbn. rewrite Hm. cbn. go server.
      eexists; split_and!; [reflexivity | reflexivity | reflexivity | by lookups | reflexivity].
Qed.

Lemma constructor_restores_session_witness :
  let server := fun (_ : nat) (_ : Request) => refuse "TOKEN_EXPIRED" in
  opt_apiKey sample_options = Some "key"
  /\ exists w,
      run server 10 0
        <$> after_new (V2.constructor sample_options
                         (idle (sample_auth None []) (sample_store 0) 1000)) [7]
      = Some w
      /\ user (this w) = None
      /\ localStorage w !! "Auth:User:key:default" = None.
Proof.
  cbn zeta. split; [reflexivity|].
  pose proof (constructor_restores_session no_table
                (fun _ _ => refuse "TOKEN_EXPIRED") (sample_auth None [])
                sample_options "key" [7] (sample_store 0) 1000 0 eq_refl) as T.
  cbn zeta in T. destruct T as [_ T].
  assert (Hs : sample_store 0
               !! V2.sKey (set_listeners [7] (new_instance sample_options "key" ∅)) "User"
               = Some (SJson (Some (sample_user 0)))) by (vm_compute; reflexivity).
  destruct (T (sample_user 0) Hs) as (_ & _ & _ & T1).
  assert (Ht : Z.le (expiresAt (tokenManager (sample_user 0))) 1000)
    by (vm_compute; discriminate).
  destruct (T1 Ht) as (_ & _ & T2).
  destruct (T2 1586516893000%Z (error_data "TOKEN_EXPIRED") "TOKEN_EXPIRED"
              eq_refl eq_refl eq_refl) as (w & Hw & _ & Hu & Hl & _).
  exists w. split; [exact Hw|]. split; [exact Hu | exact Hl].
Defined.

(* ===================================================================== *)
(** ** The token refresher: concurrent callers *)
(* ===================================================================== *)

(** [n] calls of the same method in one turn, one after the other. *)
Fixpoint invoke_all (p : Prog Val) (n : nat) (w : World) : list PromiseId * World :=
  match n with
  | 0 => ([], w)
  | S n' =>
      let '(i, w1) := invoke p w in
      let '(l, w2) := invoke_all p n' w1 in
      (i :: l, w2)
  end.

Definition is_clear (e : Event) : bool :=
  match e with EvHandle None => true | _ => false end.

(** How often the handle was cleared. *)
Definition handle_clears (w : World) : nat := length (List.filter is_clear (trace w)).

(** Success, or the exception of a failure. *)
Definition verdict (r : Exn + Val) : Exn + unit :=
  match r with inl e => inl e | inr _ => inr tt end.

Lemma runnable_turn i o w :
  first_runnable (promises w) (promises w) 0 = Some i -> is_Some (turn i o w).
Proof.
  assert (H : forall l k, first_runnable (promises w) l k = Some i ->
                exists st, l !! (i - k) = Some st /\ k <= i /\ runnable (promises w) st = true).
  { induction l as [|st l IH]; intros k Hk; cbn in Hk; [discriminate|].
    destruct (runnable (promises w) st) eqn:Hr.
    - injection Hk as <-. exists st. rewrite Nat.sub_diag. auto.
    - destruct (IH _ Hk) as (st' & Hl & Hle & Hr').
      exists st'. split_and!; [|lia|done].
      replace (i - k) with (S (i - S k)) by lia. exact Hl. }
  intros Hi. destruct (H _ _ Hi) as (st & Hl & _ & Hr).
  rewrite Nat.sub_0_r in Hl. unfold turn. rewrite Hl.
  destruct st as [r|k|req k|p k]; cbn in Hr; try discriminate; eauto.
  destruct (promises w !! p) as [[]|]; try discriminate; eauto.
Qed.


Lemma waiting_insert (fs : list bool) j :
  fs !! j = Some false ->
  S (length (List.filter negb (<[j := true]> fs))) = length (List.filter negb fs).
Proof.
  revert j. induction fs as [|b fs IH]; intros [|j] Hj; cbn in *; try discriminate.
  - injection Hj as ->. reflexivity.
  - destruct b; cbn; rewrite <- (IH _ Hj); reflexivity.
Qed.


Lemma first_runnable_none ps (l : list (PState Val)) k :
  first_runnable ps l k = None -> Forall (fun st => runnable ps st = false) l.
Proof.
  revert k. induction l as [|st l IH]; intros k H; cbn in H; [constructor|].
  destruct (runnable ps st) eqn:Hr; [discriminate|]. constructor; eauto.
Qed.


Lemma filter_clear_notify s (l : list nat) :
  List.filter is_clear (map (fun cb => EvNotify cb s) l) = [].
Proof. induction l as [|cb l IH]; cbn; [done|]. exact IH. Qed.

(** The single-flight property of a refresh method [refresh], for [2 + n]
    calls made in one turn on instance [a], whose session [u] has expired:
    the calls return the promises 1 to [2 + n], promise 0 being the refresh
    call that the handle holds; then, along every schedule of the event
    loop,
    - there are at most [n + 5] turns;
    - one request was sent, the refresh request;
    - the handle was cleared at most once, and not before the refresh call
      has settled;
    - when nothing can go on any more, the handle was cleared once and is
      empty, and the promises of the callers are all settled, all with a
      value or all with the same exception;
    - otherwise some promise can go on. *)
Definition single_flight (refresh : Prog Val) (a : Auth)
    (store : gmap string StoreVal) (t : Z) (u : User) (n : nat) : Prop :=
  let calls := invoke_all refresh (2 + n) (idle a store t) in
  fst calls = seq 1 (2 + n)
  /\ forall s w,
      turns s (snd calls) = Some w ->
      length s <= n + 5
      /\ requests w = [EvFetch (token_request a u)]
      /\ handle_clears w <= 1
      /\ (handle_clears w = 1 -> exists r, outcome 0 w = Some (Settled r))
      /\ (quiescent w ->
          handle_clears w = 1
          /\ refreshRequest (this w) = None
          /\ exists v, forall i, In i (fst calls) ->
               exists r, outcome i w = Some (Settled r) /\ verdict r = v)
      /\ (~ quiescent w -> exists i, forall o, is_Some (turn i o w)).

Lemma can_go_on w : ~ quiescent w -> exists i, forall o, is_Some (turn i o w).
Proof.
  unfold quiescent. intros Hq.
  destruct (first_runnable (promises w) (promises w) 0) as [i|] eqn:Hi; [|done].
  exists i. intros o. by apply runnable_turn.
Qed.
(** *** The second revision *)

Module RefreshV2.
Section SingleFlight.

Variables (a : Auth) (store : gmap string StoreVal) (t : Z) (u : User).
Hypothesis signed_in : user a = Some u.
Hypothesis expired : (expiresAt (tokenManager u) <= t)%Z.
Hypothesis no_handle : refreshRequest a = None.

(** The refresh call of the second revision: the request is out, or the
    new session is being written, or the call has settled. *)
Inductive Call :=
| Fetching
| Persisting (dt : Z) (d : Data)
| Refreshed (dt : Z) (d : Data)
| Failed (e : Exn).

(** The callers: has the one that started the call returned, and which of
    those that joined it have. *)
Record Flight := {
  call : Call;
  leader : bool;
  followers : list bool
}.

Definition call_result (c : Call) : Exn + Val :=
  match c with
  | Failed e => inl e
  | _ => inr VUndef
  end.

Definition call_settled (c : Call) : bool :=
  match c with Refreshed _ _ | Failed _ => true | _ => false end.

Definition session_of (c : Call) : option User :=
  match c with
  | Persisting dt d | Refreshed dt d => Some (refreshed u dt d)
  | _ => Some u
  end.

Definition call_k : FetchOutcome -> Prog Val :=
  fun o =>
    let* data :=
      (let* response := match o with
                        | FetchRejected e => Throw e
                        | FetchResponse r => Ret r
                        end in
       if ok response
       then Ret {| payload := json response;
                   data_expiresAt := (date response + 3600 * 1000)%Z |}
       else match data_error_message (json response) with
            | Some m => Throw (Error (strip_explanation m))
            | None => Throw undefined_property
            end) in
    let* a1 := get_this in
    V2.setState (Some (spread_user (user a1)
                         {| idToken := data_id_token (payload data);
                            refreshToken := data_refresh_token (payload data);
                            expiresAt := data_expiresAt data |})) true false.

Definition leader_k : Exn + Val -> Prog Val :=
  fun r =>
    finally_ (do match r with inl e => Throw e | inr v => Ret v end then Ret VUndef)
      (set_handle None).

Definition follower_k : Exn + Val -> Prog Val :=
  fun r => do match r with inl e => Throw e | inr v => Ret v end then Ret VUndef.

Definition call_state (c : Call) : PState Val :=
  match c with
  | Fetching => PendingFetch (token_request a u) call_k
  | Persisting _ _ => PendingTick (Ret VUndef)
  | Refreshed _ _ => Settled (inr VUndef)
  | Failed e => Settled (inl e)
  end.

Definition leader_state (c : Call) (returned : bool) : PState Val :=
  if returned then Settled (call_result c) else PendingAwait 0 leader_k.

Definition follower_state (c : Call) (returned : bool) : PState Val :=
  if returned then Settled (call_result c) else PendingAwait 0 follower_k.

(** The world of a flight. *)
Definition world_of (f : Flight) : World :=
  {| this := set_refreshRequest (if leader f then None else Some 0)
               (set_user (session_of (call f)) a);
     localStorage :=
       match session_of (call f), call f with
       | _, Fetching | _, Failed _ => store
       | s, _ => <[V2.sKey a "User" := SJson s]> store
       end;
     clock := t;
     trace := [EvFetch (token_request a u); EvHandle (Some 0)]
              ++ match call f with
                 | Persisting _ _ | Refreshed _ _ =>
                     [EvStorageSet (V2.sKey a "User") (SJson (session_of (call f)))]
                 | _ => []
                 end
              ++ (if leader f then [EvHandle None] else []);
     promises := call_state (call f) :: leader_state (call f) (leader f)
                 :: (follower_state (call f) <$> followers f) |}.

(** Nobody returns before the call has settled. *)
Definition in_order (f : Flight) : Prop :=
  call_settled (call f) = false ->
  leader f = false /\ Forall (fun b => b = false) (followers f).

(** The turns still to come. *)
Definition pending (f : Flight) : nat :=
  match call f with Fetching => 2 | Persisting _ _ => 1 | _ => 0 end
  + (if leader f then 0 else 1)
  + length (List.filter negb (followers f)).

Lemma not_fresh_V2 : (t <? expiresAt (tokenManager u))%Z = false.
Proof. apply Z.ltb_ge. exact expired. Qed.

(** The first caller starts the call. *)
(** Assignments to the two fields, in any order and number, leave an
    instance that differs from [a] in these fields only. *)
Lemma this_normal_V2 p s :
  set_refreshRequest p (set_user s a)
  = {| name := name a; apiKey := apiKey a; redirectUri := redirectUri a;
       providers := providers a; listeners := listeners a; user := s;
       refreshRequest := p |}.
Proof. reflexivity. Qed.

Ltac same_world :=
  unfold world_of; cbn; rewrite ?this_normal_V2;
  unfold set_refreshRequest, set_user; cbn; rewrite ?signed_in; cbn;
  try reflexivity.

(** The first caller starts the call. *)
Lemma leader_starts_V2 :
  invoke V2.refreshIdToken (idle a store t)
  = (1, world_of {| call := Fetching; leader := false; followers := [] |}).
Proof.
  unfold invoke, V2.refreshIdToken. cbn.
  rewrite signed_in, not_fresh_V2, no_handle. cbn. f_equal. same_world.
Qed.

(** A caller that finds the request out joins the call. *)
Lemma follower_joins_V2 fs :
  invoke V2.refreshIdToken
    (world_of {| call := Fetching; leader := false; followers := fs |})
  = (2 + length fs,
     world_of {| call := Fetching; leader := false; followers := fs ++ [false] |}).
Proof.
  unfold invoke, V2.refreshIdToken, world_of. cbn.
  rewrite not_fresh_V2. cbn. rewrite length_fmap, fmap_app. reflexivity.
Qed.

Lemma followers_join_V2 m : forall fs,
  invoke_all V2.refreshIdToken m
    (world_of {| call := Fetching; leader := false; followers := fs |})
  = (seq (2 + length fs) m,
     world_of {| call := Fetching; leader := false;
                 followers := fs ++ replicate m false |}).
Proof.
  induction m as [|m IH]; intros fs.
  - cbn. by rewrite app_nil_r.
  - cbn [invoke_all]. rewrite follower_joins_V2, IH.
    rewrite length_app, <- app_assoc. cbn.
    replace (length fs + 1) with (S (length fs)) by lia. reflexivity.
Qed.

(** [n + 1] calls in one turn: the first one starts the call, the others
    join it. *)
Lemma calls_joined_V2 n :
  invoke_all V2.refreshIdToken (S n) (idle a store t)
  = (seq 1 (S n), world_of {| call := Fetching; leader := false;
                              followers := replicate n false |}).
Proof.
  cbn [invoke_all]. rewrite leader_starts_V2, followers_join_V2. reflexivity.
Qed.

Lemma followers_waiting_V2 c fs :
  Forall (fun b => b = false) fs ->
  follower_state c <$> fs = replicate (length fs) (PendingAwait 0 follower_k).
Proof. induction 1 as [|b fs -> _ IH]; cbn; [done|]. by rewrite IH. Qed.


Ltac same_flight :=
  same_world; rewrite ?followers_waiting_V2 by assumption; try reflexivity.

(** One turn of the event loop takes a flight to a flight, with fewer
    turns to come. *)
Lemma flight_turn_V2 f i o w :
  in_order f ->
  turn i o (world_of f) = Some w ->
  exists f', w = world_of f' /\ in_order f' /\ pending f' < pending f
             /\ length (followers f') = length (followers f).
Proof.
  destruct f as [c l fs]. unfold in_order. cbn [call leader followers].
  intros Hord Hturn.
  destruct i as [|[|j]].
  - (* the call *)
    destruct c; cbn in Hturn; try discriminate.
    + destruct (Hord eq_refl) as [-> Hfs].
      injection Hturn as <-. unfold resume, call_k. cbn.
      destruct o as [e|[[] dt d]]; cbn.
      * exists {| call := Failed e; leader := false; followers := fs |}.
        split_and!; [same_flight | done | cbn; lia | done].
      * exists {| call := Persisting dt d; leader := false; followers := fs |}.
        split_and!; [same_flight | done | cbn; lia | done].
      * destruct (data_error_message d) as [m|]; cbn.
        -- exists {| call := Failed (Error (strip_explanation m)); leader := false;
                     followers := fs |}.
           split_and!; [same_flight | done | cbn; lia | done].
        -- exists {| call := Failed undefined_property; leader := false;
                     followers := fs |}.
           split_and!; [same_flight | done | cbn; lia | done].
    + destruct (Hord eq_refl) as [-> Hfs].
      injection Hturn as <-. unfold resume. cbn.
      exists {| call := Refreshed dt d; leader := false; followers := fs |}.
      split_and!; [same_flight | done | cbn; lia | done].
  - (* the caller that started the call *)
    destruct l; cbn in Hturn; [discriminate|].
    destruct c; cbn in Hturn; try discriminate; injection Hturn as <-;
      unfold resume, leader_k; cbn.
    + exists {| call := Refreshed dt d; leader := true; followers := fs |}.
      split_and!; [same_flight | done | cbn; lia | done].
    + exists {| call := Failed e; leader := true; followers := fs |}.
      split_and!; [same_flight | done | cbn; lia | done].
  - (* a caller that joined *)
    unfold turn in Hturn. cbn [world_of promises call leader followers] in Hturn.
    change ((call_state c :: leader_state c l :: (follower_state c <$> fs)) !! S (S j))
      with ((follower_state c <$> fs) !! j) in Hturn.
    rewrite list_lookup_fmap in Hturn.
    destruct (fs !! j) as [[]|] eqn:Hj; cbn in Hturn; try discriminate.
    destruct c; cbn in Hturn; try discriminate; injection Hturn as <-;
      unfold resume, follower_k; cbn.
    + exists {| call := Refreshed dt d; leader := l; followers := <[j := true]> fs |}.
      split_and!; [ unfold world_of; cbn; by rewrite list_fmap_insert | done
                  | cbn; rewrite <- (waiting_insert _ _ Hj); lia
                  | cbn; apply length_insert ].
    + exists {| call := Failed e; leader := l; followers := <[j := true]> fs |}.
      split_and!; [ unfold world_of; cbn; by rewrite list_fmap_insert | done
                  | cbn; rewrite <- (waiting_insert _ _ Hj); lia
                  | cbn; apply length_insert ].
Qed.

(** Any schedule takes the flight to a flight; it cannot be longer than
    the turns that were to come. *)
Lemma flight_turns_V2 s : forall f w,
  in_order f ->
  turns s (world_of f) = Some w ->
  exists f', w = world_of f' /\ in_order f' /\ length s + pending f' <= pending f
             /\ length (followers f') = length (followers f).
Proof.
  induction s as [|[i o] s IH]; intros f w Hord Hs; cbn in Hs.
  - injection Hs as <-. exists f. split_and!; [done | done | cbn; lia | done].
  - destruct (turn i o (world_of f)) as [w1|] eqn:Hturn; [|discriminate].
    destruct (flight_turn_V2 _ _ _ _ Hord Hturn) as (f1 & -> & Hord1 & Hlt & Hlen).
    destruct (IH _ _ Hord1 Hs) as (f2 & -> & Hord2 & Hle & Hlen2).
    exists f2. split_and!; [done | done | cbn; lia | congruence].
Qed.

(** What a flight looks like from outside. *)
Lemma flight_requests_V2 f : requests (world_of f) = [EvFetch (token_request a u)].
Proof. destruct f as [[] [] fs]; reflexivity. Qed.

Lemma flight_clears_V2 f :
  handle_clears (world_of f) = if leader f then 1 else 0.
Proof. destruct f as [[] [] fs]; reflexivity. Qed.

Lemma flight_handle_V2 f :
  refreshRequest (this (world_of f)) = if leader f then None else Some 0.
Proof. reflexivity. Qed.

Lemma flight_call_V2 f :
  outcome 0 (world_of f) = Some (call_state (call f)).
Proof. reflexivity. Qed.


(** When nothing can go on, the call has settled and every caller has
    returned. *)
Lemma flight_quiescent_V2 f :
  quiescent (world_of f) ->
  call_settled (call f) = true /\ leader f = true
  /\ Forall (fun b => b = true) (followers f).
Proof.
  unfold quiescent. intros Hq. apply first_runnable_none in Hq.
  destruct f as [c l fs]. unfold world_of in Hq. cbn in Hq.
  apply Forall_cons in Hq as [Hc Hq]. apply Forall_cons in Hq as [Hl Hq].
  assert (Hset : call_settled c = true) by (destruct c; cbn in *; done).
  split_and!; [done | |].
  - destruct l; [done|]. destruct c; cbn in *; done.
  - rewrite Forall_fmap in Hq. eapply Forall_impl; [exact Hq|].
    intros [] Hb; [done|]. destruct c; cbn in *; done.
Qed.

(** The promise of every caller of a flight in which everybody returned. *)
Lemma flight_outcomes_V2 f i :
  leader f = true -> Forall (fun b => b = true) (followers f) ->
  1 <= i <= 1 + length (followers f) ->
  outcome i (world_of f) = Some (Settled (call_result (call f))).
Proof.
  destruct f as [c l fs]. cbn [leader followers call]. intros -> Hfs Hi.
  unfold outcome, world_of. cbn [promises leader followers call].
  destruct i as [|[|j]]; [lia | reflexivity |].
  change ((call_state c :: leader_state c true :: (follower_state c <$> fs)) !! S (S j))
    with ((follower_state c <$> fs) !! j).
  rewrite list_lookup_fmap.
  destruct (lookup_lt_is_Some_2 fs j) as [b Hb]; [lia|].
  rewrite Hb. rewrite Forall_lookup in Hfs. by rewrite (Hfs _ _ Hb).
Qed.

(** The second revision is single-flight, and its callers all get the same
    result. *)
Lemma refresh_single_flight_V2 n :
  single_flight V2.refreshIdToken a store t u n
  /\ forall s w,
      turns s (snd (invoke_all V2.refreshIdToken (2 + n) (idle a store t))) = Some w ->
      quiescent w ->
      exists r, forall i, 1 <= i <= 2 + n -> outcome i w = Some (Settled r).
Proof.
  unfold single_flight. cbn zeta. change (2 + n) with (S (S n)).
  rewrite (calls_joined_V2 (S n)). cbn [fst snd].
  set (f0 := {| call := Fetching; leader := false; followers := replicate (S n) false |}).
  assert (Hord0 : in_order f0).
  { intros _. split; [done|]. apply Forall_replicate. done. }
  assert (Hp0 : pending f0 = n + 4).
  { unfold pending, f0. cbn [call leader followers].
    assert (H : forall k, List.filter negb (replicate k false) = replicate k false).
    { induction k as [|k IH]; cbn; [done|]. by rewrite IH. }
    rewrite H, length_replicate. lia. }
  assert (Hl0 : length (followers f0) = S n) by apply length_replicate.
  split; [split; [reflexivity|] |].
  - intros s w Hs.
    destruct (flight_turns_V2 _ _ _ Hord0 Hs) as (f & -> & Hord & Hle & Hlen).
    split; [lia|]. split; [apply flight_requests_V2|].
    rewrite flight_clears_V2, flight_handle_V2.
    split; [destruct (leader f); lia|].
    split.
    { intros Hc. rewrite flight_call_V2.
      destruct (leader f) eqn:Hl; [|discriminate].
      destruct (call_settled (call f)) eqn:Hset.
      - destruct (call f); try discriminate; cbn; eauto.
      - destruct (Hord Hset) as [Hl' _]. congruence. }
    split; [|apply can_go_on].
    intros Hq. destruct (flight_quiescent_V2 _ Hq) as (Hset & Hl & Hfs).
    rewrite Hl. split; [done|]. split; [done|].
    exists (verdict (call_result (call f))). intros i Hi.
    apply in_seq in Hi. eexists. split; [|reflexivity].
    apply flight_outcomes_V2; [done | done | lia].
  - intros s w Hs Hq.
    destruct (flight_turns_V2 _ _ _ Hord0 Hs) as (f & -> & Hord & Hle & Hlen).
    destruct (flight_quiescent_V2 _ Hq) as (Hset & Hl & Hfs).
    exists (call_result (call f)). intros i Hi.
    apply flight_outcomes_V2; [done | done | lia].
Qed.

End SingleFlight.
End RefreshV2.

(** *** The first revision *)

Module RefreshV1.
Section SingleFlight.

Variable humanReadableErrors : string -> option string.
Variables (a : Auth) (store : gmap string StoreVal) (t : Z) (u : User).
Hypothesis signed_in : user a = Some u.
Hypothesis expired : (expiresAt (tokenManager u) <= t)%Z.
Hypothesis no_handle : refreshRequest a = None.

(** The refresh call of the first revision: the request is out, or it was
    answered. *)
Inductive Call :=
| Fetching
| Answered (dt : Z) (d : Data)
| Failed (e : Exn).

(** The caller that started the call: it waits for the answer, then for the
    write of the new session, then for [persistSession] to return. *)
Inductive Leader := Waiting | Storing | Returning | Returned.

Record Flight := {
  call : Call;
  leader : Leader;
  followers : list bool
}.

Definition call_settled (c : Call) : bool :=
  match c with Fetching => false | _ => true end.

(** What the call gives to those who await it. *)
Definition call_result (c : Call) : Exn + Val :=
  match c with
  | Failed e => inl e
  | Answered dt d => inr (VData {| payload := d; data_expiresAt := dt + 3600 * 1000 |})
  | Fetching => inr VUndef
  end.

(** What the caller that started the call returns. *)
Definition leader_result (c : Call) : Exn + Val :=
  match c with
  | Failed e => inl e
  | _ => inr VUndef
  end.

Definition new_session (c : Call) : option User :=
  match c with
  | Answered dt d => Some (refreshed u dt d)
  | _ => Some u
  end.

Definition stored (l : Leader) : bool :=
  match l with Waiting => false | _ => true end.
Definition adopted (l : Leader) : bool :=
  match l with Returning | Returned => true | _ => false end.
Definition returned (l : Leader) : bool :=
  match l with Returned => true | _ => false end.

Definition call_k : FetchOutcome -> Prog Val :=
  fun o =>
    let* data :=
      (let* response := match o with
                        | FetchRejected e => Throw e
                        | FetchResponse r => Ret r
                        end in
       if ok response
       then Ret {| payload := json response;
                   data_expiresAt := (date response + 3600 * 1000)%Z |}
       else match data_error_message (json response) with
            | Some m =>
                Throw (Error (if truthy (humanReadableErrors m)
                              then js_string (humanReadableErrors m) else m))
            | None => Throw undefined_property
            end) in
    Ret (VData data).

Definition leader_k : Exn + Val -> Prog Val :=
  fun r =>
    finally_
      (let* v := match r with inl e => Throw e | inr v => Ret v end in
       match v with
       | VData data =>
           let* a1 := get_this in
           do await_ (V1.persistSession
                        (spread_user (user a1)
                           {| idToken := data_id_token (payload data);
                              refreshToken := data_refresh_token (payload data);
                              expiresAt := data_expiresAt data |})) then
           Ret VUndef
       | _ => Throw undefined_property
       end)
      (set_handle None).

Definition storing_k (s : option User) : Prog Val :=
  finally_
    (do await_ (do modify (set_user s) then do emit then Ret VUndef) then Ret VUndef)
    (set_handle None).

Definition returning_k : Prog Val := do set_handle None then Ret VUndef.

Definition follower_k : Exn + Val -> Prog Val :=
  fun r => match r with inl e => Throw e | inr v => Ret v end.

Definition call_state (c : Call) : PState Val :=
  match c with
  | Fetching => PendingFetch (token_request a u) call_k
  | _ => Settled (call_result c)
  end.

Definition leader_state (c : Call) (l : Leader) : PState Val :=
  match l with
  | Waiting => PendingAwait 0 leader_k
  | Storing => PendingTick (storing_k (new_session c))
  | Returning => PendingTick returning_k
  | Returned => Settled (leader_result c)
  end.

Definition follower_state (c : Call) (back : bool) : PState Val :=
  if back then Settled (call_result c) else PendingAwait 0 follower_k.

(** The world of a flight. *)
Definition world_of (f : Flight) : World :=
  {| this := set_refreshRequest (if returned (leader f) then None else Some 0)
               (set_user (if adopted (leader f) then new_session (call f) else Some u) a);
     localStorage :=
       if stored (leader f) && match call f with Answered _ _ => true | _ => false end
       then <[V2.sKey a "User" := SJson (new_session (call f))]> store
       else store;
     clock := t;
     trace := [EvFetch (token_request a u); EvHandle (Some 0)]
              ++ (if stored (leader f) && match call f with Answered _ _ => true | _ => false end
                  then [EvStorageSet (V2.sKey a "User") (SJson (new_session (call f)))]
                  else [])
              ++ (if adopted (leader f) && match call f with Answered _ _ => true | _ => false end
                  then map (fun cb => EvNotify cb (new_session (call f))) (listeners a)
                  else [])
              ++ (if returned (leader f) then [EvHandle None] else []);
     promises := call_state (call f) :: leader_state (call f) (leader f)
                 :: (follower_state (call f) <$> followers f) |}.

(** Nobody goes on before the call has settled, and only a call that was
    answered is followed by a write. *)
Definition in_order (f : Flight) : Prop :=
  (call_settled (call f) = false ->
   leader f = Waiting /\ Forall (fun b => b = false) (followers f))
  /\ (leader f = Storing \/ leader f = Returning ->
      exists dt d, call f = Answered dt d).

(** The turns still to come. *)
Definition pending (f : Flight) : nat :=
  (if call_settled (call f) then 0 else 1)
  + match leader f with Waiting => 3 | Storing => 2 | Returning => 1 | Returned => 0 end
  + length (List.filter negb (followers f)).

Lemma not_fresh_V1 : (t <? expiresAt (tokenManager u))%Z = false.
Proof. apply Z.ltb_ge. exact expired. Qed.

Lemma this_normal_V1 p s :
  set_refreshRequest p (set_user s a)
  = {| name := name a; apiKey := apiKey a; redirectUri := redirectUri a;
       providers := providers a; listeners := listeners a; user := s;
       refreshRequest := p |}.
Proof. reflexivity. Qed.

Lemma followers_waiting_V1 c fs :
  Forall (fun b => b = false) fs ->
  follower_state c <$> fs = replicate (length fs) (PendingAwait 0 follower_k).
Proof. induction 1 as [|b fs -> _ IH]; cbn; [done|]. by rewrite IH. Qed.

Ltac same_world :=
  unfold world_of; cbn; keys; rewrite ?this_normal_V1;
  unfold set_refreshRequest, set_user; cbn; rewrite ?signed_in; cbn;
  rewrite ?followers_waiting_V1 by assumption;
  rewrite ?app_nil_r;
  try reflexivity.

(** The first caller starts the call. *)
Lemma leader_starts_V1 :
  invoke (V1.refreshIdToken humanReadableErrors) (idle a store t)
  = (1, world_of {| call := Fetching; leader := Waiting; followers := [] |}).
Proof.
  unfold invoke, V1.refreshIdToken. cbn.
  rewrite signed_in, not_fresh_V1, no_handle. cbn. f_equal. same_world.
Qed.

(** A caller that finds the request out joins the call. *)
Lemma follower_joins_V1 fs :
  invoke (V1.refreshIdToken humanReadableErrors)
    (world_of {| call := Fetching; leader := Waiting; followers := fs |})
  = (2 + length fs,
     world_of {| call := Fetching; leader := Waiting; followers := fs ++ [false] |}).
Proof.
  unfold invoke, V1.refreshIdToken, world_of. cbn.
  rewrite not_fresh_V1. cbn. rewrite length_fmap, fmap_app. reflexivity.
Qed.

Lemma followers_join_V1 m : forall fs,
  invoke_all (V1.refreshIdToken humanReadableErrors) m
    (world_of {| call := Fetching; leader := Waiting; followers := fs |})
  = (seq (2 + length fs) m,
     world_of {| call := Fetching; leader := Waiting;
                 followers := fs ++ replicate m false |}).
Proof.
  induction m as [|m IH]; intros fs.
  - cbn. by rewrite app_nil_r.
  - cbn [invoke_all]. rewrite follower_joins_V1, IH.
    rewrite length_app, <- app_assoc. cbn.
    replace (length fs + 1) with (S (length fs)) by lia. reflexivity.
Qed.

Lemma calls_joined_V1 n :
  invoke_all (V1.refreshIdToken humanReadableErrors) (S n) (idle a store t)
  = (seq 1 (S n), world_of {| call := Fetching; leader := Waiting;
                              followers := replicate n false |}).
Proof.
  cbn [invoke_all]. rewrite leader_starts_V1, followers_join_V1. reflexivity.
Qed.

Ltac ordered :=
  split; [ done | first [ intros [|]; done | eauto ] ].

Ltac next_flight :=
  split; [ same_world | split; [ ordered | split; [ cbn; lia | done ] ] ].

Lemma flight_turn_V1 f i o w :
  in_order f ->
  turn i o (world_of f) = Some w ->
  exists f', w = world_of f' /\ in_order f' /\ pending f' < pending f
             /\ length (followers f') = length (followers f).
Proof.
  destruct f as [c l fs]. unfold in_order. cbn [call leader followers].
  intros [Hord Hans] Hturn.
  destruct i as [|[|j]].
  - (* the call *)
    destruct c; cbn in Hturn; try discriminate.
    destruct (Hord eq_refl) as [-> Hfs].
    injection Hturn as <-. unfold resume, call_k. cbn.
    destruct o as [e|[[] dt d]]; cbn.
    + exists {| call := Failed e; leader := Waiting; followers := fs |}.
      next_flight.
    + exists {| call := Answered dt d; leader := Waiting; followers := fs |}.
      next_flight.
    + destruct (data_error_message d) as [m|]; cbn.
      * eexists {| call := Failed _; leader := Waiting; followers := fs |}.
        next_flight.
      * exists {| call := Failed undefined_property; leader := Waiting; followers := fs |}.
        next_flight.
  - (* the caller that started the call *)
    destruct l; cbn in Hturn; try discriminate.
    + destruct c; cbn in Hturn; try discriminate; injection Hturn as <-;
        unfold resume, leader_k; cbn.
      * exists {| call := Answered dt d; leader := Storing; followers := fs |}.
        next_flight.
      * exists {| call := Failed e; leader := Returned; followers := fs |}.
        next_flight.
    + destruct (Hans (or_introl eq_refl)) as (dt & d & ->).
      injection Hturn as <-. unfold resume, storing_k. cbn. notify.
      exists {| call := Answered dt d; leader := Returning; followers := fs |}.
      next_flight.
    + destruct (Hans (or_intror eq_refl)) as (dt & d & ->).
      injection Hturn as <-. unfold resume, returning_k. cbn.
      exists {| call := Answered dt d; leader := Returned; followers := fs |}.
      next_flight.
  - (* a caller that joined *)
    unfold turn in Hturn. cbn [world_of promises call leader followers] in Hturn.
    change ((call_state c :: leader_state c l :: (follower_state c <$> fs)) !! S (S j))
      with ((follower_state c <$> fs) !! j) in Hturn.
    rewrite list_lookup_fmap in Hturn.
    destruct (fs !! j) as [[]|] eqn:Hj; cbn in Hturn; try discriminate.
    destruct c; cbn in Hturn; try discriminate; injection Hturn as <-;
      unfold resume, follower_k; cbn.
    + exists {| call := Answered dt d; leader := l; followers := <[j := true]> fs |}.
      split; [ unfold world_of; cbn; by rewrite list_fmap_insert |].
      split; [ split; [done | exact Hans] |].
      split; [ cbn; rewrite <- (waiting_insert _ _ Hj); lia | cbn; apply length_insert ].
    + exists {| call := Failed e; leader := l; followers := <[j := true]> fs |}.
      split; [ unfold world_of; cbn; by rewrite list_fmap_insert |].
      split; [ split; [done | exact Hans] |].
      split; [ cbn; rewrite <- (waiting_insert _ _ Hj); lia | cbn; apply length_insert ].
Qed.


Lemma flight_turns_V1 s : forall f w,
  in_order f ->
  turns s (world_of f) = Some w ->
  exists f', w = world_of f' /\ in_order f' /\ length s + pending f' <= pending f
             /\ length (followers f') = length (followers f).
Proof.
  induction s as [|[i o] s IH]; intros f w Hord Hs; cbn in Hs.
  - injection Hs as <-. exists f. split; [done|]. split; [done|]. split; [cbn; lia | done].
  - destruct (turn i o (world_of f)) as [w1|] eqn:Hturn; [|discriminate].
    destruct (flight_turn_V1 _ _ _ _ Hord Hturn) as (f1 & -> & Hord1 & Hlt & Hlen).
    destruct (IH _ _ Hord1 Hs) as (f2 & -> & Hord2 & Hle & Hlen2).
    exists f2. split; [done|]. split; [done|]. split; [cbn; lia | congruence].
Qed.

Lemma flight_requests_V1 f : requests (world_of f) = [EvFetch (token_request a u)].
Proof.
  destruct f as [[] [] fs]; unfold requests; cbn;
    rewrite ?List.filter_app, ?filter_fetch_notify; reflexivity.
Qed.

Lemma flight_clears_V1 f :
  handle_clears (world_of f) = if returned (leader f) then 1 else 0.
Proof.
  destruct f as [[] [] fs]; unfold handle_clears; cbn;
    rewrite ?List.filter_app, ?filter_clear_notify; reflexivity.
Qed.

Lemma flight_handle_V1 f :
  refreshRequest (this (world_of f)) = if returned (leader f) then None else Some 0.
Proof. reflexivity. Qed.

Lemma flight_call_V1 f :
  outcome 0 (world_of f) = Some (call_state (call f)).
Proof. reflexivity. Qed.

Lemma flight_quiescent_V1 f :
  quiescent (world_of f) ->
  call_settled (call f) = true /\ leader f = Returned
  /\ Forall (fun b => b = true) (followers f).
Proof.
  unfold quiescent. intros Hq. apply first_runnable_none in Hq.
  destruct f as [c l fs]. unfold world_of in Hq. cbn in Hq.
  apply Forall_cons in Hq as [Hc Hq]. apply Forall_cons in Hq as [Hl Hq].
  assert (Hset : call_settled c = true) by (destruct c; cbn in *; done).
  split; [done|]. split.
  - destruct l; try done. destruct c; cbn in *; done.
  - rewrite Forall_fmap in Hq. eapply Forall_impl; [exact Hq|].
    intros [] Hb; [done|]. destruct c; cbn in *; done.
Qed.

Lemma flight_outcomes_V1 f i :
  call_settled (call f) = true ->
  leader f = Returned -> Forall (fun b => b = true) (followers f) ->
  1 <= i <= 1 + length (followers f) ->
  exists r, outcome i (world_of f) = Some (Settled r)
            /\ verdict r = verdict (call_result (call f)).
Proof.
  destruct f as [c l fs]. cbn [leader followers call]. intros Hset -> Hfs Hi.
  unfold outcome, world_of. cbn [promises leader followers call].
  destruct i as [|[|j]]; [lia | |].
  - eexists. split; [reflexivity|]. destruct c; try done.
  - change ((call_state c :: leader_state c Returned :: (follower_state c <$> fs)) !! S (S j))
      with ((follower_state c <$> fs) !! j).
    rewrite list_lookup_fmap.
    destruct (lookup_lt_is_Some_2 fs j) as [b Hb]; [lia|].
    rewrite Hb. rewrite Forall_lookup in Hfs. rewrite (Hfs _ _ Hb).
    eexists. split; reflexivity.
Qed.

(** The first revision is single-flight. *)
Lemma refresh_single_flight_V1 n :
  single_flight (V1.refreshIdToken humanReadableErrors) a store t u n.
Proof.
  unfold single_flight. cbn zeta. change (2 + n) with (S (S n)).
  rewrite (calls_joined_V1 (S n)). cbn [fst snd].
  set (f0 := {| call := Fetching; leader := Waiting; followers := replicate (S n) false |}).
  assert (Hord0 : in_order f0).
  { split; [|intros [|]; done]. intros _. split; [done|]. apply Forall_replicate. done. }
  assert (Hp0 : pending f0 = n + 5).
  { unfold pending, f0. cbn [call leader followers].
    assert (H : forall k, List.filter negb (replicate k false) = replicate k false).
    { induction k as [|k IH]; cbn; [done|]. by rewrite IH. }
    rewrite H, length_replicate. cbn. lia. }
  assert (Hl0 : length (followers f0) = S n) by apply length_replicate.
  split; [reflexivity|].
  intros s w Hs.
  destruct (flight_turns_V1 _ _ _ Hord0 Hs) as (f & -> & Hord & Hle & Hlen).
  split; [lia|]. split; [apply flight_requests_V1|].
  rewrite flight_clears_V1, flight_handle_V1.
  split; [destruct (returned (leader f)); lia|].
  split.
  { intros Hc. rewrite flight_call_V1.
    destruct (leader f) eqn:Hl; try discriminate.
    destruct (call_settled (call f)) eqn:Hset.
    - destruct (call f); try discriminate; cbn; eauto.
    - destruct Hord as [Hord _]. destruct (Hord Hset) as [Hl' _]. congruence. }
  split; [|apply can_go_on].
  intros Hq. destruct (flight_quiescent_V1 _ Hq) as (Hset & Hl & Hfs).
  rewrite Hl. split; [done|]. split; [done|].
  exists (verdict (call_result (call f))). intros i Hi.
  apply in_seq in Hi. apply flight_outcomes_V1; [done | done | done | lia].
Qed.

End SingleFlight.
End RefreshV1.

(** C1. On an instance whose session has expired and whose handle is
    empty, [2 + n] calls of [refreshIdToken] made in one turn send one
    refresh request, whatever the order in which the event loop resumes the
    callers and whatever the server answers.  Every run ends, after at most
    [n + 5] turns, with all the callers settled: all with a value, or all
    with the same exception.  The handle is cleared once, by the caller
    that started the call, and only after the call has settled.  Both
    revisions; in the second one the callers even get the same value. *)
Theorem refreshIdToken_is_single_flight
    (humanReadableErrors : string -> option string) (a : Auth)
    (store : gmap string StoreVal) (t : Z) (u : User) (n : nat) :
  user a = Some u ->
  (expiresAt (tokenManager u) <= t)%Z ->
  refreshRequest a = None ->
  single_flight V2.refreshIdToken a store t u n
  /\ single_flight (V1.refreshIdToken humanReadableErrors) a store t u n
  /\ forall s w,
      turns s (snd (invoke_all V2.refreshIdToken (2 + n) (idle a store t))) = Some w ->
      quiescent w ->
      exists r, forall i, 1 <= i <= 2 + n -> outcome i w = Some (Settled r).
Proof.
  intros Hu Ht Href.
  destruct (RefreshV2.refresh_single_flight_V2 a store t u Hu Ht Href n) as [H2 H2'].
  split; [exact H2|]. split; [|exact H2'].
  exact (RefreshV1.refresh_single_flight_V1 humanReadableErrors a store t u Hu Ht Href n).
Qed.

Lemma refreshIdToken_is_single_flight_witness :
  let a := sample_auth (Some (sample_user 0)) [7] in
  user a = Some (sample_user 0)
  /\ (expiresAt (tokenManager (sample_user 0)) <= 1000)%Z
  /\ refreshRequest a = None
  /\ single_flight V2.refreshIdToken a ∅ 1000 (sample_user 0) 1
  /\ single_flight (V1.refreshIdToken no_table) a ∅ 1000 (sample_user 0) 1.
Proof.
  cbn zeta.
  assert (Ht : Z.le (expiresAt (tokenManager (sample_user 0))) 1000)
    by (vm_compute; discriminate).
  split; [reflexivity|]. split; [exact Ht|]. split; [reflexivity|].
  destruct (refreshIdToken_is_single_flight no_table
              (sample_auth (Some (sample_user 0)) [7]) ∅ 1000 (sample_user 0) 1
              eq_refl Ht eq_refl) as (T2 & T1 & _).
  split; [exact T2 | exact T1].
Defined.

(** The test "Allow only one concurrent fetch request" of the repository:
    four calls, one request, and the four callers return. *)
Example four_calls_one_request :
  let calls := invoke_all (V1.refreshIdToken no_table) 4
                 (idle (sample_auth (Some (sample_user 0)) []) ∅ 1000) in
  let w := run (fun _ _ => respond sample_token_data) 10 0 (snd calls) in
  fst calls = [1; 2; 3; 4]
  /\ length (requests w) = 1
  /\ quiescent w
  /\ handle_clears w = 1
  /\ map (fun i => verdict <$> (match outcome i w with
                                | Some (Settled r) => Some r
                                | _ => None
                                end)) (fst calls)
     = [Some (inr tt); Some (inr tt); Some (inr tt); Some (inr tt)].
Proof. vm_compute. repeat split. Qed.

(* ===================================================================== *)
(** * The other methods of the class *)
(* ===================================================================== *)

(** The objects that the methods below pass to [api] as the body of the
    request.  [api] sends the text [JSON.stringify] gives for an object,
    which is taken as it is from the platform: the methods are defined for
    any function [JSON_stringify]. *)
Inductive BodyObject :=
| CustomTokenObject (token : option string) (returnSecureToken : bool)
| CredentialsObject (email password : option string) (returnSecureToken : bool)
| EmailLinkObject (oobCode email : string)
| OobCodeObject (idTok : option string) (requestType : string)
    (email : option string) (continueUrl : string).

Definition null_email : Exn :=
  TypeError "Cannot read properties of null (reading 'email')".
Definition null_index : Exn :=
  TypeError "Cannot read properties of null (reading '1')".

(** The [tokenManager] built from a sign-in response:
    [{ idToken, refreshToken, expiresAt }]. *)
Definition tokens_of (d : ApiData) : TokenManager :=
  {| idToken := data_idToken (payload d);
     refreshToken := data_refreshToken (payload d);
     expiresAt := data_expiresAt d |}.

(** The text [`{"idToken": "${idToken}"}`] of [deleteAccount]. *)
Definition delete_body (tok : option string) : string :=
  "{" +:+ quote +:+ "idToken" +:+ quote +:+ ": " +:+ quote +:+ js_string tok
  +:+ quote +:+ "}".

(** [`?email=${email}`] after [this.redirectUri]. *)
Definition continueUrl_of (redirect email : option string) : string :=
  js_string redirect +:+ "?email=" +:+ js_string email.

(** *** The patterns of [handleSignInRedirect] *)

Definition is_separator (c : ascii) : bool :=
  Ascii.eqb c "?" || Ascii.eqb c "&".

(** The rest of [s] after the prefix [p], if [s] starts with [p]. *)
Fixpoint strip_prefix (p s : string) : option string :=
  match p, s with
  | EmptyString, _ => Some s
  | String a p', String b s' => if Ascii.eqb a b then strip_prefix p' s' else None
  | String _ _, EmptyString => None
  end.

(** The longest prefix without an ampersand: what [[^&]+] takes. *)
Fixpoint until_ampersand (s : string) : string :=
  match s with
  | EmptyString => EmptyString
  | String c s' => if Ascii.eqb c "&" then EmptyString else String c (until_ampersand s')
  end.

(** [href.match(/[&?]name=/)] is not [null]. *)
Fixpoint has_param (name href : string) : bool :=
  match href with
  | EmptyString => false
  | String c rest =>
      (is_separator c
       && match strip_prefix (name +:+ "=") rest with Some _ => true | None => false end)
      || has_param name rest
  end.

(** [href.match(/[?&]name=([^&]+)/)]: the group of the leftmost match,
    [None] for [null]. *)
Fixpoint capture_param (name href : string) : option string :=
  match href with
  | EmptyString => None
  | String c rest =>
      match (if is_separator c then strip_prefix (name +:+ "=") rest else None) with
      | Some after =>
          match until_ampersand after with
          | EmptyString => capture_param name rest
          | value => Some value
          end
      | None => capture_param name rest
      end
  end.

(** *** Second revision *)

Module V2_rest.

(** The listener of the [storage] event that the constructor installs
    (lines 516-522): [key] and [newValue] are the fields of the event. *)
Definition on_storage (key : option string) (newValue : option StoreVal) : Prog Val :=
  let* a := get_this in
  if bool_decide (key = Some (V2.sKey a "User")) then
    match JSON_parse newValue with
    | inl e => Throw e
    | inr userData =>
        let* _ := spawn (V2.setState userData false true) in
        Ret VUndef
    end
  else Ret VUndef.

Section WithStringify.

Variable JSON_stringify : BodyObject -> string.

(** [handleSignInRedirect()]; [href] is [location.href]. *)
Definition handleSignInRedirect (href : string) : Prog Val :=
  if has_param "code" href then await_ (V2.finishProviderSignIn href)
  else if has_param "oobCode" href then
    match capture_param "oobCode" href with
    | None => Throw null_index
    | Some oobCode =>
        match capture_param "email" href with
        | None => Throw null_index
        | Some email =>
            let* t := now in
            let expiresAt := (t + 3600 * 1000)%Z in
            let* d :=
              await_ (V2.api "signInWithEmailLink"
                        (TextBody (JSON_stringify (EmailLinkObject oobCode email)))) in
            do await_ (V2.fetchProfile
                         (Some {| idToken := data_idToken (payload d);
                                  refreshToken := data_refreshToken (payload d);
                                  expiresAt := expiresAt |})) then
            do log EvReplaceState then
            Ret VUndef
        end
    end
  else Ret VUndef.

(** [sendOobCode(requestType, email)]. *)
Definition sendOobCode (requestType : string) (email : option string) : Prog Val :=
  let verifyEmail := String.eqb requestType "VERIFY_EMAIL" in
  let* email1 :=
    (if verifyEmail then
       do await_ V2.enforceAuth then
       let* a := get_this in
       match user a with
       | None => Throw null_email
       | Some u => Ret (profile u !! "email")
       end
     else Ret email) in
  let* a1 := get_this in
  let* idTok :=
    (if verifyEmail then
       match user a1 with
       | None => Throw null_tokenManager
       | Some u => Ret (idToken (tokenManager u))
       end
     else Ret None) in
  let* _ :=
    spawn (let* d :=
             V2.api "sendOobCode"
               (TextBody (JSON_stringify
                            (OobCodeObject idTok requestType email1
                               (continueUrl_of (redirectUri a1) email1)))) in
           Ret (VData d)) in
  Ret VUndef.

End WithStringify.

(** [deleteAccount()]. *)
Definition deleteAccount : Prog Val :=
  do await_ V2.enforceAuth then
  let* a := get_this in
  match user a with
  | None => Throw null_tokenManager
  | Some u =>
      do await_ (V2.api "delete" (TextBody (delete_body (idToken (tokenManager u))))) then
      let* _ := spawn V2.signOut in
      Ret VUndef
  end.

End V2_rest.

(** *** First revision *)

Module V1_rest.

Section WithEnvironment.

Variable humanReadableErrors : string -> option string.
Variable JSON_stringify : BodyObject -> string.

(** [signInWithCustomToken(token)]. *)
Definition signInWithCustomToken (token : option string) : Prog Val :=
  let* d :=
    await_ (V1.api humanReadableErrors "signInWithCustomToken"
              (TextBody (JSON_stringify (CustomTokenObject token true)))) in
  do await_ (V1.fetchProfile humanReadableErrors (Some (tokens_of d))) then
  Ret VUndef.

(** [signUp(email, password)]. *)
Definition signUp (email password : option string) : Prog Val :=
  let* d :=
    await_ (V1.api humanReadableErrors "signUp"
              (TextBody (JSON_stringify (CredentialsObject email password true)))) in
  do await_ (V1.fetchProfile humanReadableErrors (Some (tokens_of d))) then
  Ret VUndef.

(** [signIn(email, password)]. *)
Definition signIn (email password : option string) : Prog Val :=
  let* d :=
    await_ (V1.api humanReadableErrors "signInWithPassword"
              (TextBody (JSON_stringify (CredentialsObject email password true)))) in
  do await_ (V1.fetchProfile humanReadableErrors (Some (tokens_of d))) then
  Ret VUndef.

(** [handleSignInRedirect()]; [href] is [location.href]. *)
Definition handleSignInRedirect (href : string) : Prog Val :=
  if has_param "code" href then
    await_ (V1.finishProviderSignIn humanReadableErrors href)
  else if has_param "oobCode" href then
    match capture_param "oobCode" href with
    | None => Throw null_index
    | Some oobCode =>
        match capture_param "email" href with
        | None => Throw null_index
        | Some email =>
            let* t := now in
            let expiresAt := (t + 3600 * 1000)%Z in
            let* d :=
              await_ (V1.api humanReadableErrors "signInWithEmailLink"
                        (TextBody (JSON_stringify (EmailLinkObject oobCode email)))) in
            do await_ (V1.fetchProfile humanReadableErrors
                         (Some {| idToken := data_idToken (payload d);
                                  refreshToken := data_refreshToken (payload d);
                                  expiresAt := expiresAt |})) then
            do log EvReplaceState then
            Ret VUndef
        end
    end
  else Ret VUndef.

(** [sendOobCode(requestType, email)]. *)
Definition sendOobCode (requestType : string) (email : option string) : Prog Val :=
  let verifyEmail := String.eqb requestType "VERIFY_EMAIL" in
  let* email1 :=
    (if verifyEmail then
       do await_ (V1.enforceAuth humanReadableErrors) then
       let* a := get_this in
       match user a with
       | None => Throw null_email
       | Some u => Ret (profile u !! "email")
       end
     else Ret email) in
  let* a1 := get_this in
  let* idTok :=
    (if verifyEmail then
       match user a1 with
       | None => Throw null_tokenManager
       | Some u => Ret (idToken (tokenManager u))
       end
     else Ret None) in
  let* _ :=
    spawn (let* d :=
             V1.api humanReadableErrors "sendOobCode"
               (TextBody (JSON_stringify
                            (OobCodeObject idTok requestType email1
                               (continueUrl_of (redirectUri a1) email1)))) in
           Ret (VData d)) in
  Ret VUndef.

(** [deleteAccount()]. *)
Definition deleteAccount : Prog Val :=
  do await_ (V1.enforceAuth humanReadableErrors) then
  let* a := get_this in
  match user a with
  | None => Throw null_tokenManager
  | Some u =>
      do await_ (V1.api humanReadableErrors "delete"
                   (TextBody (delete_body (idToken (tokenManager u))))) then
      let* _ := spawn V1.signOut in
      Ret VUndef
  end.

End WithEnvironment.

End V1_rest.

(* ===================================================================== *)
(** ** Sample data for the methods above *)
(* ===================================================================== *)

(** A text function for the examples: it names the kind of object. *)
Definition sample_stringify (o : BodyObject) : string :=
  match o with
  | CustomTokenObject _ _ => "{custom token}"
  | CredentialsObject _ _ _ => "{credentials}"
  | EmailLinkObject _ _ => "{email link}"
  | OobCodeObject _ _ _ _ => "{oob code}"
  end.

Definition expired_auth : Auth := sample_auth (Some (sample_user 0)) [7].

Definition fresh_auth : Auth := sample_auth (Some (sample_user 5000)) [7].

Definition sample_resource : Resource := ResUrl "https://api.example/items".

(** A server that answers a sign-in and then the profile lookup. *)
Definition sign_in_server (n : nat) (_ : Request) : FetchOutcome :=
  match n with
  | 0 => respond sample_idp_data
  | _ => respond sample_lookup_data
  end.

Definition sample_link : string :=
  "https://app.example/finish?email=test@example.com&oobCode=abc&mode=signIn".

Definition has_colon (s : string) : bool :=
  existsb (Ascii.eqb ":") (list_ascii_of_string s).

Lemma strip_explanation_other c s :
  c <> ":"%char -> strip_explanation (String c s) = String c (strip_explanation s).
Proof.
  intros Hc. destruct c as [[] [] [] [] [] [] [] []]; try reflexivity.
  by destruct Hc.
Qed.

Lemma strip_explanation_colon s :
  strip_explanation (String ":" s)
  = match s with
    | String " " (String c1 s1) =>
        if all_explanation (String c1 s1) then EmptyString
        else String ":" (strip_explanation s)
    | _ => String ":" (strip_explanation s)
    end.
Proof.
  destruct s as [|c s]; [reflexivity|].
  destruct c as [[] [] [] [] [] [] [] []]; try reflexivity.
  all: destruct s; reflexivity.
Qed.

Lemma append_String c (s1 s2 : string) : String c s1 +:+ s2 = String c (s1 +:+ s2).
Proof. reflexivity. Qed.

Lemma append_empty (s : string) : EmptyString +:+ s = s.
Proof. reflexivity. Qed.

Lemma all_explanation_app s1 s2 :
  all_explanation (s1 +:+ s2) = all_explanation s1 && all_explanation s2.
Proof.
  induction s1 as [|c s1 IH]; [done|].
  rewrite append_String. cbn [all_explanation]. rewrite IH. by rewrite andb_assoc.
Qed.

Lemma strip_explanation_app (code expl : string) :
  expl <> EmptyString -> all_explanation expl = true ->
  strip_explanation (code +:+ ": " +:+ expl) = code.
Proof.
  intros Hne Hall.
  assert (Hbad : forall s, all_explanation (s +:+ ": " +:+ expl) = false).
  { intros s. rewrite all_explanation_app.
    change (": " +:+ expl) with (String ":" (String " " expl)).
    cbn [all_explanation]. change (explanation_char ":") with false.
    apply andb_false_r. }
  induction code as [|c code IH].
  - change (EmptyString +:+ ": " +:+ expl) with (String ":" (String " " expl)).
    rewrite strip_explanation_colon.
    destruct expl as [|c1 s1]; [done|]. by rewrite Hall.
  - rewrite append_String. destruct (ascii_dec c ":") as [->|Hc].
    + rewrite strip_explanation_colon, IH.
      destruct code as [|c0 code]; [reflexivity|].
      rewrite append_String.
      destruct (ascii_dec c0 " ") as [->|H0].
      * destruct code as [|c1 code].
        -- pose proof (Hbad EmptyString) as H.
           change (EmptyString +:+ ": " +:+ expl) with (String ":" (String " " expl)) in *.
           cbv iota. by rewrite H.
        -- rewrite append_String. cbv iota.
           change (String c1 (code +:+ ": " +:+ expl)) with ((String c1 code) +:+ ": " +:+ expl).
           by rewrite Hbad.
      * destruct c0 as [[] [] [] [] [] [] [] []]; try reflexivity. by destruct H0.
    + rewrite strip_explanation_other by done. by rewrite IH.
Qed.

Lemma strip_explanation_prefix (m : string) :
  exists rest, m = strip_explanation m +:+ rest.
Proof.
  induction m as [|c m [rest IH]]; [by exists EmptyString|].
  destruct (ascii_dec c ":") as [->|Hc].
  - rewrite strip_explanation_colon.
    destruct m as [|c0 m]; [by exists EmptyString|].
    destruct (ascii_dec c0 " ") as [->|H0].
    + destruct m as [|c1 m].
      * exists rest. rewrite append_String. by rewrite <- IH.
      * destruct (all_explanation (String c1 m)).
        -- by eexists.
        -- exists rest. rewrite append_String. by rewrite <- IH.
    + exists rest.
      replace (match c0 with " "%char => _ | _ => _ end)
        with (String ":" (strip_explanation (String c0 m))).
      * rewrite append_String. by rewrite <- IH.
      * destruct c0 as [[] [] [] [] [] [] [] []]; try reflexivity. by destruct H0.
  - rewrite strip_explanation_other by done. exists rest. rewrite append_String. by rewrite <- IH.
Qed.

Lemma strip_explanation_plain (m : string) :
  has_colon m = false -> strip_explanation m = m.
Proof.
  unfold has_colon. induction m as [|c m IH]; [done|].
  cbn [list_ascii_of_string existsb]. intros H.
  apply orb_false_iff in H as [Hc Hm].
  rewrite strip_explanation_other.
  - by rewrite IH.
  - intros ->. by rewrite Ascii.eqb_refl in Hc.
Qed.

(* ===================================================================== *)
(** ** Error codes *)
(* ===================================================================== *)

(** X1. The pattern of the second revision's [api] takes an explanation
    off an error code, and nothing else: a message [code: explanation],
    where the explanation is a non-empty run of the characters of the
    class, becomes [code], whatever [code] is; a message without a colon
    is kept as it is; and the result is always the beginning of the
    message. *)
Theorem strip_explanation_keeps_the_code (code expl m : string) :
  (expl <> EmptyString -> all_explanation expl = true ->
   strip_explanation (code +:+ ": " +:+ expl) = code)
  /\ (has_colon m = false -> strip_explanation m = m)
  /\ exists rest, m = strip_explanation m +:+ rest.
Proof.
  split_and!.
  - apply strip_explanation_app.
  - apply strip_explanation_plain.
  - apply strip_explanation_prefix.
Qed.

Lemma strip_explanation_keeps_the_code_witness :
  strip_explanation "TOKEN_EXPIRED: The user's credential is no longer valid." = "TOKEN_EXPIRED"
  /\ strip_explanation "EMAIL_NOT_FOUND" = "EMAIL_NOT_FOUND".
Proof.
  destruct (strip_explanation_keeps_the_code "TOKEN_EXPIRED"
              "The user's credential is no longer valid." "EMAIL_NOT_FOUND")
    as (T1 & T2 & _).
  split.
  - apply T1; [discriminate | reflexivity].
  - apply T2. reflexivity.
Defined.

(** What [api] settles with, as a call of its own. *)
Definition api_call (api : string -> ReqBody -> Prog ApiData)
    (endpoint : string) (b : ReqBody) : Prog Val :=
  let* d := api endpoint b in Ret (VData d).

(** X2. [api] sends one request and touches neither the instance nor the
    storage.  An answer that is [ok] resolves it with the body and
    [expiresAt = date + 3600 * 1000].  An answer that is not, with the message
    [code: explanation], rejects it with the bare [code] in the second
    revision; in the first revision with the text the table has for the
    whole message, and with the whole message when the table has none. *)
Theorem api_reports_the_code (humanReadableErrors : string -> option string)
    (a : Auth) (store : gmap string StoreVal) (t : Z) (endpoint : string)
    (b : ReqBody) (dt : Z) (d : Data) :
  let answer is_ok := FetchResponse {| ok := is_ok; date := dt; json := d |} in
  let call2 := snd (invoke (api_call V2.api endpoint b) (idle a store t)) in
  let call1 :=
    snd (invoke (api_call (V1.api humanReadableErrors) endpoint b) (idle a store t)) in
  let settled r :=
    Some {| this := a; localStorage := store; clock := t;
            trace := [EvFetch (api_request a endpoint b)];
            promises := [Settled r] |} in
  let data := VData {| payload := d; data_expiresAt := dt + 3600 * 1000 |} in
  turn 0 (answer true) call2 = settled (inr data)
  /\ turn 0 (answer true) call1 = settled (inr data)
  /\ forall code expl,
       expl <> EmptyString -> all_explanation expl = true ->
       data_error_message d = Some (code +:+ ": " +:+ expl) ->
       turn 0 (answer false) call2 = settled (inl (Error code))
       /\ turn 0 (answer false) call1
          = settled (inl (Error (match humanReadableErrors (code +:+ ": " +:+ expl) with
                                 | Some (String c text) => String c text
                                 | _ => code +:+ ": " +:+ expl
                                 end))).
Proof.
  cbn zeta. split_and!; [reflexivity | reflexivity |].
  intros code expl Hne Hall Hm.
  unfold turn, invoke, api_call, V2.api, V1.api, resume. cbn. rewrite Hm. cbn.
  rewrite strip_explanation_app by done.
  split; [done|].
  destruct (humanReadableErrors (code +:+ ": " +:+ expl)) as [[|c text]|]; done.
Qed.

Lemma api_reports_the_code_witness :
  let d := error_data "TOKEN_EXPIRED: The user's credential is no longer valid." in
  turn 0 (FetchResponse {| ok := false; date := 0; json := d |})
    (snd (invoke (api_call V2.api "token" NoBody) (idle (sample_auth None []) ∅ 0)))
  = Some {| this := sample_auth None []; localStorage := ∅; clock := 0;
            trace := [EvFetch (api_request (sample_auth None []) "token" NoBody)];
            promises := [Settled (inl (Error "TOKEN_EXPIRED"))] |}.
Proof.
  cbn zeta.
  destruct (api_reports_the_code no_table (sample_auth None []) ∅ 0 "token" NoBody 0
              (error_data "TOKEN_EXPIRED: The user's credential is no longer valid."))
    as (_ & _ & T).
  refine (proj1 (T "TOKEN_EXPIRED" "The user's credential is no longer valid." _ _ _)).
  - discriminate.
  - reflexivity.
  - reflexivity.
Defined.

(* ===================================================================== *)
(** ** Storage keys *)
(* ===================================================================== *)

Lemma has_colon_String c s : has_colon (String c s) = Ascii.eqb ":" c || has_colon s.
Proof. reflexivity. Qed.

Lemma append_colon_inj (x x' r r' : string) :
  has_colon x = false -> has_colon x' = false ->
  x +:+ ":" +:+ r = x' +:+ ":" +:+ r' -> x = x' /\ r = r'.
Proof.
  revert x'. induction x as [|c x IH]; intros [|c' x'] Hx Hx' H.
  - change (String ":" r = String ":" r') in H. by injection H.
  - rewrite append_String in H. change (String ":" r = String c' (x' +:+ ":" +:+ r')) in H.
    injection H as <- _. rewrite has_colon_String, Ascii.eqb_refl in Hx'. done.
  - rewrite append_String in H. change (String c (x +:+ ":" +:+ r) = String ":" r') in H.
    injection H as -> _. rewrite has_colon_String, Ascii.eqb_refl in Hx. done.
  - rewrite !append_String in H. injection H as -> H.
    rewrite has_colon_String in Hx, Hx'.
    apply orb_false_iff in Hx as [_ Hx]. apply orb_false_iff in Hx' as [_ Hx'].
    destruct (IH _ Hx Hx' H) as [-> ->]. done.
Qed.

(** X3. The storage keys keep instances apart.  When the kind of key and
    the [apiKey] contain no colon, the key of [sKey] determines the kind,
    the [apiKey] and the [name]: two instances that differ in [apiKey] or
    in [name] never read or write the same entry, and the three entries of
    one instance are distinct.  The keys spelled out in the first revision
    are the same keys.  With a colon in the [apiKey] this fails: the
    instances ["a:b"] named ["c"] and ["a"] named ["b:c"] share their
    entries. *)
Theorem sKey_keeps_instances_apart (a a' : Auth) (key key' : string) :
  (has_colon key = false -> has_colon key' = false ->
   has_colon (apiKey a) = false -> has_colon (apiKey a') = false ->
   V2.sKey a key = V2.sKey a' key' ->
   key = key' /\ apiKey a = apiKey a' /\ name a = name a')
  /\ V1.user_key a = V2.sKey a "User"
  /\ V1.sessionId_key a = V2.sKey a "SessionId"
  /\ V1.linkAccount_key a = V2.sKey a "LinkAccount"
  /\ (let b := new_instance {| opt_name := Some "c"; opt_apiKey := Some "a:b";
                               opt_redirectUri := None; opt_providers := [] |} "a:b" ∅ in
      let b' := new_instance {| opt_name := Some "b:c"; opt_apiKey := Some "a";
                                opt_redirectUri := None; opt_providers := [] |} "a" ∅ in
      V2.sKey b key = V2.sKey b' key).
Proof.
  split_and!; try reflexivity.
  intros Hk Hk' Ha Ha' H. unfold V2.sKey in H.
  change ("Auth:" +:+ ?s) with (String "A" (String "u" (String "t" (String "h" (String ":" s))))) in H.
  injection H as H.
  destruct (append_colon_inj _ _ _ _ Hk Hk' H) as [-> H1].
  destruct (append_colon_inj _ _ _ _ Ha Ha' H1) as [-> ->]. done.
Qed.

Lemma sKey_keeps_instances_apart_witness :
  let a := sample_auth None [] in
  let a' := sample_auth (Some (sample_user 0)) [7] in
  has_colon "User" = false /\ has_colon (apiKey a) = false
  /\ has_colon (apiKey a') = false
  /\ V2.sKey a "User" = V2.sKey a' "User"
  /\ apiKey a = apiKey a' /\ name a = name a'.
Proof.
  cbn zeta.
  destruct (sKey_keeps_instances_apart (sample_auth None [])
              (sample_auth (Some (sample_user 0)) [7]) "User" "User") as (T & _).
  destruct (T eq_refl eq_refl eq_refl eq_refl eq_refl) as (_ & T1 & T2).
  repeat split; assumption.
Defined.

(* ===================================================================== *)
(** ** The providers of the first revision *)
(* ===================================================================== *)

Definition provider_name (o : ProviderOptions) : string :=
  match o with ProviderName nm | ProviderObject nm _ => nm end.

(** The scope of an entry: a name alone has none. *)
Definition provider_scope (o : ProviderOptions) : option string :=
  match o with ProviderName _ => None | ProviderObject _ scope => scope end.

(** The entries of [l] for the provider [p], in order. *)
Definition entries_of (p : string) (l : list ProviderOptions) : list ProviderOptions :=
  List.filter (fun o => String.eqb (provider_name o) p) l.

Lemma foldl_add_provider (l : list ProviderOptions) (m : gmap string (option string))
    (p : string) :
  foldl V1.add_provider m l !! p
  = if String.eqb p "__proto__" then m !! p
    else match last (entries_of p l) with
         | Some o => Some (provider_scope o)
         | None => m !! p
         end.
Proof.
  revert m. induction l as [|o l IH]; intros m; [by destruct (String.eqb p "__proto__")|].
  cbn [foldl]. rewrite IH. unfold entries_of. cbn [List.filter].
  assert (Hadd : V1.add_provider m o
                 = V1.assign_provider (provider_name o) (provider_scope o) m)
    by (by destruct o).
  rewrite Hadd. unfold V1.assign_provider.
  destruct (String.eqb p "__proto__") eqn:Hp.
  - apply String.eqb_eq in Hp. subst p.
    destruct (String.eqb (provider_name o) "__proto__") eqn:Ho; [done|].
    apply String.eqb_neq in Ho. by rewrite lookup_insert_ne.
  - apply String.eqb_neq in Hp.
    destruct (String.eqb (provider_name o) p) eqn:Ho.
    + apply String.eqb_eq in Ho.
      assert (Hn : String.eqb (provider_name o) "__proto__" = false)
        by (apply String.eqb_neq; congruence).
      rewrite Hn.
      destruct (List.filter _ l) as [|o' l'] eqn:Hl.
      * cbn. subst p. by rewrite lookup_insert_eq.
      * rewrite !last_cons. by destruct (last l').
    + apply String.eqb_neq in Ho.
      destruct (last (List.filter _ l)); [done|].
      destruct (String.eqb (provider_name o) "__proto__"); [done|].
      by rewrite lookup_insert_ne.
Qed.

Lemma entries_of_nil (p : string) (l : list ProviderOptions) :
  entries_of p l = [] <-> ~ In p (map provider_name l).
Proof.
  induction l as [|o l IH]; cbn; [tauto|].
  destruct (String.eqb (provider_name o) p) eqn:Ho.
  - apply String.eqb_eq in Ho. split; [discriminate|]. intros H. destruct H. by left.
  - apply String.eqb_neq in Ho. rewrite IH. tauto.
Qed.

(** X4. The constructor of the first revision builds the table of
    providers from its [providers] argument.  A provider is configured
    exactly when an entry names it and its name is not [__proto__], a name
    under which a plain object takes no key; the scope of a configured
    provider is the one of the last entry that names it, none when that
    entry is a name alone.  The new instance has the given [apiKey], the
    name ["default"] unless one is given, no listener and no session. *)
Theorem constructor_configures_providers (humanReadableErrors : string -> option string)
    (o : Options) (k p : string) (w0 : World) :
  opt_apiKey o = Some k ->
  exists w,
    V1.constructor humanReadableErrors o w0 = inr w
    /\ providers (this w) !! p
       = (if String.eqb p "__proto__" then None
          else provider_scope <$> last (entries_of p (opt_providers o)))
    /\ (is_Some (providers (this w) !! p)
        <-> In p (map provider_name (opt_providers o)) /\ p <> "__proto__")
    /\ apiKey (this w) = k
    /\ name (this w) = default "default" (opt_name o)
    /\ listeners (this w) = [] /\ user (this w) = None.
Proof.
  intros Hk. unfold V1.constructor. rewrite Hk. eexists. split; [reflexivity|].
  unfold invoke, V1.restore. cbn.
  rewrite foldl_add_provider, lookup_empty.
  split; [by destruct (String.eqb p "__proto__"), (last (entries_of p (opt_providers o)))|].
  split; [|done].
  destruct (String.eqb p "__proto__") eqn:Hp.
  - apply String.eqb_eq in Hp. split; [by intros [? ?]|]. by intros [_ ?].
  - apply String.eqb_neq in Hp.
    pose proof (entries_of_nil p (opt_providers o)) as Hnil.
    destruct (entries_of p (opt_providers o)) as [|e es] eqn:He.
    + cbn. split; [by intros [? ?]|]. intros [Hin _]. by apply Hnil in Hin.
    + destruct (last (e :: es)) as [x|] eqn:Hlast.
      * split; [|by eauto]. intros _. split; [|done].
        destruct (In_dec string_dec p (map provider_name (opt_providers o))) as [Hin|Hin];
          [done|]. by apply Hnil in Hin.
      * apply last_None in Hlast. discriminate.
Qed.

Lemma constructor_configures_providers_witness :
  let o := {| opt_name := None; opt_apiKey := Some "key"; opt_redirectUri := None;
              opt_providers := [ProviderObject "github.com" (Some "user");
                                ProviderName "google.com";
                                ProviderObject "__proto__" (Some "email");
                                ProviderObject "github.com" (Some "repo")] |} in
  opt_apiKey o = Some "key"
  /\ exists w, V1.constructor no_table o (idle (sample_auth None []) ∅ 0) = inr w
       /\ providers (this w) !! "github.com" = Some (Some "repo")
       /\ providers (this w) !! "google.com" = Some None
       /\ providers (this w) !! "__proto__" = None.
Proof.
  cbn zeta. split; [reflexivity|].
  destruct (constructor_configures_providers no_table
              {| opt_name := None; opt_apiKey := Some "key"; opt_redirectUri := None;
                 opt_providers := [ProviderObject "github.com" (Some "user");
                                   ProviderName "google.com";
                                   ProviderObject "__proto__" (Some "email");
                                   ProviderObject "github.com" (Some "repo")] |}
              "key" "github.com" (idle (sample_auth None []) ∅ 0) eq_refl)
    as (w & Hw & T1 & _).
  exists w. split; [exact Hw|]. split; [exact T1|].
  injection Hw as <-. split; reflexivity.
Defined.

(** X5. The provider check of [signInWithProvider].  In the first revision
    a provider that the table does not have is refused at the call, with
    nothing sent; for a provider of the table the request carries the
    scope of the table, whatever scope the options give.  The second
    revision has no table: the request goes out for any provider, with
    the scope of the options.  A provider given as a text is a provider
    without scope and context. *)
Theorem signInWithProvider_checks_the_provider
    (humanReadableErrors : string -> option string) (a : Auth)
    (store : gmap string StoreVal) (t : Z) (p : string) (scope context : option string) :
  truthy (redirectUri a) = true ->
  let options := OptObject (Some p) scope context false in
  let discovery s :=
    api_request a "createAuthUri"
      (CreateAuthUriBody (Some p) (js_string (redirectUri a)) s "CODE_FLOW" context) in
  let call1 := invoke (V1.signInWithProvider humanReadableErrors options) (idle a store t) in
  let call2 := invoke (V2.signInWithProvider options) (idle a store t) in
  (providers a !! p = None ->
   snd call1 = {| this := a; localStorage := store; clock := t; trace := [];
                  promises := [Settled (inl (Error (msg_not_configured (Some p))))] |})
  /\ (forall s, providers a !! p = Some s -> trace (snd call1) = [EvFetch (discovery s)])
  /\ trace (snd call2) = [EvFetch (discovery scope)]
  /\ V1.signInWithProvider humanReadableErrors (OptString p)
     = V1.signInWithProvider humanReadableErrors (OptObject (Some p) None None false)
  /\ V2.signInWithProvider (OptString p) = V2.signInWithProvider (OptObject (Some p) None None false).
Proof.
  intros Hr. cbn zeta. unfold invoke, V1.signInWithProvider, V2.signInWithProvider.
  cbn. rewrite Hr. cbn. split_and!; try reflexivity.
  - intros Hp. rewrite Hp. reflexivity.
  - intros s Hp. rewrite Hp. reflexivity.
Qed.

Lemma signInWithProvider_checks_the_provider_witness :
  let a := sample_auth None [] in
  truthy (redirectUri a) = true
  /\ providers a !! "github.com" = None
  /\ promises (snd (invoke (V1.signInWithProvider no_table
                              (OptObject (Some "github.com") None None false))
                      (idle a ∅ 0)))
     = [Settled (inl (Error (msg_not_configured (Some "github.com"))))].
Proof.
  cbn zeta.
  destruct (signInWithProvider_checks_the_provider no_table (sample_auth None []) ∅ 0
              "github.com" None None eq_refl) as (T & _).
  split; [reflexivity|]. split; [reflexivity|].
  rewrite (T eq_refl). reflexivity.
Defined.

(* ===================================================================== *)
(** ** The token refresher: failure, and the next call *)
(* ===================================================================== *)

(** An answer that makes [api] fail: no response, or a response that is
    not [ok]. *)
Definition fails (o : FetchOutcome) : Prop :=
  match o with
  | FetchRejected _ => True
  | FetchResponse r => ok r = false
  end.

(** X6. A refresh that fails changes nothing and does not block the next
    one.  When the refresh request of a session whose token has expired
    is not answered, or is answered with an error, the call is rejected,
    the session stays as it was in memory and in the storage, no listener
    is called, and the handle is empty again: the next call sends a new
    request.  Both revisions. *)
Theorem refreshIdToken_failure_allows_retry
    (humanReadableErrors : string -> option string)
    (server : nat -> Request -> FetchOutcome) (a : Auth)
    (store : gmap string StoreVal) (t : Z) (u : User) (extra : nat)
    (refresh : Prog Val) :
  user a = Some u ->
  (expiresAt (tokenManager u) <= t)%Z ->
  refreshRequest a = None ->
  fails (server 0 (token_request a u)) ->
  refresh = V2.refreshIdToken \/ refresh = V1.refreshIdToken humanReadableErrors ->
  let wf := run server (2 + extra) 0 (snd (invoke refresh (idle a store t))) in
  quiescent wf
  /\ (exists e, outcome 1 wf = Some (Settled (inl e)))
  /\ user (this wf) = Some u
  /\ refreshRequest (this wf) = None
  /\ localStorage wf = store
  /\ (forall cb, notified cb wf = 0)
  /\ requests wf = [EvFetch (token_request a u)]
  /\ requests (snd (invoke refresh wf))
     = [EvFetch (token_request a u); EvFetch (token_request a u)].
Proof.
  intros Hu Ht Href Hf Hrev. apply Z.ltb_ge in Ht. unfold token_request in *. cbn zeta.
  destruct Hrev as [-> | ->].
  - unfold invoke, V2.refreshIdToken. cbn. rewrite Hu, Ht, Href. cbn.
    go server.
    all: try (cbn in Hf; discriminate).
    all: split_and!; [reflexivity | eexists; reflexivity | exact Hu | reflexivity
                     | reflexivity | intros cb; reflexivity | reflexivity | ].
    all: cbn; rewrite Hu, Ht; cbn; reflexivity.
  - unfold invoke, V1.refreshIdToken. cbn. rewrite Hu, Ht, Href. cbn.
    go server.
    all: try (cbn in Hf; discriminate).
    all: split_and!; [reflexivity | eexists; reflexivity | exact Hu | reflexivity
                     | reflexivity | intros cb; reflexivity | reflexivity | ].
    all: cbn; rewrite Hu, Ht; cbn; reflexivity.
Qed.

Lemma refreshIdToken_failure_allows_retry_witness :
  let server := fun (_ : nat) (_ : Request) => refuse "TOKEN_EXPIRED" in
  let wf := run server (2 + 0) 0 (snd (invoke V2.refreshIdToken (idle expired_auth ∅ 1000))) in
  user expired_auth = Some (sample_user 0)
  /\ (expiresAt (tokenManager (sample_user 0)) <= 1000)%Z
  /\ refreshRequest expired_auth = None
  /\ fails (server 0 (token_request expired_auth (sample_user 0)))
  /\ user (this wf) = Some (sample_user 0)
  /\ localStorage wf = ∅.
Proof.
  cbn zeta.
  assert (Ht : Z.le (expiresAt (tokenManager (sample_user 0))) 1000)
    by (vm_compute; discriminate).
  assert (Hf : fails (refuse "TOKEN_EXPIRED")) by reflexivity.
  destruct (refreshIdToken_failure_allows_retry no_table
              (fun _ _ => refuse "TOKEN_EXPIRED") expired_auth ∅ 1000 (sample_user 0) 0
              V2.refreshIdToken eq_refl Ht eq_refl Hf (or_introl eq_refl))
    as (_ & _ & T1 & _ & T2 & _).
  split; [reflexivity|]. split; [exact Ht|]. split; [reflexivity|].
  split; [exact Hf|]. split; [exact T1 | exact T2].
Defined.

(** X7. After a refresh that succeeded, the next call goes by the new
    [expiresAt], which is the date of the response plus one hour: while
    the clock is before it, the next call is settled at once and changes
    nothing; when the clock is not (the date of the response is more than
    an hour behind the clock), the next call refreshes again, with the new
    refresh token.  Both revisions. *)
Theorem refreshIdToken_then_again
    (humanReadableErrors : string -> option string)
    (server : nat -> Request -> FetchOutcome) (a : Auth)
    (store : gmap string StoreVal) (t : Z) (u : User) (extra : nat)
    (dt : Z) (d : Data) (refresh : Prog Val) :
  user a = Some u ->
  (expiresAt (tokenManager u) <= t)%Z ->
  refreshRequest a = None ->
  server 0 (token_request a u) = FetchResponse {| ok := true; date := dt; json := d |} ->
  refresh = V2.refreshIdToken \/ refresh = V1.refreshIdToken humanReadableErrors ->
  let wf := run server (4 + extra) 0 (snd (invoke refresh (idle a store t))) in
  quiescent wf
  /\ user (this wf) = Some (refreshed u dt d)
  /\ ((t < dt + 3600 * 1000)%Z -> advance refresh wf = (Settled (inr VUndef), wf))
  /\ ((dt + 3600 * 1000 <= t)%Z ->
      requests (snd (invoke refresh wf))
      = [EvFetch (token_request a u); EvFetch (token_request a (refreshed u dt d))]).
Proof.
  intros Hu Ht Href Hs Hrev. apply Z.ltb_ge in Ht. unfold token_request in *. cbn zeta.
  destruct Hrev as [-> | ->].
  - unfold invoke, V2.refreshIdToken. cbn. rewrite Hu, Ht, Href. cbn.
    erewrite run_fetch by reflexivity. rewrite Hs. unfold resume. cbn.
    go server.
    all: split_and!; [reflexivity | reflexivity | intros Hlt | intros Hge].
    all: try reflexivity.
    all: try (apply Z.ltb_ge in Hge; congruence).
    all: try (apply Z.ltb_lt in Hlt; congruence).
    all: reqs; reflexivity.
  - unfold invoke, V1.refreshIdToken. cbn. rewrite Hu, Ht, Href. cbn.
    erewrite run_fetch by reflexivity. rewrite Hs. unfold resume. cbn.
    go server.
    all: split_and!; [reflexivity | reflexivity | intros Hlt | intros Hge].
    all: try reflexivity.
    all: try (apply Z.ltb_ge in Hge; congruence).
    all: try (apply Z.ltb_lt in Hlt; congruence).
    all: reqs; reflexivity.
Qed.

Lemma refreshIdToken_then_again_witness :
  let server := fun (_ : nat) (_ : Request) => respond sample_token_data in
  let wf := run server (4 + 0) 0 (snd (invoke V2.refreshIdToken (idle expired_auth ∅ 1000))) in
  user expired_auth = Some (sample_user 0)
  /\ (expiresAt (tokenManager (sample_user 0)) <= 1000)%Z
  /\ refreshRequest expired_auth = None
  /\ (1000 < 1586516893000 + 3600 * 1000)%Z
  /\ advance V2.refreshIdToken wf = (Settled (inr VUndef), wf).
Proof.
  cbn zeta.
  assert (Ht : Z.le (expiresAt (tokenManager (sample_user 0))) 1000)
    by (vm_compute; discriminate).
  assert (Hlt : Z.lt 1000 (1586516893000 + 3600 * 1000)) by reflexivity.
  destruct (refreshIdToken_then_again no_table
              (fun _ _ => respond sample_token_data) expired_auth ∅ 1000 (sample_user 0) 0
              1586516893000 sample_token_data V2.refreshIdToken
              eq_refl Ht eq_refl eq_refl (or_introl eq_refl))
    as (_ & _ & T & _).
  split; [reflexivity|]. split; [exact Ht|]. split; [reflexivity|].
  split; [exact Hlt|]. exact (T Hlt).
Defined.

(* ===================================================================== *)
(** ** Requests on behalf of a signed-in user *)
(* ===================================================================== *)

(** The value of the header: [`Bearer ${idToken}`]. *)
Definition bearer (tok : option string) : string := "Bearer " +:+ js_string tok.

(** X8. With a session whose token has not expired, [authorizedRequest]
    refreshes nothing.  When the request can be constructed and
    [request.headers.set('Authorization', 'Bearer ' + idToken)] goes
    through, the call sends one request, the one that this leaves, and
    settles with what [fetch] gives; nothing else changes.  When the
    header cannot be set, the call is rejected one turn after the call
    and nothing is sent; when the request cannot be constructed, it is
    rejected at the call.  Both revisions, on any platform. *)
Theorem authorizedRequest_attaches_the_token
    (humanReadableErrors : string -> option string) (P : Platform)
    (server : nat -> Request -> FetchOutcome) (a : Auth)
    (store : gmap string StoreVal) (t : Z) (u : User) (extra : nat)
    (resource : Resource) (init : option Init) (request : Prog Val) :
  user a = Some u ->
  (t < expiresAt (tokenManager u))%Z ->
  request = V2.authorizedRequest P resource init
  \/ request = V1.authorizedRequest humanReadableErrors P resource init ->
  let settled r :=
    {| this := a; localStorage := store; clock := t; trace := [];
       promises := [Settled (inl r)] |} in
  let wf := run server (2 + extra) 0 (snd (invoke request (idle a store t))) in
  (forall e, to_Request P resource init = inl e ->
     snd (invoke request (idle a store t)) = settled e)
  /\ forall built, to_Request P resource init = inr built ->
       (forall sent,
          headers_set P "Authorization" (bearer (idToken (tokenManager u))) built
          = inr sent ->
          wf = {| this := a; localStorage := store; clock := t; trace := [EvFetch sent];
                  promises := [Settled (conclusion (server 0 sent))] |})
       /\ (forall e,
             headers_set P "Authorization" (bearer (idToken (tokenManager u))) built
             = inl e ->
             wf = settled e).
Proof.
  intros Hu Ht Hrev. apply Z.ltb_lt in Ht. cbn zeta. unfold bearer.
  destruct Hrev as [-> | ->].
  - unfold invoke, V2.authorizedRequest, V2.refreshIdToken. split.
    + intros e ->. reflexivity.
    + intros built ->. cbn. rewrite Hu. cbn. rewrite Hu, Ht. cbn. tick. rewrite Hu. cbn.
      split.
      * intros sent ->. cbn.
        erewrite run_fetch by reflexivity. unfold resume. cbn.
        destruct (server 0 _); cbn; rest; reflexivity.
      * intros e ->. cbn. rest. reflexivity.
  - unfold invoke, V1.authorizedRequest, V1.refreshIdToken. split.
    + intros e ->. reflexivity.
    + intros built ->. cbn. rewrite Hu. cbn. rewrite Hu, Ht. cbn. tick. rewrite Hu. cbn.
      split.
      * intros sent ->. cbn.
        erewrite run_fetch by reflexivity. unfold resume. cbn.
        destruct (server 0 _); cbn; rest; reflexivity.
      * intros e ->. cbn. rest. reflexivity.
Qed.

Lemma authorizedRequest_attaches_the_token_witness :
  let server := fun (_ : nat) (_ : Request) => respond no_data in
  let built := {| url := "https://api.example/items"; method := "GET"; headers := [];
                  body := NoBody |} in
  let sent := {| url := "https://api.example/items"; method := "GET";
                 headers := [("Authorization", "Bearer idTokenString")];
                 body := NoBody |} in
  user fresh_auth = Some (sample_user 5000)
  /\ (1000 < expiresAt (tokenManager (sample_user 5000)))%Z
  /\ to_Request sample_platform sample_resource None = inr built
  /\ headers_set sample_platform "Authorization"
       (bearer (idToken (tokenManager (sample_user 5000)))) built = inr sent
  /\ requests (run server (2 + 0) 0
                 (snd (invoke (V2.authorizedRequest sample_platform sample_resource None)
                         (idle fresh_auth ∅ 1000))))
     = [EvFetch sent].
Proof.
  cbn zeta.
  assert (Ht : Z.lt 1000 (expiresAt (tokenManager (sample_user 5000)))) by reflexivity.
  split; [reflexivity|]. split; [exact Ht|]. split; [reflexivity|]. split; [reflexivity|].
  destruct (authorizedRequest_attaches_the_token no_table sample_platform
              (fun _ _ => respond no_data)
              fresh_auth ∅ 1000 (sample_user 5000) 0 sample_resource None
              (V2.authorizedRequest sample_platform sample_resource None)
              eq_refl Ht (or_introl eq_refl)) as (_ & T).
  destruct (T _ eq_refl) as (T1 & _).
  rewrite (T1 _ eq_refl). reflexivity.
Defined.

(** X9. With a session whose token has expired, [authorizedRequest] first
    refreshes.  When the refresh succeeds, the header is set with the new
    [idToken], the request that this leaves goes out next, and the call
    settles with what [fetch] gives for it.  When the refresh fails, no
    request of the caller is sent and the call is rejected.  The request
    is constructed before all this: when that throws, the call is
    rejected at the call and not even the refresh is sent.  Both
    revisions, on any platform. *)
Theorem authorizedRequest_refreshes_first
    (humanReadableErrors : string -> option string) (P : Platform)
    (server : nat -> Request -> FetchOutcome) (a : Auth)
    (store : gmap string StoreVal) (t : Z) (u : User) (extra : nat)
    (resource : Resource) (init : option Init) (request : Prog Val) :
  user a = Some u ->
  (expiresAt (tokenManager u) <= t)%Z ->
  refreshRequest a = None ->
  request = V2.authorizedRequest P resource init
  \/ request = V1.authorizedRequest humanReadableErrors P resource init ->
  let call := invoke request (idle a store t) in
  let wf := run server (8 + extra) 0 (snd call) in
  (forall e, to_Request P resource init = inl e ->
     snd call = {| this := a; localStorage := store; clock := t; trace := [];
                   promises := [Settled (inl e)] |})
  /\ forall built, to_Request P resource init = inr built ->
       fst call = 1
       /\ quiescent wf
       /\ (forall dt d sent,
             server 0 (token_request a u)
             = FetchResponse {| ok := true; date := dt; json := d |} ->
             headers_set P "Authorization" (bearer (data_id_token d)) built = inr sent ->
             requests wf = [EvFetch (token_request a u); EvFetch sent]
             /\ outcome 1 wf = Some (Settled (conclusion (server 1 sent))))
       /\ (fails (server 0 (token_request a u)) ->
           requests wf = [EvFetch (token_request a u)]
           /\ exists e, outcome 1 wf = Some (Settled (inl e))).
Proof.
  intros Hu Ht Href Hrev. apply Z.ltb_ge in Ht. unfold token_request, bearer in *. cbn zeta.
  destruct Hrev as [-> | ->].
  - unfold invoke, V2.authorizedRequest, V2.refreshIdToken. split.
    + intros e ->. reflexivity.
    + intros built ->. cbn. rewrite Hu. cbn. rewrite Hu, Ht, Href. cbn.
      fetch_cases server.
      * steps. split_and!; [reflexivity | reflexivity | intros ? ? ? [=] | ].
        intros _. split; [reqs; reflexivity | eexists; reflexivity].
      * steps.
        destruct (headers_set P "Authorization" ("Bearer " +:+ js_string (data_id_token d))
                    built) as [e|sent0] eqn:Hset; cbn.
        -- steps. rest.
           split_and!; [reflexivity | reflexivity | | intros Hf; cbn in Hf; discriminate].
           intros ? ? ? [= <- <-] Hs. congruence.
        -- go server.
           all: split_and!; [reflexivity | reflexivity | | intros Hf; cbn in Hf; discriminate].
           all: intros ? ? ? [= <- <-] Hs; rewrite Hset in Hs; injection Hs as <-.
           all: split; [reqs; reflexivity|].
           all: match goal with H : ?f 1 ?r = _ |- context [?f 1 ?r] => by rewrite H end.
      * body_cases; steps; rest.
        all: split_and!; [reflexivity | reflexivity | intros ? ? ? [=] | ].
        all: intros _; split; [reqs; reflexivity | eexists; reflexivity].
  - unfold invoke, V1.authorizedRequest, V1.refreshIdToken. split.
    + intros e ->. reflexivity.
    + intros built ->. cbn. rewrite Hu. cbn. rewrite Hu, Ht, Href. cbn.
      fetch_cases server.
      * steps. split_and!; [reflexivity | reflexivity | intros ? ? ? [=] | ].
        intros _. split; [reqs; reflexivity | eexists; reflexivity].
      * steps.
        destruct (headers_set P "Authorization" ("Bearer " +:+ js_string (data_id_token d))
                    built) as [e|sent0] eqn:Hset; cbn.
        -- steps. rest.
           split_and!; [reflexivity | reflexivity | | intros Hf; cbn in Hf; discriminate].
           intros ? ? ? [= <- <-] Hs. congruence.
        -- go server.
           all: split_and!; [reflexivity | reflexivity | | intros Hf; cbn in Hf; discriminate].
           all: intros ? ? ? [= <- <-] Hs; rewrite Hset in Hs; injection Hs as <-.
           all: split; [reqs; reflexivity|].
           all: match goal with H : ?f 1 ?r = _ |- context [?f 1 ?r] => by rewrite H end.
      * body_cases; steps; rest.
        all: split_and!; [reflexivity | reflexivity | intros ? ? ? [=] | ].
        all: intros _; split; [reqs; reflexivity | eexists; reflexivity].
Qed.

Lemma authorizedRequest_refreshes_first_witness :
  let server := fun (_ : nat) (_ : Request) => refuse "TOKEN_EXPIRED" in
  let call := invoke (V1.authorizedRequest no_table sample_platform sample_resource None)
                (idle expired_auth ∅ 1000) in
  user expired_auth = Some (sample_user 0)
  /\ (expiresAt (tokenManager (sample_user 0)) <= 1000)%Z
  /\ refreshRequest expired_auth = None
  /\ to_Request sample_platform sample_resource None
     = inr {| url := "https://api.example/items"; method := "GET"; headers := [];
              body := NoBody |}
  /\ fails (server 0 (token_request expired_auth (sample_user 0)))
  /\ requests (run server (8 + 0) 0 (snd call))
     = [EvFetch (token_request expired_auth (sample_user 0))].
Proof.
  cbn zeta.
  assert (Ht : Z.le (expiresAt (tokenManager (sample_user 0))) 1000)
    by (vm_compute; discriminate).
  assert (Hf : fails (refuse "TOKEN_EXPIRED")) by reflexivity.
  destruct (authorizedRequest_refreshes_first no_table sample_platform
              (fun _ _ => refuse "TOKEN_EXPIRED") expired_auth ∅ 1000 (sample_user 0) 0
              sample_resource None
              (V1.authorizedRequest no_table sample_platform sample_resource None)
              eq_refl Ht eq_refl (or_intror eq_refl))
    as (_ & T).
  destruct (T _ eq_refl) as (_ & _ & _ & T1).
  split; [reflexivity|]. split; [exact Ht|]. split; [reflexivity|].
  split; [reflexivity|]. split; [exact Hf|]. exact (proj1 (T1 Hf)).
Defined.

(* ===================================================================== *)
(** ** The profile *)
(* ===================================================================== *)

(** The tokens that [fetchProfile(arg)] works with on instance [a]: its
    argument, or else those of the session. *)
Definition tokens_for (a : Auth) (arg : option TokenManager) : option TokenManager :=
  match arg with
  | Some tm => Some tm
  | None => tokenManager <$> user a
  end.

(** An answer to the profile lookup without a profile in it. *)
Definition no_profile (o : FetchOutcome) : Prop :=
  match o with
  | FetchRejected _ => True
  | FetchResponse r => ok r = false \/ data_users (json r) = []
  end.

(** X10. [fetchProfile] never refreshes: given tokens, or a session,
    however old its token, it sends one request, the lookup with the
    [idToken] it has.  Its update is all or nothing.  When the answer
    brings a profile, the session becomes that profile without its [kind],
    with the tokens unchanged, in memory and in the storage, and every
    listener is called once for each registration.  When it does not,
    the call is rejected and the instance, the storage and the listeners
    are left alone.  Both revisions. *)
Theorem fetchProfile_is_all_or_nothing
    (humanReadableErrors : string -> option string)
    (server : nat -> Request -> FetchOutcome) (a : Auth)
    (store : gmap string StoreVal) (t : Z) (arg : option TokenManager)
    (tm : TokenManager) (extra : nat) (fetchProfile : option TokenManager -> Prog Val) :
  tokens_for a arg = Some tm ->
  fetchProfile = V2.fetchProfile \/ fetchProfile = V1.fetchProfile humanReadableErrors ->
  let wf := run server (4 + extra) 0 (snd (invoke (fetchProfile arg) (idle a store t))) in
  quiescent wf
  /\ requests wf = [EvFetch (lookup_request a tm)]
  /\ (forall r p ps,
        server 0 (lookup_request a tm) = FetchResponse r ->
        ok r = true -> data_users (json r) = p :: ps ->
        let session := Some {| profile := delete "kind" p; tokenManager := tm |} in
        outcome 0 wf = Some (Settled (inr VUndef))
        /\ this wf = set_user session a
        /\ localStorage wf = <[V2.sKey a "User" := SJson session]> store
        /\ forall cb, notified cb wf = registrations cb a)
  /\ (no_profile (server 0 (lookup_request a tm)) ->
      (exists e, outcome 0 wf = Some (Settled (inl e)))
      /\ this wf = a
      /\ localStorage wf = store
      /\ forall cb, notified cb wf = 0).
Proof.
  intros Htm Hrev. unfold lookup_request. cbn zeta.
  assert (Hcases : arg = Some tm \/ (arg = None /\ exists u, user a = Some u /\ tm = tokenManager u)).
  { destruct arg as [tm'|]; cbn in Htm; [left; congruence|right].
    destruct (user a) as [u|]; [|discriminate]. injection Htm as <-. eauto. }
  destruct Hrev as [-> | ->].
  - unfold invoke, V2.fetchProfile.
    destruct Hcases as [-> | (-> & u & Hu & ->)]; cbn; rewrite ?Hu; cbn.
    all: go server.
    all: split_and!; [reflexivity | reqs; reflexivity | | ].
    all: try (intros r p ps [= <-] Hok Hp; cbn in Hok, Hp; try discriminate;
              try congruence).
    all: try (intros [Hf|Hf]; cbn in Hf; try discriminate; try congruence).
    all: try (intros _).
    all: try (split_and!; [eexists; reflexivity | reflexivity | reflexivity
                          | intros cb; reflexivity]).
    all: match goal with H : data_users ?x = _ :: _, H' : data_users ?x = _ :: _ |- _ =>
           rewrite H in H'; injection H' as <- <- end.
    all: cbn; keys; split_and!; [reflexivity | reflexivity | reflexivity | intros cb; counted].
  - unfold invoke, V1.fetchProfile.
    destruct Hcases as [-> | (-> & u & Hu & ->)];
      [destruct (user a) eqn:Hu|]; cbn; rewrite ?Hu; cbn.
    all: go server.
    all: split_and!; [reflexivity | reqs; reflexivity | | ].
    all: try (intros r p ps [= <-] Hok Hp; cbn in Hok, Hp; try discriminate;
              try congruence).
    all: try (intros [Hf|Hf]; cbn in Hf; try discriminate; try congruence).
    all: try (intros _).
    all: try (split_and!; [eexists; reflexivity | reflexivity | reflexivity
                          | intros cb; reflexivity]).
    all: match goal with H : data_users ?x = _ :: _, H' : data_users ?x = _ :: _ |- _ =>
           rewrite H in H'; injection H' as <- <- end.
    all: cbn; keys; split_and!; [reflexivity | reflexivity | reflexivity | intros cb; counted].
Qed.

Lemma fetchProfile_is_all_or_nothing_witness :
  let server := fun (_ : nat) (_ : Request) => respond sample_lookup_data in
  let wf := run server (4 + 0) 0
              (snd (invoke (V2.fetchProfile None) (idle expired_auth ∅ 1000))) in
  tokens_for expired_auth None = Some (tokenManager (sample_user 0))
  /\ requests wf = [EvFetch (lookup_request expired_auth (tokenManager (sample_user 0)))]
  /\ user (this wf)
     = Some {| profile := {[ "updated" := "true" ]};
               tokenManager := tokenManager (sample_user 0) |}.
Proof.
  cbn zeta.
  destruct (fetchProfile_is_all_or_nothing no_table
              (fun _ _ => respond sample_lookup_data) expired_auth ∅ 1000 None
              (tokenManager (sample_user 0)) 0 V2.fetchProfile eq_refl (or_introl eq_refl))
    as (_ & T1 & T2 & _).
  split; [reflexivity|]. split; [exact T1|].
  destruct (T2 _ {[ "kind" := "identitytoolkit#user"; "updated" := "true" ]} []
              eq_refl eq_refl eq_refl) as (_ & T3 & _).
  rewrite T3. vm_compute. reflexivity.
Defined.

(* ===================================================================== *)
(** ** Methods that need a session *)
(* ===================================================================== *)

(** The methods that start with [enforceAuth], on any platform text
    function and table of errors. *)
Definition needs_session (humanReadableErrors : string -> option string)
    (JSON_stringify : BodyObject -> string) (email : option string) : list (Prog Val) :=
  [ V2.fetchProfile None; V1.fetchProfile humanReadableErrors None;
    V2_rest.deleteAccount; V1_rest.deleteAccount humanReadableErrors;
    V2_rest.sendOobCode JSON_stringify "VERIFY_EMAIL" email;
    V1_rest.sendOobCode humanReadableErrors JSON_stringify "VERIFY_EMAIL" email ].

(** X11. Without a session, [fetchProfile()], [deleteAccount()] and
    [sendOobCode('VERIFY_EMAIL')] are rejected with the "must be
    logged-in" error, one turn after the call, and nothing at all has
    happened: nothing was sent, read or written, and no listener was
    called.  Both revisions. *)
Theorem session_is_enforced
    (humanReadableErrors : string -> option string)
    (JSON_stringify : BodyObject -> string) (email : option string)
    (server : nat -> Request -> FetchOutcome) (a : Auth)
    (store : gmap string StoreVal) (t : Z) (extra : nat) (method : Prog Val) :
  user a = None ->
  In method (needs_session humanReadableErrors JSON_stringify email) ->
  run server (1 + extra) 0 (snd (invoke method (idle a store t)))
  = {| this := a; localStorage := store; clock := t; trace := [];
       promises := [Settled (inl (Error msg_not_logged_in))] |}.
Proof.
  intros Hu Hin. unfold needs_session in Hin. cbn in Hin.
  destruct Hin as [<-|[<-|[<-|[<-|[<-|[<-|[]]]]]]].
  - unfold invoke, V2.fetchProfile, V2.enforceAuth. cbn. repeat (rewrite Hu; cbn).
    tick. rest. reflexivity.
  - unfold invoke, V1.fetchProfile, V1.enforceAuth. cbn. repeat (rewrite Hu; cbn).
    tick. rest. reflexivity.
  - unfold invoke, V2_rest.deleteAccount, V2.enforceAuth. cbn. repeat (rewrite Hu; cbn).
    tick. rest. reflexivity.
  - unfold invoke, V1_rest.deleteAccount, V1.enforceAuth. cbn. repeat (rewrite Hu; cbn).
    tick. rest. reflexivity.
  - unfold invoke, V2_rest.sendOobCode, V2.enforceAuth. cbn. repeat (rewrite Hu; cbn).
    tick. rest. reflexivity.
  - unfold invoke, V1_rest.sendOobCode, V1.enforceAuth. cbn. repeat (rewrite Hu; cbn).
    tick. rest. reflexivity.
Qed.

Lemma session_is_enforced_witness :
  let server := fun (_ : nat) (_ : Request) => respond no_data in
  user (sample_auth None [7]) = None
  /\ In V2_rest.deleteAccount (needs_session no_table sample_stringify None)
  /\ run server (1 + 0) 0 (snd (invoke V2_rest.deleteAccount (idle (sample_auth None [7]) ∅ 0)))
     = {| this := sample_auth None [7]; localStorage := ∅; clock := 0; trace := [];
          promises := [Settled (inl (Error msg_not_logged_in))] |}.
Proof.
  cbn zeta.
  assert (Hin : In V2_rest.deleteAccount (needs_session no_table sample_stringify None))
    by (right; right; left; reflexivity).
  split; [reflexivity|]. split; [exact Hin|].
  exact (session_is_enforced no_table sample_stringify None (fun _ _ => respond no_data)
           (sample_auth None [7]) ∅ 0 0 V2_rest.deleteAccount eq_refl Hin).
Defined.

(* ===================================================================== *)
(** ** Deleting the account *)
(* ===================================================================== *)

(** The request of [deleteAccount] for session [u]. *)
Definition delete_request (a : Auth) (u : User) : Request :=
  api_request a "delete" (TextBody (delete_body (idToken (tokenManager u)))).

(** X12. [deleteAccount] on a session whose token has not expired sends
    the [delete] request with the [idToken] in its body and, when the
    server accepts it, signs out without waiting for the sign-out: at the
    turn in which the call resolves, the persisted session is already
    removed and no listener has been called yet; in memory the session is
    already gone in the second revision and still there in the first.
    One turn later the instance is signed out in both revisions: no
    session in memory, none in the storage, and every listener called
    once for each registration with the absent value. *)
Theorem deleteAccount_signs_out
    (humanReadableErrors : string -> option string)
    (server : nat -> Request -> FetchOutcome) (a : Auth)
    (store : gmap string StoreVal) (t : Z) (u : User) (extra : nat) (r : Response) :
  user a = Some u ->
  (t < expiresAt (tokenManager u))%Z ->
  server 0 (delete_request a u) = FetchResponse r ->
  ok r = true ->
  let key := V2.sKey a "User" in
  let call2 := snd (invoke V2_rest.deleteAccount (idle a store t)) in
  let call1 := snd (invoke (V1_rest.deleteAccount humanReadableErrors) (idle a store t)) in
  let resolved w :=
    outcome 0 w = Some (Settled (inr VUndef))
    /\ ~ quiescent w
    /\ trace w = [EvFetch (delete_request a u); EvStorageRemove key]
    /\ localStorage w = delete key store in
  let signed_out_ :=
    {| this := set_user None a; localStorage := delete key store; clock := t;
       trace := [EvFetch (delete_request a u); EvStorageRemove key]
                ++ map (fun cb => EvNotify cb None) (listeners a);
       promises := [Settled (inr VUndef); Settled (inr VUndef)] |} in
  (resolved (run server 3 0 call2) /\ user (this (run server 3 0 call2)) = None)
  /\ (resolved (run server 3 0 call1) /\ user (this (run server 3 0 call1)) = Some u)
  /\ run server (4 + extra) 0 call2 = signed_out_
  /\ run server (4 + extra) 0 call1 = signed_out_
  /\ forall cb, notified cb signed_out_ = registrations cb a.
Proof.
  intros Hu Ht Hs Hok. apply Z.ltb_lt in Ht. unfold delete_request in *. cbn zeta.
  destruct r as [is_ok dt d]. cbn in Hok. subst is_ok.
  split; [|split; [|split; [|split]]].
  - unfold invoke, V2_rest.deleteAccount, V2.enforceAuth, V2.refreshIdToken. cbn.
    rewrite Hu. cbn. rewrite Hu, Ht. cbn. tick. rewrite Hu. cbn.
    erewrite run_fetch by reflexivity. rewrite Hs. unfold resume. cbn.
    tick. rewrite run_out. split_and!; try reflexivity.
    unfold quiescent. cbn. discriminate.
  - unfold invoke, V1_rest.deleteAccount, V1.enforceAuth, V1.refreshIdToken. cbn.
    rewrite Hu. cbn. rewrite Hu, Ht. cbn. tick. rewrite Hu. cbn.
    erewrite run_fetch by reflexivity. rewrite Hs. unfold resume. cbn.
    tick. rewrite run_out. keys. split_and!; try reflexivity; [|exact Hu].
    unfold quiescent. cbn. discriminate.
  - unfold invoke, V2_rest.deleteAccount, V2.enforceAuth, V2.refreshIdToken. cbn.
    rewrite Hu. cbn. rewrite Hu, Ht. cbn. tick. rewrite Hu. cbn.
    erewrite run_fetch by reflexivity. rewrite Hs. unfold resume. cbn.
    go server. keys. reflexivity.
  - unfold invoke, V1_rest.deleteAccount, V1.enforceAuth, V1.refreshIdToken. cbn.
    rewrite Hu. cbn. rewrite Hu, Ht. cbn. tick. rewrite Hu. cbn.
    erewrite run_fetch by reflexivity. rewrite Hs. unfold resume. cbn.
    go server. keys. reflexivity.
  - intros cb. counted.
Qed.

Lemma deleteAccount_signs_out_witness :
  let server := fun (_ : nat) (_ : Request) => respond no_data in
  let store := sample_store 5000 in
  let call1 := snd (invoke (V1_rest.deleteAccount no_table) (idle fresh_auth store 1000)) in
  user fresh_auth = Some (sample_user 5000)
  /\ (1000 < expiresAt (tokenManager (sample_user 5000)))%Z
  /\ server 0 (delete_request fresh_auth (sample_user 5000))
     = FetchResponse {| ok := true; date := 1586516893000; json := no_data |}
  /\ user (this (run server 3 0 call1)) = Some (sample_user 5000)
  /\ user (this (run server (4 + 0) 0 call1)) = None
  /\ localStorage (run server (4 + 0) 0 call1) !! "Auth:User:key:default" = None.
Proof.
  cbn zeta.
  assert (Ht : Z.lt 1000 (expiresAt (tokenManager (sample_user 5000)))) by reflexivity.
  destruct (deleteAccount_signs_out no_table (fun _ _ => respond no_data) fresh_auth
              (sample_store 5000) 1000 (sample_user 5000) 0
              {| ok := true; date := 1586516893000; json := no_data |}
              eq_refl Ht eq_refl eq_refl)
    as (_ & (_ & T1) & _ & T2 & _).
  split; [reflexivity|]. split; [exact Ht|]. split; [reflexivity|].
  split; [exact T1|]. rewrite T2. split; [reflexivity|]. vm_compute. reflexivity.
Defined.

(** X13. When the [delete] request is not answered, or is answered with
    an error, [deleteAccount] is rejected and there is no sign-out: the
    session stays in memory and in the storage, and no listener is
    called.  Both revisions. *)
Theorem deleteAccount_failure_keeps_the_session
    (humanReadableErrors : string -> option string)
    (server : nat -> Request -> FetchOutcome) (a : Auth)
    (store : gmap string StoreVal) (t : Z) (u : User) (extra : nat)
    (deleteAccount : Prog Val) :
  user a = Some u ->
  (t < expiresAt (tokenManager u))%Z ->
  fails (server 0 (delete_request a u)) ->
  deleteAccount = V2_rest.deleteAccount
  \/ deleteAccount = V1_rest.deleteAccount humanReadableErrors ->
  exists e,
    run server (3 + extra) 0 (snd (invoke deleteAccount (idle a store t)))
    = {| this := a; localStorage := store; clock := t;
         trace := [EvFetch (delete_request a u)];
         promises := [Settled (inl e)] |}.
Proof.
  intros Hu Ht Hf Hrev. apply Z.ltb_lt in Ht. unfold delete_request in *.
  destruct Hrev as [-> | ->].
  - unfold invoke, V2_rest.deleteAccount, V2.enforceAuth, V2.refreshIdToken. cbn.
    rewrite Hu. cbn. rewrite Hu, Ht. cbn. tick. rewrite Hu. cbn.
    go server.
    all: try (cbn in Hf; discriminate).
    all: eexists; reflexivity.
  - unfold invoke, V1_rest.deleteAccount, V1.enforceAuth, V1.refreshIdToken. cbn.
    rewrite Hu. cbn. rewrite Hu, Ht. cbn. tick. rewrite Hu. cbn.
    go server.
    all: try (cbn in Hf; discriminate).
    all: eexists; reflexivity.
Qed.

Lemma deleteAccount_failure_keeps_the_session_witness :
  let server := fun (_ : nat) (_ : Request) => refuse "CREDENTIAL_TOO_OLD_LOGIN_AGAIN" in
  user fresh_auth = Some (sample_user 5000)
  /\ (1000 < expiresAt (tokenManager (sample_user 5000)))%Z
  /\ fails (server 0 (delete_request fresh_auth (sample_user 5000)))
  /\ exists e,
       run server (3 + 0) 0
         (snd (invoke V2_rest.deleteAccount (idle fresh_auth (sample_store 5000) 1000)))
       = {| this := fresh_auth; localStorage := sample_store 5000; clock := 1000;
            trace := [EvFetch (delete_request fresh_auth (sample_user 5000))];
            promises := [Settled (inl e)] |}.
Proof.
  cbn zeta.
  assert (Ht : Z.lt 1000 (expiresAt (tokenManager (sample_user 5000)))) by reflexivity.
  assert (Hf : fails (refuse "CREDENTIAL_TOO_OLD_LOGIN_AGAIN")) by reflexivity.
  split; [reflexivity|]. split; [exact Ht|]. split; [exact Hf|].
  exact (deleteAccount_failure_keeps_the_session no_table
           (fun _ _ => refuse "CREDENTIAL_TOO_OLD_LOGIN_AGAIN") fresh_auth
           (sample_store 5000) 1000 (sample_user 5000) 0 V2_rest.deleteAccount
           eq_refl Ht Hf (or_introl eq_refl)).
Defined.

(** X14. [deleteAccount] on a session whose token has expired refreshes
    first and deletes with the new [idToken], not with the one the
    session had at the call.  When the refresh fails, the [delete]
    request is never sent and the call is rejected, the session staying
    as it was.  Both revisions. *)
Theorem deleteAccount_refreshes_first
    (humanReadableErrors : string -> option string)
    (server : nat -> Request -> FetchOutcome) (a : Auth)
    (store : gmap string StoreVal) (t : Z) (u : User) (extra : nat)
    (deleteAccount : Prog Val) :
  user a = Some u ->
  (expiresAt (tokenManager u) <= t)%Z ->
  refreshRequest a = None ->
  deleteAccount = V2_rest.deleteAccount
  \/ deleteAccount = V1_rest.deleteAccount humanReadableErrors ->
  let wf := run server (9 + extra) 0 (snd (invoke deleteAccount (idle a store t))) in
  quiescent wf
  /\ (forall dt d,
        server 0 (token_request a u)
        = FetchResponse {| ok := true; date := dt; json := d |} ->
        requests wf = [EvFetch (token_request a u);
                       EvFetch (delete_request a (refreshed u dt d))])
  /\ (fails (server 0 (token_request a u)) ->
      requests wf = [EvFetch (token_request a u)]
      /\ (exists e, outcome 1 wf = Some (Settled (inl e)))
      /\ user (this wf) = Some u
      /\ localStorage wf = store).
Proof.
  intros Hu Ht Href Hrev. apply Z.ltb_ge in Ht.
  unfold token_request, delete_request in *. cbn zeta.
  destruct Hrev as [-> | ->].
  - unfold invoke, V2_rest.deleteAccount, V2.enforceAuth, V2.refreshIdToken. cbn.
    rewrite Hu. cbn. rewrite Hu, Ht, Href. cbn.
    go server.
    all: split_and!; [reflexivity | | ].
    all: try (intros Hf; cbn in Hf; discriminate).
    all: try (intros ? ? [=]; subst; cbn; reqs; reflexivity).
    all: try (intros ? ? [=]).
    all: intros _; split_and!; [reqs; reflexivity | eexists; reflexivity | exact Hu
                               | reflexivity].
  - unfold invoke, V1_rest.deleteAccount, V1.enforceAuth, V1.refreshIdToken. cbn.
    rewrite Hu. cbn. rewrite Hu, Ht, Href. cbn.
    go server.
    all: split_and!; [reflexivity | | ].
    all: try (intros Hf; cbn in Hf; discriminate).
    all: try (intros ? ? [=]; subst; cbn; reqs; reflexivity).
    all: try (intros ? ? [=]).
    all: intros _; split_and!; [reqs; reflexivity | eexists; reflexivity | exact Hu
                               | reflexivity].
Qed.

Lemma deleteAccount_refreshes_first_witness :
  let server := fun (_ : nat) (_ : Request) => respond sample_token_data in
  let wf := run server (9 + 0) 0
              (snd (invoke V2_rest.deleteAccount (idle expired_auth (sample_store 0) 1000))) in
  user expired_auth = Some (sample_user 0)
  /\ (expiresAt (tokenManager (sample_user 0)) <= 1000)%Z
  /\ refreshRequest expired_auth = None
  /\ requests wf
     = [EvFetch (token_request expired_auth (sample_user 0));
        EvFetch (api_request expired_auth "delete" (TextBody (delete_body (Some "updated"))))].
Proof.
  cbn zeta.
  assert (Ht : Z.le (expiresAt (tokenManager (sample_user 0))) 1000)
    by (vm_compute; discriminate).
  destruct (deleteAccount_refreshes_first no_table (fun _ _ => respond sample_token_data)
              expired_auth (sample_store 0) 1000 (sample_user 0) 0 V2_rest.deleteAccount
              eq_refl Ht eq_refl (or_introl eq_refl))
    as (_ & T & _).
  split; [reflexivity|]. split; [exact Ht|]. split; [reflexivity|].
  exact (T _ _ eq_refl).
Defined.

(* ===================================================================== *)
(** ** Changes made in another window *)
(* ===================================================================== *)

(** X15. The listener of [storage] events of the second revision.  An
    event for another key, or for no key, does nothing.  An event for the
    session key, whose new value is absent or the text of a session,
    makes what [JSON.parse] gives for it the session in memory and calls every listener once
    for each registration, all within the call; it writes nothing to the
    storage and sends nothing, so the change does not travel back. *)
Theorem storage_event_updates_memory_only (a : Auth) (store : gmap string StoreVal)
    (t : Z) (key : option string) (newValue : option StoreVal) (session : option User) :
  let call := snd (invoke (V2_rest.on_storage key newValue) (idle a store t)) in
  (key <> Some (V2.sKey a "User") ->
   call = {| this := a; localStorage := store; clock := t; trace := [];
             promises := [Settled (inr VUndef)] |})
  /\ (key = Some (V2.sKey a "User") ->
      JSON_parse newValue = inr session ->
      call = {| this := set_user session a; localStorage := store; clock := t;
                trace := map (fun cb => EvNotify cb session) (listeners a);
                promises := [Settled (inr VUndef); Settled (inr VUndef)] |}
      /\ quiescent call
      /\ forall cb, notified cb call = registrations cb a).
Proof.
  cbn zeta. unfold invoke, V2_rest.on_storage. cbn. split.
  - intros Hk. rewrite bool_decide_false by done. reflexivity.
  - intros Hk Hp. rewrite bool_decide_true by done.
    rewrite Hp. unfold V2.setState. cbn. notify.
    split_and!; [reflexivity | reflexivity | intros cb; counted].
Qed.

Lemma storage_event_updates_memory_only_witness :
  let a := sample_auth None [7] in
  let call := snd (invoke (V2_rest.on_storage (Some "Auth:User:key:default")
                             (Some (SJson (Some (sample_user 5000)))))
                     (idle a ∅ 0)) in
  Some "Auth:User:key:default" = Some (V2.sKey a "User")
  /\ JSON_parse (Some (SJson (Some (sample_user 5000)))) = inr (Some (sample_user 5000))
  /\ call = {| this := set_user (Some (sample_user 5000)) a; localStorage := ∅; clock := 0;
               trace := [EvNotify 7 (Some (sample_user 5000))];
               promises := [Settled (inr VUndef); Settled (inr VUndef)] |}.
Proof.
  cbn zeta.
  destruct (storage_event_updates_memory_only (sample_auth None [7]) ∅ 0
              (Some "Auth:User:key:default") (Some (SJson (Some (sample_user 5000))))
              (Some (sample_user 5000))) as (_ & T).
  split; [reflexivity|]. split; [reflexivity|].
  exact (proj1 (T eq_refl eq_refl)).
Defined.

(* ===================================================================== *)
(** ** Signing in (first revision) *)
(* ===================================================================== *)

(** The three methods that exchange a credential for tokens. *)
Inductive Credential :=
| CustomToken (token : option string)
| NewAccount (email password : option string)
| Password (email password : option string).

Section SigningIn.

Variable humanReadableErrors : string -> option string.
Variable JSON_stringify : BodyObject -> string.

Definition sign_in (c : Credential) : Prog Val :=
  match c with
  | CustomToken token =>
      V1_rest.signInWithCustomToken humanReadableErrors JSON_stringify token
  | NewAccount email password =>
      V1_rest.signUp humanReadableErrors JSON_stringify email password
  | Password email password =>
      V1_rest.signIn humanReadableErrors JSON_stringify email password
  end.

(** The request of each of them. *)
Definition sign_in_request (a : Auth) (c : Credential) : Request :=
  match c with
  | CustomToken token =>
      api_request a "signInWithCustomToken"
        (TextBody (JSON_stringify (CustomTokenObject token true)))
  | NewAccount email password =>
      api_request a "signUp"
        (TextBody (JSON_stringify (CredentialsObject email password true)))
  | Password email password =>
      api_request a "signInWithPassword"
        (TextBody (JSON_stringify (CredentialsObject email password true)))
  end.

End SigningIn.

(** The tokens of a sign-in response, good until [expires]. *)
Definition tokens_in (r : Response) (expires : Z) : TokenManager :=
  {| idToken := data_idToken (json r);
     refreshToken := data_refreshToken (json r);
     expiresAt := expires |}.

(** What a completed sign-in looks like: the exchange, then the lookup
    with the new [idToken], and a session only when both succeeded;
    [expires r] is the [expiresAt] of the tokens of the answer [r]. *)
Definition signs_in (server : nat -> Request -> FetchOutcome) (a : Auth)
    (store : gmap string StoreVal) (exchange : Request) (expires : Response -> Z)
    (wf : World) : Prop :=
  let untouched :=
    (exists e, outcome 0 wf = Some (Settled (inl e)))
    /\ this wf = a /\ localStorage wf = store /\ forall cb, notified cb wf = 0 in
  quiescent wf
  /\ (fails (server 0 exchange) -> requests wf = [EvFetch exchange] /\ untouched)
  /\ forall r, server 0 exchange = FetchResponse r -> ok r = true ->
       let lookup := lookup_request a (tokens_in r (expires r)) in
       requests wf = [EvFetch exchange; EvFetch lookup]
       /\ (no_profile (server 1 lookup) -> untouched)
       /\ forall r' p ps,
            server 1 lookup = FetchResponse r' -> ok r' = true ->
            data_users (json r') = p :: ps ->
            let session := Some {| profile := delete "kind" p;
                                   tokenManager := tokens_in r (expires r) |} in
            outcome 0 wf = Some (Settled (inr VUndef))
            /\ this wf = set_user session a
            /\ localStorage wf = <[V2.sKey a "User" := SJson session]> store
            /\ forall cb, notified cb wf = registrations cb a.

Ltac untouched_done :=
  split_and!; [eexists; reflexivity | reflexivity | reflexivity | intros cb; reflexivity].

(** The answer to the second request, in a hypothesis about it. *)
Ltac second_answer H :=
  unfold lookup_request, tokens_in in H; cbn in H; apis_in H;
  match goal with
  | E : ?f 1 ?q = _ |- _ => tryif constr_eq E H then fail else rewrite E in H
  end.

Ltac session_done :=
  match goal with
  | H : data_users ?x = _ :: _, H' : data_users ?x = _ :: _ |- _ =>
      rewrite H in H'; injection H' as <- <-
  end;
  cbn; keys;
  split_and!; [reflexivity | reflexivity | reflexivity | intros cb; counted].

(** Closes one completed run of a sign-in. *)
Ltac sign_in_done :=
  cbn;
  split; [reflexivity|]; split;
  [ intros Hf;
    first [ cbn in Hf; discriminate Hf
          | split; [reqs; reflexivity | untouched_done] ]
  | intros r0 Hr0 Hok0;
    first [ discriminate Hr0
          | injection Hr0 as <-; cbn in Hok0;
            first [ discriminate Hok0
                  | cbn; split; [reqs; reflexivity|]; split;
                    [ intros Hn; second_answer Hn;
                      first [ untouched_done
                            | destruct Hn as [Hn|Hn]; cbn in Hn;
                              first [discriminate Hn | congruence] ]
                    | intros r1 p1 ps1 Hr1 Hok1 Hp1; second_answer Hr1;
                      first [ discriminate Hr1
                            | injection Hr1 as <-; cbn in Hok1, Hp1;
                              first [discriminate Hok1 | congruence | session_done] ] ] ] ] ].

(** X16. Signing in, in the first revision, is all or nothing.
    [signInWithCustomToken], [signUp] and [signIn] send the exchange with
    [returnSecureToken] and then the lookup with the [idToken] of the
    answer.  When both are answered, the profile becomes the session, with
    the tokens of the exchange and [expiresAt] one hour after the date of
    its response, in memory and in the storage, and every listener is
    called once for each registration.  When either fails, the call is
    rejected, and the instance, also a session it had, the storage and
    the listeners are left alone. *)
Theorem sign_in_is_all_or_nothing
    (humanReadableErrors : string -> option string)
    (JSON_stringify : BodyObject -> string)
    (server : nat -> Request -> FetchOutcome) (a : Auth)
    (store : gmap string StoreVal) (t : Z) (c : Credential) (extra : nat) :
  signs_in server a store (sign_in_request JSON_stringify a c)
    (fun r => date r + 3600 * 1000)%Z
    (run server (7 + extra) 0
       (snd (invoke (sign_in humanReadableErrors JSON_stringify c) (idle a store t)))).
Proof.
  unfold signs_in. destruct (user a) as [u|] eqn:Hu.
  all: destruct c as [token|email password|email password].
  all: unfold sign_in, sign_in_request, invoke, V1_rest.signInWithCustomToken,
         V1_rest.signUp, V1_rest.signIn, V1.fetchProfile, tokens_of; cbn.
  all: go server; sign_in_done.
Qed.

Lemma sign_in_is_all_or_nothing_witness :
  let a := sample_auth None [7] in
  let c := Password (Some "test@example.com") (Some "secret") in
  let wf := run sign_in_server (7 + 0) 0
              (snd (invoke (sign_in no_table sample_stringify c) (idle a ∅ 1000))) in
  user (this wf)
  = Some {| profile := {[ "updated" := "true" ]};
            tokenManager := {| idToken := Some "123"; refreshToken := Some "456";
                               expiresAt := 1586516893000 + 3600 * 1000 |} |}
  /\ notified 7 wf = 1.
Proof.
  cbn zeta.
  destruct (sign_in_is_all_or_nothing no_table sample_stringify sign_in_server
              (sample_auth None [7]) ∅ 1000
              (Password (Some "test@example.com") (Some "secret")) 0)
    as (_ & _ & T).
  destruct (T _ eq_refl eq_refl) as (_ & _ & T1).
  destruct (T1 _ {[ "kind" := "identitytoolkit#user"; "updated" := "true" ]} []
              eq_refl eq_refl eq_refl) as (_ & T2 & _ & T3).
  split; [rewrite T2; vm_compute; reflexivity | exact (T3 7)].
Defined.

(* ===================================================================== *)
(** ** Coming back from a redirect *)
(* ===================================================================== *)

Definition has_separator (s : string) : bool :=
  existsb is_separator (list_ascii_of_string s).

Definition has_ampersand (s : string) : bool :=
  existsb (Ascii.eqb "&") (list_ascii_of_string s).

Lemma has_separator_String c s :
  has_separator (String c s) = is_separator c || has_separator s.
Proof. reflexivity. Qed.

Lemma has_ampersand_String c s :
  has_ampersand (String c s) = Ascii.eqb "&" c || has_ampersand s.
Proof. reflexivity. Qed.

Lemma append_assoc (s1 s2 s3 : string) : (s1 +:+ s2) +:+ s3 = s1 +:+ s2 +:+ s3.
Proof. induction s1 as [|c s1 IH]; [done|]. rewrite !append_String. by rewrite IH. Qed.

Lemma strip_prefix_app (p s : string) : strip_prefix p (p +:+ s) = Some s.
Proof.
  induction p as [|c p IH]; [done|].
  rewrite append_String. cbn. by rewrite Ascii.eqb_refl.
Qed.

Lemma strip_prefix_across (p base tail : string) (sep : ascii) :
  has_separator p = false -> is_separator sep = true ->
  strip_prefix p base = None ->
  strip_prefix p (base +:+ String sep tail) = None.
Proof.
  intros Hp Hsep. revert base. induction p as [|a p IH]; intros base Hb; [done|].
  rewrite has_separator_String in Hp. apply orb_false_iff in Hp as [Ha Hp].
  destruct base as [|b base].
  - rewrite append_empty. cbn [strip_prefix]. destruct (Ascii.eqb a sep) eqn:Heq; [|done].
    apply Ascii.eqb_eq in Heq. subst. congruence.
  - rewrite append_String. cbn [strip_prefix] in *.
    destruct (Ascii.eqb a b); [|done]. by apply IH.
Qed.

Lemma until_ampersand_app (value rest : string) :
  has_ampersand value = false ->
  rest = EmptyString \/ (exists r, rest = String "&" r) ->
  until_ampersand (value +:+ rest) = value.
Proof.
  intros Hv Hr. induction value as [|c value IH].
  - rewrite append_empty. destruct Hr as [->|[r ->]]; reflexivity.
  - rewrite has_ampersand_String in Hv. apply orb_false_iff in Hv as [Hc Hv].
    rewrite append_String. cbn [until_ampersand]. rewrite Ascii.eqb_sym, Hc.
    by rewrite IH.
Qed.

Lemma capture_param_found (name base value rest : string) (sep : ascii) :
  has_separator name = false ->
  has_param name base = false ->
  is_separator sep = true ->
  value <> EmptyString -> has_ampersand value = false ->
  rest = EmptyString \/ (exists r, rest = String "&" r) ->
  capture_param name (base +:+ String sep (name +:+ "=" +:+ value +:+ rest)) = Some value.
Proof.
  intros Hn Hb Hsep Hv Ha Hr. rewrite <- (append_assoc name "=" (value +:+ rest)).
  assert (Hn' : has_separator (name +:+ "=") = false).
  { clear -Hn. induction name as [|c name IH]; [done|].
    rewrite append_String, has_separator_String.
    rewrite has_separator_String in Hn.
    apply orb_false_iff in Hn as [Hc Hn]. rewrite Hc. by apply IH. }
  induction base as [|c base IH].
  - rewrite append_empty. cbn [capture_param]. rewrite Hsep, strip_prefix_app.
    rewrite until_ampersand_app by done. by destruct value.
  - rewrite append_String. cbn [capture_param].
    cbn [has_param] in Hb. apply orb_false_iff in Hb as [Hc Hb].
    destruct (is_separator c) eqn:Hsc; [|by apply IH].
    cbn [andb] in Hc. destruct (strip_prefix (name +:+ "=") base) eqn:Hp; [done|].
    rewrite strip_prefix_across by done. by apply IH.
Qed.

Lemma capture_param_has_param (name href value : string) :
  capture_param name href = Some value -> has_param name href = true.
Proof.
  induction href as [|c href IH]; [done|]. cbn [capture_param has_param].
  destruct (is_separator c); cbn [andb orb]; [|exact IH].
  destruct (strip_prefix (name +:+ "=") href); cbn [andb orb]; [done|exact IH].
Qed.

Lemma no_separator_no_param (name href : string) :
  has_separator href = false ->
  has_param name href = false /\ capture_param name href = None.
Proof.
  induction href as [|c href IH]; [done|]. intros H.
  rewrite has_separator_String in H. apply orb_false_iff in H as [Hc H].
  cbn [capture_param has_param]. rewrite Hc. cbn [andb orb]. by apply IH.
Qed.

(** X17. The email of a sign-in link, from [sendOobCode] to
    [handleSignInRedirect].  [sendOobCode] puts the email, as it is, after
    [redirectUri + "?email="]; [handleSignInRedirect] takes what follows
    the first [?email=] or [&email=] up to the next ampersand.  So for a
    [redirectUri] without an [email] parameter of its own and an email
    that is not empty and has no ampersand, the email read from the link,
    with or without further parameters after it, is the email sent; and
    an email with an ampersand comes back cut at the ampersand. *)
Theorem email_survives_the_redirect (redirect email rest cut : string) :
  has_param "email" redirect = false ->
  email <> EmptyString -> has_ampersand email = false ->
  rest = EmptyString \/ (exists r, rest = String "&" r) ->
  capture_param "email" (continueUrl_of (Some redirect) (Some email) +:+ rest) = Some email
  /\ capture_param "email"
       (continueUrl_of (Some redirect) (Some (email +:+ "&" +:+ cut)) +:+ rest)
     = Some email.
Proof.
  intros Hr He Ha Hrest. unfold continueUrl_of. cbn [js_string]. split.
  - rewrite append_assoc.
    change ("?email=" +:+ email) with (String "?" ("email" +:+ "=" +:+ email)).
    rewrite append_String, !append_assoc.
    by apply capture_param_found.
  - rewrite append_assoc.
    change ("?email=" +:+ email +:+ "&" +:+ cut)
      with (String "?" ("email" +:+ "=" +:+ email +:+ "&" +:+ cut)).
    rewrite append_String, !append_assoc.
    apply capture_param_found; try done. right. by eexists.
Qed.

Lemma email_survives_the_redirect_witness :
  has_param "email" "https://app.example/finish" = false
  /\ "test@example.com" <> EmptyString
  /\ has_ampersand "test@example.com" = false
  /\ capture_param "email"
       (continueUrl_of (Some "https://app.example/finish") (Some "test@example.com")
        +:+ "&oobCode=abc&mode=signIn")
     = Some "test@example.com".
Proof.
  assert (He : "test@example.com" <> EmptyString) by discriminate.
  split; [reflexivity|]. split; [exact He|]. split; [reflexivity|].
  exact (proj1 (email_survives_the_redirect "https://app.example/finish"
                  "test@example.com" "&oobCode=abc&mode=signIn" "x"
                  eq_refl He eq_refl (or_intror (ex_intro _ "oobCode=abc&mode=signIn" eq_refl)))).
Defined.

Lemma only_param (name base tail : string) :
  has_separator base = false -> has_separator tail = false ->
  has_param name (base +:+ String "?" tail)
  = (if strip_prefix (name +:+ "=") tail is Some _ then true else false)
  /\ (strip_prefix (name +:+ "=") tail = None ->
      capture_param name (base +:+ String "?" tail) = None).
Proof.
  intros Hb Ht. destruct (no_separator_no_param name tail Ht) as [Hh Hc].
  induction base as [|c base IH].
  - rewrite append_empty. cbn [has_param capture_param].
    change (is_separator "?") with true. cbn [andb]. rewrite Hh, Hc, orb_false_r.
    split; [done|]. by intros ->.
  - rewrite has_separator_String in Hb. apply orb_false_iff in Hb as [Hc' Hb].
    rewrite append_String. cbn [has_param capture_param]. rewrite Hc'. cbn [andb orb].
    by apply IH.
Qed.

(** X18. What [handleSignInRedirect] does with an address that is not a
    complete redirect.  Without a [code] and without an [oobCode]
    parameter it resolves at once and does nothing.  With an [oobCode]
    parameter (and no [code]) but without a value for [oobCode] or for
    [email], it does not fail silently: it is rejected at once with a
    [TypeError], and nothing was sent or written; an address that ends in
    [?oobCode=...], without any further parameter, is of that kind.  With
    a [code] parameter it is the redirect of a provider, even if there is
    an [oobCode] too.  Both revisions. *)
Theorem handleSignInRedirect_incomplete
    (humanReadableErrors : string -> option string)
    (JSON_stringify : BodyObject -> string) (a : Auth)
    (store : gmap string StoreVal) (t : Z) (href base code : string) :
  let call2 := snd (invoke (V2_rest.handleSignInRedirect JSON_stringify href)
                      (idle a store t)) in
  let call1 := snd (invoke (V1_rest.handleSignInRedirect humanReadableErrors
                              JSON_stringify href) (idle a store t)) in
  let settled r :=
    {| this := a; localStorage := store; clock := t; trace := [];
       promises := [Settled r] |} in
  (has_param "code" href = false -> has_param "oobCode" href = false ->
   call2 = settled (inr VUndef) /\ call1 = settled (inr VUndef))
  /\ (has_param "code" href = false -> has_param "oobCode" href = true ->
      capture_param "oobCode" href = None \/ capture_param "email" href = None ->
      call2 = settled (inl null_index) /\ call1 = settled (inl null_index))
  /\ (has_separator base = false -> has_separator code = false ->
      href = base +:+ "?oobCode=" +:+ code ->
      has_param "code" href = false /\ has_param "oobCode" href = true
      /\ capture_param "email" href = None)
  /\ (has_param "code" href = true ->
      V2_rest.handleSignInRedirect JSON_stringify href
      = await_ (V2.finishProviderSignIn href)
      /\ V1_rest.handleSignInRedirect humanReadableErrors JSON_stringify href
         = await_ (V1.finishProviderSignIn humanReadableErrors href)).
Proof.
  cbn zeta. unfold invoke, V2_rest.handleSignInRedirect, V1_rest.handleSignInRedirect.
  split_and!.
  - intros -> ->. done.
  - intros -> -> [H|H].
    + rewrite H. done.
    + rewrite H. destruct (capture_param "oobCode" href); done.
  - intros Hb Hc ->.
    change ("?oobCode=" +:+ code) with (String "?" ("oobCode=" +:+ code)).
    assert (Ht : has_separator ("oobCode=" +:+ code) = false) by exact Hc.
    destruct (only_param "code" base _ Hb Ht) as [-> _].
    destruct (only_param "oobCode" base _ Hb Ht) as [-> _].
    destruct (only_param "email" base _ Hb Ht) as [_ ->]; done.
  - intros ->. done.
Qed.

Lemma handleSignInRedirect_incomplete_witness :
  let href := "https://app.example/finish?oobCode=abc" in
  has_param "code" href = false /\ has_param "oobCode" href = true
  /\ capture_param "email" href = None
  /\ snd (invoke (V2_rest.handleSignInRedirect (fun _ => EmptyString) href)
            (idle (sample_auth None []) ∅ 0))
     = {| this := sample_auth None []; localStorage := ∅; clock := 0; trace := [];
          promises := [Settled (inl null_index)] |}.
Proof.
  cbn zeta.
  destruct (handleSignInRedirect_incomplete no_table (fun _ => EmptyString) (sample_auth None [])
              ∅ 0 "https://app.example/finish?oobCode=abc" "https://app.example/finish"
              "abc") as (_ & T2 & T3 & _).
  destruct (T3 eq_refl eq_refl eq_refl) as (H1 & H2 & H3).
  split; [exact H1|]. split; [exact H2|]. split; [exact H3|].
  exact (proj1 (T2 H1 H2 (or_intror H3))).
Defined.

Definition is_replaceState (e : Event) : bool :=
  match e with EvReplaceState => true | _ => false end.

(** Was [history.replaceState] called? *)
Definition address_cleaned (w : World) : bool := existsb is_replaceState (trace w).

Lemma existsb_replaceState_notify u (l : list Listener) :
  existsb is_replaceState (map (fun cb => EvNotify cb u) l) = false.
Proof. induction l as [|cb l IH]; cbn; [done|]. exact IH. Qed.

Ltac cleaned :=
  unfold address_cleaned; cbn;
  rewrite ?existsb_app; cbn; rewrite ?existsb_replaceState_notify; cbn.

(** X19. The email-link sign-in of [handleSignInRedirect].  For an address
    with the [oobCode] and [email] parameters, and no [code], it sends the
    texts of the two parameters, as they stand in the address, to
    [signInWithEmailLink], and then signs in like the other methods, all
    or nothing, except that the tokens expire one hour after the clock at
    the call, not after the date of the response.  The address is cleaned
    with [history.replaceState] exactly when the sign-in succeeded.  Both
    revisions. *)
Theorem email_link_signs_in
    (humanReadableErrors : string -> option string)
    (JSON_stringify : BodyObject -> string)
    (server : nat -> Request -> FetchOutcome) (a : Auth)
    (store : gmap string StoreVal) (t : Z) (href code email : string) (extra : nat)
    (handle : Prog Val) :
  has_param "code" href = false ->
  capture_param "oobCode" href = Some code ->
  capture_param "email" href = Some email ->
  handle = V2_rest.handleSignInRedirect JSON_stringify href
  \/ handle = V1_rest.handleSignInRedirect humanReadableErrors JSON_stringify href ->
  let exchange :=
    api_request a "signInWithEmailLink"
      (TextBody (JSON_stringify (EmailLinkObject code email))) in
  let wf := run server (7 + extra) 0 (snd (invoke handle (idle a store t))) in
  signs_in server a store exchange (fun _ => t + 3600 * 1000)%Z wf
  /\ (address_cleaned wf = true <-> outcome 0 wf = Some (Settled (inr VUndef))).
Proof.
  intros Hc Ho He Hrev. cbn zeta.
  pose proof (capture_param_has_param _ _ _ Ho) as Hh.
  unfold signs_in.
  destruct Hrev as [-> | ->].
  - unfold invoke, V2_rest.handleSignInRedirect, V2.fetchProfile.
    rewrite Hc, Hh, Ho, He. cbn.
    go server.
    all: split; [sign_in_done | cleaned; split; intros; first [done | discriminate]].
  - unfold invoke, V1_rest.handleSignInRedirect, V1.fetchProfile.
    rewrite Hc, Hh, Ho, He. cbn.
    destruct (user a) as [u|] eqn:Hu; cbn.
    all: go server.
    all: split; [sign_in_done | cleaned; split; intros; first [done | discriminate]].
Qed.

Lemma email_link_signs_in_witness :
  let a := sample_auth None [7] in
  let wf := run sign_in_server (7 + 0) 0
              (snd (invoke (V2_rest.handleSignInRedirect sample_stringify sample_link)
                      (idle a ∅ 1000))) in
  has_param "code" sample_link = false
  /\ capture_param "oobCode" sample_link = Some "abc"
  /\ capture_param "email" sample_link = Some "test@example.com"
  /\ address_cleaned wf = true
  /\ user (this wf)
     = Some {| profile := {[ "updated" := "true" ]};
               tokenManager := {| idToken := Some "123"; refreshToken := Some "456";
                                  expiresAt := 1000 + 3600 * 1000 |} |}.
Proof.
  cbn zeta.
  destruct (email_link_signs_in no_table sample_stringify sign_in_server
              (sample_auth None [7]) ∅ 1000 sample_link "abc" "test@example.com" 0
              (V2_rest.handleSignInRedirect sample_stringify sample_link)
              eq_refl eq_refl eq_refl (or_introl eq_refl))
    as ((_ & _ & T) & Tc).
  destruct (T _ eq_refl eq_refl) as (_ & _ & T1).
  destruct (T1 _ {[ "kind" := "identitytoolkit#user"; "updated" := "true" ]} []
              eq_refl eq_refl eq_refl) as (To & T2 & _).
  split; [reflexivity|]. split; [reflexivity|]. split; [reflexivity|].
  split; [exact (proj2 Tc To)|]. rewrite T2. vm_compute. reflexivity.
Defined.

(* ===================================================================== *)
(** ** Out-of-band codes *)
(* ===================================================================== *)

(** The request of [sendOobCode]. *)
Definition oob_request (JSON_stringify : BodyObject -> string) (a : Auth)
    (idTok : option string) (requestType : string) (email : option string) : Request :=
  api_request a "sendOobCode"
    (TextBody (JSON_stringify
                 (OobCodeObject idTok requestType email
                    (continueUrl_of (redirectUri a) email)))).

(** X20. [sendOobCode] does not wait for the server.  For a request type
    other than [VERIFY_EMAIL] the request is sent at the call, without an
    [idToken], with the email given and with [redirectUri + "?email=" +
    email] as [continueUrl], and the call is resolved at the call.
    Whatever the server answers afterwards, an error included, the call
    stays resolved, the answer settles only the promise of [api], which
    nobody holds, and the instance and the storage are as before.  Both
    revisions. *)
Theorem sendOobCode_does_not_wait
    (humanReadableErrors : string -> option string)
    (JSON_stringify : BodyObject -> string) (a : Auth)
    (store : gmap string StoreVal) (t : Z) (requestType : string)
    (email : option string) (sendOobCode : Prog Val) :
  requestType <> "VERIFY_EMAIL" ->
  sendOobCode = V2_rest.sendOobCode JSON_stringify requestType email
  \/ sendOobCode = V1_rest.sendOobCode humanReadableErrors JSON_stringify requestType email ->
  let call := invoke sendOobCode (idle a store t) in
  let sent := oob_request JSON_stringify a None requestType email in
  fst call = 1
  /\ outcome 1 (snd call) = Some (Settled (inr VUndef))
  /\ trace (snd call) = [EvFetch sent]
  /\ forall answer, exists r,
       turn 0 answer (snd call)
       = Some {| this := a; localStorage := store; clock := t;
                 trace := [EvFetch sent];
                 promises := [Settled r; Settled (inr VUndef)] |}.
Proof.
  intros Hrt Hrev. apply String.eqb_neq in Hrt. cbn zeta. unfold oob_request.
  destruct Hrev as [-> | ->].
  - unfold invoke, V2_rest.sendOobCode. rewrite Hrt. cbn.
    split_and!; try reflexivity.
    intros [e|[[] dt d]]; unfold turn, resume; cbn; [by eexists | by eexists |].
    destruct (data_error_message d); by eexists.
  - unfold invoke, V1_rest.sendOobCode. rewrite Hrt. cbn.
    split_and!; try reflexivity.
    intros [e|[[] dt d]]; unfold turn, resume; cbn; [by eexists | by eexists |].
    destruct (data_error_message d); by eexists.
Qed.

Lemma sendOobCode_does_not_wait_witness :
  let a := sample_auth None [7] in
  let call := invoke (V2_rest.sendOobCode sample_stringify "PASSWORD_RESET"
                        (Some "test@example.com")) (idle a ∅ 0) in
  "PASSWORD_RESET" <> "VERIFY_EMAIL"
  /\ outcome 1 (snd call) = Some (Settled (inr VUndef))
  /\ exists r, turn 0 (refuse "EMAIL_NOT_FOUND") (snd call)
       = Some {| this := a; localStorage := ∅; clock := 0;
                 trace := [EvFetch (oob_request sample_stringify a None "PASSWORD_RESET"
                                      (Some "test@example.com"))];
                 promises := [Settled r; Settled (inr VUndef)] |}.
Proof.
  cbn zeta.
  assert (Hne : "PASSWORD_RESET" <> "VERIFY_EMAIL") by discriminate.
  destruct (sendOobCode_does_not_wait no_table sample_stringify (sample_auth None [7]) ∅ 0
              "PASSWORD_RESET" (Some "test@example.com")
              (V2_rest.sendOobCode sample_stringify "PASSWORD_RESET" (Some "test@example.com"))
              Hne (or_introl eq_refl))
    as (_ & T1 & _ & T2).
  split; [exact Hne|]. split; [exact T1|]. exact (T2 (refuse "EMAIL_NOT_FOUND")).
Defined.

(** X21. [sendOobCode('VERIFY_EMAIL', email)] with a session whose token
    has not expired ignores its [email] argument: one turn after the call
    the request is sent with the [idToken] and the [email] of the session,
    also in [continueUrl], and the call is resolved.  Both revisions. *)
Theorem sendOobCode_verifies_the_session_email
    (humanReadableErrors : string -> option string)
    (JSON_stringify : BodyObject -> string) (a : Auth)
    (server : nat -> Request -> FetchOutcome)
    (store : gmap string StoreVal) (t : Z) (u : User)
    (email : option string) (sendOobCode : Prog Val) :
  user a = Some u ->
  (t < expiresAt (tokenManager u))%Z ->
  sendOobCode = V2_rest.sendOobCode JSON_stringify "VERIFY_EMAIL" email
  \/ sendOobCode = V1_rest.sendOobCode humanReadableErrors JSON_stringify "VERIFY_EMAIL" email ->
  let sent := oob_request JSON_stringify a (idToken (tokenManager u)) "VERIFY_EMAIL"
                (profile u !! "email") in
  let w := run server 1 0 (snd (invoke sendOobCode (idle a store t))) in
  outcome 0 w = Some (Settled (inr VUndef))
  /\ trace w = [EvFetch sent]
  /\ this w = a /\ localStorage w = store.
Proof.
  intros Hu Ht Hrev. apply Z.ltb_lt in Ht. cbn zeta. unfold oob_request.
  destruct Hrev as [-> | ->].
  - unfold invoke, V2_rest.sendOobCode, V2.enforceAuth, V2.refreshIdToken. cbn.
    rewrite Hu. cbn. rewrite Hu, Ht. cbn. tick. repeat (rewrite Hu; cbn).
    rewrite run_out. done.
  - unfold invoke, V1_rest.sendOobCode, V1.enforceAuth, V1.refreshIdToken. cbn.
    rewrite Hu. cbn. rewrite Hu, Ht. cbn. tick. repeat (rewrite Hu; cbn).
    rewrite run_out. done.
Qed.

Lemma sendOobCode_verifies_the_session_email_witness :
  let server := fun (_ : nat) (_ : Request) => respond no_data in
  let w := run server 1 0
             (snd (invoke (V2_rest.sendOobCode sample_stringify "VERIFY_EMAIL"
                             (Some "other@example.com")) (idle fresh_auth ∅ 1000))) in
  user fresh_auth = Some (sample_user 5000)
  /\ (1000 < expiresAt (tokenManager (sample_user 5000)))%Z
  /\ trace w = [EvFetch (oob_request sample_stringify fresh_auth (Some "idTokenString")
                           "VERIFY_EMAIL" (Some "test@example.com"))].
Proof.
  cbn zeta.
  assert (Ht : Z.lt 1000 (expiresAt (tokenManager (sample_user 5000)))) by reflexivity.
  destruct (sendOobCode_verifies_the_session_email no_table sample_stringify fresh_auth
              (fun _ _ => respond no_data) ∅ 1000 (sample_user 5000)
              (Some "other@example.com")
              (V2_rest.sendOobCode sample_stringify "VERIFY_EMAIL" (Some "other@example.com"))
              eq_refl Ht (or_introl eq_refl))
    as (_ & T & _).
  split; [reflexivity|]. split; [exact Ht|]. rewrite T. vm_compute. reflexivity.
Defined.

(* ===================================================================== *)
(** ** Signing out while a refresh is on its way *)
(* ===================================================================== *)

(** The session that a refresh writes when it finds no session: the new
    tokens, and no profile. *)
Definition tokens_only (dt : Z) (d : Data) : User :=
  {| profile := ∅;
     tokenManager := {| idToken := data_id_token d;
                        refreshToken := data_refresh_token d;
                        expiresAt := dt + 3600 * 1000 |} |}.

(** [refreshIdToken()] and then, in the same turn, [signOut()]. *)
Definition refresh_then_signOut (refresh signOut : Prog Val) (w : World) : World :=
  snd (invoke signOut (snd (invoke refresh w))).

(** X22. A sign-out made while a refresh is on its way does not last.
    When [signOut] is called right after [refreshIdToken] on a session
    whose token has expired, and completes, listeners told, before the
    server answers the refresh, the answer brings a session back: the
    refresh spreads the session it finds, which is none, under the new
    tokens, so that the instance ends with a session of the new tokens and
    no profile, in memory and in the storage.  The second revision tells
    no listener of it; the first one calls them with it. *)
Theorem signOut_during_refresh_is_undone
    (humanReadableErrors : string -> option string) (a : Auth)
    (store : gmap string StoreVal) (t : Z) (u : User) (dt : Z) (d : Data)
    (o : FetchOutcome) :
  user a = Some u ->
  (expiresAt (tokenManager u) <= t)%Z ->
  refreshRequest a = None ->
  let answer := FetchResponse {| ok := true; date := dt; json := d |} in
  let session := Some (tokens_only dt d) in
  let key := V2.sKey a "User" in
  let told_none := map (fun cb => EvNotify cb None) (listeners a) in
  let told_session := map (fun cb => EvNotify cb session) (listeners a) in
  exists w2 w1,
    turns [(2, o); (0, answer); (0, o); (1, o)]
      (refresh_then_signOut V2.refreshIdToken V2.signOut (idle a store t)) = Some w2
    /\ turns [(2, o); (0, answer); (1, o); (1, o); (1, o)]
         (refresh_then_signOut (V1.refreshIdToken humanReadableErrors) V1.signOut
            (idle a store t)) = Some w1
    /\ quiescent w2 /\ quiescent w1
    /\ user (this w2) = session /\ user (this w1) = session
    /\ localStorage w2 = <[key := SJson session]> (delete key store)
    /\ localStorage w1 = <[key := SJson session]> (delete key store)
    /\ List.filter is_storage_write (trace w2)
       = [EvStorageRemove key; EvStorageSet key (SJson session)]
    /\ (forall cb, List.filter (is_notify cb) (trace w2)
                   = List.filter (is_notify cb) told_none)
    /\ (forall cb, List.filter (is_notify cb) (trace w1)
                   = List.filter (is_notify cb) (told_none ++ told_session)).
Proof.
  intros Hu Ht Href. apply Z.ltb_ge in Ht. cbn zeta.
  unfold refresh_then_signOut, invoke, V2.refreshIdToken, V1.refreshIdToken,
    V2.signOut, V1.signOut, V2.setState, V1.persistSession.
  cbn. rewrite Hu, Ht, Href. cbn.
  unfold turn, resume. cbn. repeat (notify; cbn). keys.
  eexists _, _. split; [reflexivity|]. split; [reflexivity|]. cbn.
  split_and!; try reflexivity.
  - rewrite !List.filter_app. cbn.
    assert (Hn : forall s (l : list Listener),
               List.filter is_storage_write (map (fun cb => EvNotify cb s) l) = []).
    { intros s l. induction l as [|c l IH]; cbn; [done|]. exact IH. }
    by rewrite Hn.
  - intros cb. rewrite !List.filter_app. cbn. by rewrite !app_nil_r.
  - intros cb. rewrite !List.filter_app. cbn. by rewrite ?app_nil_r.
Qed.

Lemma signOut_during_refresh_is_undone_witness :
  user expired_auth = Some (sample_user 0)
  /\ (expiresAt (tokenManager (sample_user 0)) <= 1000)%Z
  /\ refreshRequest expired_auth = None
  /\ exists w2,
       turns [(2, respond no_data); (0, respond sample_token_data);
              (0, respond no_data); (1, respond no_data)]
         (refresh_then_signOut V2.refreshIdToken V2.signOut
            (idle expired_auth (sample_store 0) 1000)) = Some w2
       /\ user (this w2) = Some (tokens_only 1586516893000 sample_token_data).
Proof.
  assert (Ht : Z.le (expiresAt (tokenManager (sample_user 0))) 1000)
    by (vm_compute; discriminate).
  destruct (signOut_during_refresh_is_undone no_table expired_auth (sample_store 0) 1000
              (sample_user 0) 1586516893000 sample_token_data (respond no_data)
              eq_refl Ht eq_refl)
    as (w2 & w1 & T2 & _ & _ & _ & Tu & _).
  split; [reflexivity|]. split; [exact Ht|]. split; [reflexivity|].
  exists w2. split; [exact T2 | exact Tu].
Defined.
